(** * ShiftManagement: a shallow embedding of [src/ShiftManagement.jsx]

    The component keeps a list of vacancies fetched from a REST endpoint,
    filters it client-side by a debounced price range, and edits one
    vacancy at a time in a slide-out form with a list of dated shifts.

    Conventions of the embedding:
    - a JavaScript number is an integer or [NaN] (prices, minutes and
      slider bounds are integers in this program; the rounding of
      integers beyond 2^53 is not modelled);
    - a JavaScript string is a [string] of 8-bit characters (dates and
      times are ASCII);
    - [localeCompare] is the order of code units, which is the host's
      collation on strings of digits and hyphens only: what is proved of
      the order of the rows is stated for such dates ([plain_date]);
    - an object used as a dictionary (the validation errors) is a [gmap]
      keyed by strings;
    - React state is a record, a handler is a computation in a small
      monad that threads the state, may throw, and records its visible
      effects (alerts, console diagnostics, network requests);
    - the network is an oracle: the outcome of each request is an argument
      of the handler that issues it. *)

From Stdlib Require Import ZArith Lia Bool List Ascii String Permutation Sorted.
From stdpp Require Import base tactics option list sorting gmap strings pretty.

Local Open Scope string_scope.
Local Open Scope Z_scope.

(** ** JavaScript values *)

(** Numbers: an integer or NaN. *)
Inductive number : Type :=
| Int (z : Z)
| NaN.

Module Num.

(** [a <= b]: false as soon as one side is NaN. *)
Definition le (a b : number) : bool :=
  match a, b with
  | Int x, Int y => x <=? y
  | _, _ => false
  end.

(** [a >= b]. *)
Definition ge (a b : number) : bool :=
  match a, b with
  | Int x, Int y => y <=? x
  | _, _ => false
  end.

Definition add (a b : number) : number :=
  match a, b with
  | Int x, Int y => Int (x + y)
  | _, _ => NaN
  end.

Definition mul (a b : number) : number :=
  match a, b with
  | Int x, Int y => Int (x * y)
  | _, _ => NaN
  end.

(** The global [isNaN]. *)
Definition isNaN (a : number) : bool :=
  match a with
  | NaN => true
  | Int _ => false
  end.

End Num.

(** ** Data model *)

(** A shift, as sent by the backend under the key [swifts] and as held in
    the form draft. *)
Record Shift : Type := mkShift {
  date : string;
  start_time : string;
  end_time : string;
  type : string;
  price : number
}.

Module Vacancy.
(** A vacancy of the fetched list.  [title], [description] and [swifts]
    may be missing or null in the response; [None] stands for any falsy
    value. *)
Record t : Type := mk {
  id : Z;
  title : option string;
  description : option string;
  swifts : option (list Shift)
}.
End Vacancy.

(** ** Client-side filtering *)

(** [filteredVacancies], the body of the [useMemo]. *)
Definition filteredVacancies (rawVacancies : list Vacancy.t)
    (actualMinPrice actualMaxPrice : Z) : list Vacancy.t :=
  let filtered := rawVacancies in
  if (0 <? actualMinPrice) || (actualMaxPrice <? 1000) then
    List.filter
      (fun vacancy =>
         match Vacancy.swifts vacancy with
         | None => false
         | Some swifts =>
             if (length swifts =? 0)%nat then false
             else
               let hasMatchingShift :=
                 existsb
                   (fun swift =>
                      Num.ge (price swift) (Int actualMinPrice)
                      && Num.le (price swift) (Int actualMaxPrice))
                   swifts in
               hasMatchingShift
         end)
      filtered
  else
    List.filter
      (fun vacancy =>
         match Vacancy.swifts vacancy with
         | None => false
         | Some swifts => (0 <? length swifts)%nat
         end)
      filtered.

(** The filter as the specification words it: a vacancy is kept when its
    shift list is present and non-empty and, if the range is narrower than
    the default [0, 1000], some shift has its price within the range. *)
Definition has_shifts (v : Vacancy.t) : bool :=
  match Vacancy.swifts v with
  | Some (_ :: _) => true
  | _ => false
  end.

Definition price_in_range (min max : Z) (s : Shift) : bool :=
  match price s with
  | Int p => (min <=? p) && (p <=? max)
  | NaN => false
  end.

Definition range_active (min max : Z) : bool :=
  (0 <? min) || (max <? 1000).

Definition spec_keeps (min max : Z) (v : Vacancy.t) : bool :=
  has_shifts v
  && (if range_active min max
      then existsb (price_in_range min max) (default [] (Vacancy.swifts v))
      else true).

Definition spec_filter (raw : list Vacancy.t) (min max : Z) : list Vacancy.t :=
  List.filter (spec_keeps min max) raw.

(** The same condition as a proposition. *)
Definition kept (min max : Z) (v : Vacancy.t) : Prop :=
  exists sw, Vacancy.swifts v = Some sw /\ sw <> [] /\
    ((min > 0 \/ max < 1000) ->
     exists s p, In s sw /\ price s = Int p /\ min <= p <= max).

(** ** Strings *)

Module Str.

(** [s.split(sep)] for a one-character separator: the pieces between
    the occurrences of [sep]; always at least one piece. *)
Fixpoint split (sep : ascii) (s : string) : list string :=
  match s with
  | EmptyString => [""]
  | String c rest =>
      if Ascii.eqb c sep then "" :: split sep rest
      else match split sep rest with
           | piece :: pieces => String c piece :: pieces
           | [] => [String c ""]
           end
  end.

(** [s.substring(from, to)]: the characters at positions [from] to
    [to - 1], both clamped to the length; the arguments are swapped
    when [from > to]. *)
Definition substring (s : string) (from to : nat) : string :=
  String.substring (Nat.min from to) (Nat.max from to - Nat.min from to) s.

(** A string is truthy when it is not empty. *)
Definition truthy (s : string) : bool :=
  match s with
  | EmptyString => false
  | String _ _ => true
  end.

(** [a.localeCompare(b)] as a negative, zero or positive number.  The
    host's collation is taken to be the order of code units, with which
    it agrees on strings of digits and hyphens, the characters a date is
    made of.  On other strings (letters of different case, for one) the
    host orders differently and this definition does not follow it: what
    is proved of the order the sort gives is stated for dates of digits
    and hyphens only, [plain_date] below. *)
Definition localeCompare (a b : string) : Z :=
  match String.compare a b with
  | Lt => -1
  | Eq => 0
  | Gt => 1
  end.

(** White space skipped by [parseInt] (the ASCII part of it). *)
Definition is_white (c : ascii) : bool :=
  let n := N_of_ascii c in
  ((9 <=? n) && (n <=? 13) || (n =? 32))%N.

Fixpoint trimStart (s : string) : string :=
  match s with
  | String c rest => if is_white c then trimStart rest else s
  | EmptyString => s
  end.

(** The value of a character as a digit, letters counting from 10. *)
Definition digit_value (c : ascii) : option Z :=
  let n := Z.of_N (N_of_ascii c) in
  if (48 <=? n) && (n <=? 57) then Some (n - 48)
  else if (97 <=? n) && (n <=? 122) then Some (n - 87)
  else if (65 <=? n) && (n <=? 90) then Some (n - 55)
  else None.

(** The value of the longest prefix of [s] made of digits of [radix];
    [acc] is the value read so far, [None] when no digit was read. *)
Fixpoint digits (radix : Z) (acc : option Z) (s : string) : option Z :=
  match s with
  | EmptyString => acc
  | String c rest =>
      match digit_value c with
      | Some d =>
          if d <? radix then digits radix (Some (default 0 acc * radix + d)) rest
          else acc
      | None => acc
      end
  end.

Definition strip_hex_prefix (s : string) : option string :=
  match s with
  | String "0" (String "x" rest) => Some rest
  | String "0" (String "X" rest) => Some rest
  | _ => None
  end.

(** [parseInt(s, radix)], with [radix = 0] for an omitted radix. *)
Definition parseInt (s : string) (radix : Z) : number :=
  let s := trimStart s in
  let '(sign, s) :=
    match s with
    | String "-" rest => (-1, rest)
    | String "+" rest => (1, rest)
    | _ => (1, s)
    end in
  if negb (radix =? 0) && ((radix <? 2) || (36 <? radix)) then NaN
  else
    let stripPrefix := (radix =? 0) || (radix =? 16) in
    let R := if radix =? 0 then 10 else radix in
    let '(R, s) :=
      match (if stripPrefix then strip_hex_prefix s else None) with
      | Some rest => (16, rest)
      | None => (R, s)
      end in
    match digits R None s with
    | Some n => Int (sign * n)
    | None => NaN
    end.

(** [parseInt(x)] where [x] may be [undefined] (a missing array
    element), which is first converted to the string "undefined". *)
Definition parseInt_elem (x : option string) : number :=
  match x with
  | Some s => parseInt s 0
  | None => parseInt "undefined" 0
  end.

(** An array element inside a template literal. *)
Definition interpolate (x : option string) : string :=
  match x with
  | Some s => s
  | None => "undefined"
  end.

End Str.

(** ** Arrays *)

Section Arrays.
Context {A : Type} (compareFn : A -> A -> Z).

(** Place [x] before the first element it may come before. *)
Fixpoint sort_insert (x : A) (l : list A) : list A :=
  match l with
  | [] => [x]
  | y :: rest =>
      if compareFn x y <=? 0 then x :: l else y :: sort_insert x rest
  end.

(** [array.sort(compareFn)].  The sort is stable, so for a consistent
    comparator its result is determined; it is computed by insertion
    from the right, which keeps equal elements in their order. *)
Definition sort (l : list A) : list A := foldr sort_insert [] l.

(** [array.forEach((x, index) => ...)] as a fold over an accumulator. *)
Fixpoint forEach_from {S : Type} (f : A -> nat -> S -> S)
    (index : nat) (l : list A) (acc : S) : S :=
  match l with
  | [] => acc
  | x :: rest => forEach_from f (Datatypes.S index) rest (f x index acc)
  end.

Definition forEach {S : Type} (f : A -> nat -> S -> S) (l : list A) (acc : S) : S :=
  forEach_from f 0%nat l acc.
End Arrays.

(** ** Module-level constants and helpers *)

Definition API_BASE_URL : string := "http://127.0.0.1:8000/api/vacancy".

Definition formatDateForAPI (dateStr : string) : string :=
  if negb (Str.truthy dateStr) then ""
  else
    let parts := Str.split "-" dateStr in
    let year := parts !! 0%nat in
    let month := parts !! 1%nat in
    let day := parts !! 2%nat in
    Str.interpolate day ++ "-" ++ Str.interpolate month ++ "-" ++ Str.interpolate year.

Definition formatTimeForAPI (timeStr : string) : string := timeStr.

(** [{ date, ...initialShiftDetails }]. *)
Definition initialShiftDetails (date : string) : Shift :=
  {| date := date;
     start_time := "09:00";
     end_time := "17:00";
     type := "Consultation";
     price := Int 70 |}.

(** [s.padStart(2, "0")]. *)
Definition padStart2 (s : string) : string :=
  match s with
  | String _ EmptyString => "0" ++ s
  | EmptyString => "00"
  | _ => s
  end.

(** [timeOptions], the times offered by the selects: every quarter of an
    hour of the day, as HH:MM. *)
Definition timeOptions : list string :=
  List.flat_map
    (fun i =>
       List.map
         (fun j => padStart2 (pretty i) ++ ":" ++ padStart2 (pretty (15 * j)%nat))
         (seq 0 4))
    (seq 0 24).

Definition shiftTypes : list string :=
  ["Consultation"; "Telephone"; "Ambulance"; "Emergency"].

Module FormData.
Record t : Type := mk {
  title : string;
  description : string;
  shifts : list Shift
}.
End FormData.

Definition initialFormData : FormData.t :=
  {| FormData.title := ""; FormData.description := ""; FormData.shifts := [] |}.

(** The validation error object: [title], [description] and [shifts] hold
    a message, [shiftDetails] holds the per-row messages under the keys
    [price-<index>] and [time-<index>]. *)
Inductive ErrorValue : Type :=
| Message (text : string)
| ShiftErrors (details : gmap string string).

Definition Object_keys {V : Type} (o : gmap string V) : list string :=
  (map_to_list o).*1.

(** ** Component state *)

Record State : Type := mkState {
  rawVacancies : list Vacancy.t;
  isLoading : bool;
  isDrawerOpen : bool;
  editingVacancy : option Vacancy.t;
  minPrice : Z;
  maxPrice : Z;
  actualMinPrice : Z;
  actualMaxPrice : Z;
  formData : FormData.t;
  dateInput : string;
  validationErrors : gmap string ErrorValue
}.

(** The state of the first render; [today] is the current date in
    YYYY-MM-DD form. *)
Definition initialState (today : string) : State :=
  {| rawVacancies := [];
     isLoading := true;
     isDrawerOpen := false;
     editingVacancy := None;
     minPrice := 0;
     maxPrice := 1000;
     actualMinPrice := 0;
     actualMaxPrice := 1000;
     formData := initialFormData;
     dateInput := today;
     validationErrors := ∅ |}.

(** ** Visible effects and the network *)

Record Payload : Type := mkPayload {
  payload_title : string;
  payload_description : string;
  payload_shifts : list Shift
}.

Inductive Effect : Type :=
| Alert (message : string)
| ConsoleError (message : string)
| Confirm (message : string)
| Fetch (method url : string) (body : option Payload).

(** What [response.json()] gives: a rejection when the body is not JSON,
    [null], or a value of which the code reads the truthiness of
    [success] and whether [data] is an array. *)
Inductive Json : Type :=
| JsonSyntaxError (message : string)
| JsonNull
| JsonValue (success : bool) (data : option (list Vacancy.t)).

Record Response : Type := mkResponse {
  status : Z;
  text : string;
  json : Json
}.

(** [response.ok]: the status is in the range 200-299. *)
Definition ok (response : Response) : bool :=
  (200 <=? status response) && (status response <=? 299).

(** The outcome of a [fetch]: the promise rejects (network failure) or
    resolves with a response. *)
Inductive NetResult : Type :=
| Rejected (message : string)
| Resolved (response : Response).

(** ** Handlers *)

Inductive Completion (A : Type) : Type :=
| Normal (a : A)
| Throw (message : string).
Arguments Normal {A} a.
Arguments Throw {A} message.

(** A handler runs on a state and ends normally or by a thrown error (of
    which the message is kept), in a new state, having produced effects. *)
Definition Handler (A : Type) : Type :=
  State -> Completion A * State * list Effect.

Definition ret {A} (a : A) : Handler A := fun s => (Normal a, s, []).

Definition bind {A B} (m : Handler A) (f : A -> Handler B) : Handler B :=
  fun s =>
    match m s with
    | (Normal a, s1, t1) => let '(r, s2, t2) := f a s1 in (r, s2, (t1 ++ t2)%list)
    | (Throw e, s1, t1) => (Throw e, s1, t1)
    end.

#[global] Instance handler_ret : MRet Handler := @ret.
#[global] Instance handler_bind : MBind Handler := fun A B f m => bind m f.

Definition throw {A} (message : string) : Handler A :=
  fun s => (Throw message, s, []).

(** [try { body } catch (error) { handler error.message }]. *)
Definition try_catch {A} (body : Handler A) (handler : string -> Handler A) : Handler A :=
  fun s =>
    match body s with
    | (Throw e, s1, t1) => let '(r, s2, t2) := handler e s1 in (r, s2, (t1 ++ t2)%list)
    | done => done
    end.

(** [try { body } finally { final }]. *)
Definition try_finally {A} (body : Handler A) (final : Handler unit) : Handler A :=
  fun s =>
    let '(r, s1, t1) := body s in
    let '(r', s2, t2) := final s1 in
    (match r' with Throw e => Throw e | Normal _ => r end, s2, (t1 ++ t2)%list).

(** The values a handler's closure captured: the state of the render the
    handler belongs to.  An event is handled on the latest render. *)
Definition closure : Handler State := fun s => (Normal s, s, []).

Definition perform (e : Effect) : Handler unit := fun s => (Normal tt, s, [e]).

Definition alert (message : string) : Handler unit := perform (Alert message).
Definition console_error (message : string) : Handler unit := perform (ConsoleError message).

(** [window.confirm(message)], answered by the user with [answer]. *)
Definition confirm (message : string) (answer : bool) : Handler bool :=
  perform (Confirm message) ;; ret answer.

(** [await fetch(url, {method, body})], with its outcome. *)
Definition fetch (method url : string) (body : option Payload)
    (outcome : NetResult) : Handler Response :=
  perform (Fetch method url body) ;;
  match outcome with
  | Rejected message => throw message
  | Resolved response => ret response
  end.

Definition update (f : State -> State) : Handler unit :=
  fun s => (Normal tt, f s, []).

(** The state with one field replaced. *)
Definition with_rawVacancies (v : list Vacancy.t) (s : State) : State :=
  mkState v (isLoading s) (isDrawerOpen s) (editingVacancy s)
    (minPrice s) (maxPrice s) (actualMinPrice s) (actualMaxPrice s)
    (formData s) (dateInput s) (validationErrors s).

Definition with_isLoading (v : bool) (s : State) : State :=
  mkState (rawVacancies s) v (isDrawerOpen s) (editingVacancy s)
    (minPrice s) (maxPrice s) (actualMinPrice s) (actualMaxPrice s)
    (formData s) (dateInput s) (validationErrors s).

Definition with_isDrawerOpen (v : bool) (s : State) : State :=
  mkState (rawVacancies s) (isLoading s) v (editingVacancy s)
    (minPrice s) (maxPrice s) (actualMinPrice s) (actualMaxPrice s)
    (formData s) (dateInput s) (validationErrors s).

Definition with_editingVacancy (v : option Vacancy.t) (s : State) : State :=
  mkState (rawVacancies s) (isLoading s) (isDrawerOpen s) v
    (minPrice s) (maxPrice s) (actualMinPrice s) (actualMaxPrice s)
    (formData s) (dateInput s) (validationErrors s).

Definition with_minPrice (v : Z) (s : State) : State :=
  mkState (rawVacancies s) (isLoading s) (isDrawerOpen s) (editingVacancy s)
    v (maxPrice s) (actualMinPrice s) (actualMaxPrice s)
    (formData s) (dateInput s) (validationErrors s).

Definition with_maxPrice (v : Z) (s : State) : State :=
  mkState (rawVacancies s) (isLoading s) (isDrawerOpen s) (editingVacancy s)
    (minPrice s) v (actualMinPrice s) (actualMaxPrice s)
    (formData s) (dateInput s) (validationErrors s).

Definition with_actualMinPrice (v : Z) (s : State) : State :=
  mkState (rawVacancies s) (isLoading s) (isDrawerOpen s) (editingVacancy s)
    (minPrice s) (maxPrice s) v (actualMaxPrice s)
    (formData s) (dateInput s) (validationErrors s).

Definition with_actualMaxPrice (v : Z) (s : State) : State :=
  mkState (rawVacancies s) (isLoading s) (isDrawerOpen s) (editingVacancy s)
    (minPrice s) (maxPrice s) (actualMinPrice s) v
    (formData s) (dateInput s) (validationErrors s).

Definition with_formData (v : FormData.t) (s : State) : State :=
  mkState (rawVacancies s) (isLoading s) (isDrawerOpen s) (editingVacancy s)
    (minPrice s) (maxPrice s) (actualMinPrice s) (actualMaxPrice s)
    v (dateInput s) (validationErrors s).

Definition with_dateInput (v : string) (s : State) : State :=
  mkState (rawVacancies s) (isLoading s) (isDrawerOpen s) (editingVacancy s)
    (minPrice s) (maxPrice s) (actualMinPrice s) (actualMaxPrice s)
    (formData s) v (validationErrors s).

Definition with_validationErrors (v : gmap string ErrorValue) (s : State) : State :=
  mkState (rawVacancies s) (isLoading s) (isDrawerOpen s) (editingVacancy s)
    (minPrice s) (maxPrice s) (actualMinPrice s) (actualMaxPrice s)
    (formData s) (dateInput s) v.

(** The state setters returned by [useState]. *)
Definition setRawVacancies (v : list Vacancy.t) : Handler unit :=
  update (with_rawVacancies v).

Definition setIsLoading (v : bool) : Handler unit :=
  update (with_isLoading v).

Definition setIsDrawerOpen (v : bool) : Handler unit :=
  update (with_isDrawerOpen v).

Definition setEditingVacancy (v : option Vacancy.t) : Handler unit :=
  update (with_editingVacancy v).

Definition setMinPrice (v : Z) : Handler unit :=
  update (with_minPrice v).

Definition setMaxPrice (v : Z) : Handler unit :=
  update (with_maxPrice v).

Definition setActualMinPrice (v : Z) : Handler unit :=
  update (with_actualMinPrice v).

Definition setActualMaxPrice (v : Z) : Handler unit :=
  update (with_actualMaxPrice v).

Definition setFormData (v : FormData.t) : Handler unit :=
  update (with_formData v).

Definition setDateInput (v : string) : Handler unit :=
  update (with_dateInput v).

Definition setValidationErrors (v : gmap string ErrorValue) : Handler unit :=
  update (with_validationErrors v).

(** [setFormData((prev) => f prev)]. *)
Definition updateFormData (f : FormData.t -> FormData.t) : Handler unit :=
  update (fun s => with_formData (f (formData s)) s).

(** *** Fetching *)

(** The error thrown by reading a property of [null]. *)
Definition null_property_message : string :=
  "Cannot read properties of null (reading 'success')".

Definition fetchVacancies (outcome : NetResult) : Handler unit :=
  setIsLoading true ;;
  let apiUrl := API_BASE_URL in
  try_finally
    (try_catch
       (response ← fetch "GET" apiUrl None outcome;
        (if negb (ok response)
         then throw ("HTTP error! status: " ++ pretty (status response))
         else ret tt) ;;
        match json response with
        | JsonSyntaxError message => throw message
        | JsonNull => throw null_property_message
        | JsonValue success data =>
            match success, data with
            | true, Some data => setRawVacancies data
            | _, _ =>
                console_error
                  "API success: true, but data array is missing or malformed." ;;
                setRawVacancies []
            end
        end)
       (fun error =>
          console_error "Failed to fetch vacancies:" ;;
          setRawVacancies [] ;;
          alert ("Failed to connect to API: " ++ error
                 ++ ". Please ensure the backend is running at " ++ API_BASE_URL)))
    (setIsLoading false).

(** *** The price sliders and the debounce timer *)

(** [onChange] of the first range input; [value] is
    [parseInt(e.target.value)], an integer since a range input only ever
    holds a number. *)
Definition onMinPriceChange (value : Z) : Handler unit :=
  c ← closure;
  setMinPrice (Z.min value (maxPrice c)).

Definition onMaxPriceChange (value : Z) : Handler unit :=
  c ← closure;
  setMaxPrice (Z.max value (minPrice c)).

(** The callback of the 500ms timer, which the effect re-arms at every
    change of a bound, so that it fires with the bounds of the latest
    render. *)
Definition debounceExpired : Handler unit :=
  c ← closure;
  setActualMinPrice (minPrice c) ;;
  setActualMaxPrice (maxPrice c).

(** *** The drawer and its form *)

Definition or_empty (x : option string) : string :=
  match x with
  | Some s => s
  | None => ""
  end.

Definition compare_dates (a b : Shift) : Z :=
  Str.localeCompare (date a) (date b).

Definition openDrawer (vacancy : option Vacancy.t) : Handler unit :=
  setValidationErrors ∅ ;;
  match vacancy with
  | Some vacancy =>
      setEditingVacancy (Some vacancy) ;;
      let loadedShifts :=
        match Vacancy.swifts vacancy with
        | Some swifts =>
            List.map
              (fun swift =>
                 {| date := date swift;
                    start_time := Str.substring (start_time swift) 0 5;
                    end_time := Str.substring (end_time swift) 0 5;
                    type := type swift;
                    price := price swift |})
              swifts
        | None => []
        end in
      setFormData
        {| FormData.title := or_empty (Vacancy.title vacancy);
           FormData.description := or_empty (Vacancy.description vacancy);
           FormData.shifts := sort compare_dates loadedShifts |}
  | None =>
      setEditingVacancy None ;;
      setFormData initialFormData
  end ;;
  setIsDrawerOpen true.

Definition closeDrawer : Handler unit :=
  setIsDrawerOpen false ;;
  setEditingVacancy None ;;
  setValidationErrors ∅.

(** The two inputs wired to [handleInputChange]. *)
Inductive InputName : Type := TitleInput | DescriptionInput.

Definition handleInputChange (name : InputName) (value : string) : Handler unit :=
  updateFormData (fun prev =>
    match name with
    | TitleInput =>
        {| FormData.title := value;
           FormData.description := FormData.description prev;
           FormData.shifts := FormData.shifts prev |}
    | DescriptionInput =>
        {| FormData.title := FormData.title prev;
           FormData.description := value;
           FormData.shifts := FormData.shifts prev |}
    end).

Definition has_date (d : string) (shifts : list Shift) : bool :=
  existsb (fun s => String.eqb (date s) d) shifts.

Definition addShift : Handler unit :=
  c ← closure;
  if Str.truthy (dateInput c)
     && negb (has_date (dateInput c) (FormData.shifts (formData c)))
  then
    let newShift := initialShiftDetails (dateInput c) in
    updateFormData (fun prev =>
      {| FormData.title := FormData.title prev;
         FormData.description := FormData.description prev;
         FormData.shifts := sort compare_dates (FormData.shifts prev ++ [newShift])%list |}) ;;
    setDateInput ""
  else ret tt.

(** The controls of a shift row wired to [handleShiftChange]. *)
Inductive ShiftField : Type := StartTime | EndTime | TypeField | PriceField.

Definition set_field (name : ShiftField) (value : string) (shift : Shift) : Shift :=
  match name with
  | StartTime => mkShift (date shift) value (end_time shift) (type shift) (price shift)
  | EndTime => mkShift (date shift) (start_time shift) value (type shift) (price shift)
  | TypeField => mkShift (date shift) (start_time shift) (end_time shift) value (price shift)
  | PriceField =>
      mkShift (date shift) (start_time shift) (end_time shift) (type shift)
        (Str.parseInt value 10)
  end.

(** [index] is the position of a rendered row, hence within the list. *)
Definition handleShiftChange (index : nat) (name : ShiftField) (value : string) : Handler unit :=
  updateFormData (fun prev =>
    let newShifts := FormData.shifts prev in
    let newShifts :=
      match newShifts !! index with
      | Some shift => <[index := set_field name value shift]> newShifts
      | None => newShifts
      end in
    {| FormData.title := FormData.title prev;
       FormData.description := FormData.description prev;
       FormData.shifts := newShifts |}).

Definition removeShift (dateToRemove : string) : Handler unit :=
  updateFormData (fun prev =>
    {| FormData.title := FormData.title prev;
       FormData.description := FormData.description prev;
       FormData.shifts :=
         List.filter (fun s => negb (String.eqb (date s) dateToRemove))
           (FormData.shifts prev) |}).

(** *** Validation *)

(** [parseInt(t.split(":")[0]) * 60 + parseInt(t.split(":")[1])]. *)
Definition timeInMinutes (t : string) : number :=
  Num.add
    (Num.mul (Str.parseInt_elem (Str.split ":" t !! 0%nat)) (Int 60))
    (Str.parseInt_elem (Str.split ":" t !! 1%nat)).

Definition price_message : string := "Price must be > 0.".
Definition time_message : string := "End time must be after start time.".

(** The body of the [forEach] of [validateForm], on the pair
    [(shiftErrors, hasShiftErrors)]. *)
Definition checkShift (shift : Shift) (index : nat)
    (acc : gmap string string * bool) : gmap string string * bool :=
  let '(shiftErrors, hasShiftErrors) := acc in
  let isError := false in
  let '(shiftErrors, isError) :=
    if Num.le (price shift) (Int 0) || Num.isNaN (price shift)
    then (<["price-" ++ pretty index := price_message]> shiftErrors, true)
    else (shiftErrors, isError) in
  let startTimeInMinutes := timeInMinutes (start_time shift) in
  let endTimeInMinutes := timeInMinutes (end_time shift) in
  let '(shiftErrors, isError) :=
    if Num.le endTimeInMinutes startTimeInMinutes
    then (<["time-" ++ pretty index := time_message]> shiftErrors, true)
    else (shiftErrors, isError) in
  (shiftErrors, if isError then true else hasShiftErrors).

(** The error object [validateForm] builds for a draft. *)
Definition formErrors (formData : FormData.t) : gmap string ErrorValue :=
  let errors : gmap string ErrorValue := ∅ in
  let errors :=
    if negb (Str.truthy (FormData.title formData))
    then <["title" := Message "Title is required."]> errors else errors in
  let errors :=
    if negb (Str.truthy (FormData.description formData))
    then <["description" := Message "Description is required."]> errors else errors in
  let errors :=
    if (length (FormData.shifts formData) =? 0)%nat
    then <["shifts" := Message "At least one date/shift is required."]> errors
    else errors in
  let '(shiftErrors, hasShiftErrors) :=
    forEach checkShift (FormData.shifts formData) (∅, false) in
  let errors :=
    if hasShiftErrors
    then <["shiftDetails" := ShiftErrors shiftErrors]> errors else errors in
  errors.

Definition validateForm : Handler bool :=
  c ← closure;
  let errors := formErrors (formData c) in
  setValidationErrors errors ;;
  ret (length (Object_keys errors) =? 0)%nat.

(** *** Saving and deleting *)

Definition vacancy_url (vacancy : Vacancy.t) : string :=
  API_BASE_URL ++ "/" ++ pretty (Vacancy.id vacancy).

(** The locals [shiftsPayload] and [vacancyPayload] of [handleSave]. *)
Definition shiftsPayload (formData : FormData.t) : list Shift :=
  List.map
    (fun shift =>
       {| date := formatDateForAPI (date shift);
          start_time := formatTimeForAPI (start_time shift);
          end_time := formatTimeForAPI (end_time shift);
          type := type shift;
          price := price shift |})
    (FormData.shifts formData).

Definition vacancyPayload (formData : FormData.t) : Payload :=
  {| payload_title := FormData.title formData;
     payload_description := FormData.description formData;
     payload_shifts := shiftsPayload formData |}.

Definition handleSave (saveOutcome refetchOutcome : NetResult) : Handler unit :=
  c ← closure;
  valid ← validateForm;
  if negb valid then
    alert "Please fix the validation errors before saving."
  else
    let vacancyPayload := vacancyPayload (formData c) in
    try_catch
      (let url :=
         match editingVacancy c with
         | Some vacancy => vacancy_url vacancy
         | None => API_BASE_URL
         end in
       let method :=
         match editingVacancy c with
         | Some _ => "PUT"
         | None => "POST"
         end in
       response ← fetch method url (Some vacancyPayload) saveOutcome;
       (if negb (ok response) then
          let errorText := text response in
          throw ("Failed to save vacancy: " ++ pretty (status response)
                 ++ " - " ++ errorText)
        else ret tt) ;;
       fetchVacancies refetchOutcome ;;
       closeDrawer)
      (fun error =>
         console_error "Error saving vacancy:" ;;
         alert ("Error saving vacancy: " ++ error
                ++ ". Please check the console for the full API response.")).

Definition handleDelete (answer : bool) (deleteOutcome refetchOutcome : NetResult) : Handler unit :=
  c ← closure;
  match editingVacancy c with
  | None => ret tt
  | Some vacancy =>
      confirmed ← confirm "Are you sure you want to delete this vacancy?" answer;
      if negb confirmed then ret tt
      else
        try_catch
          (response ← fetch "DELETE" (vacancy_url vacancy) None deleteOutcome;
           (if negb (ok response) then
              let errorText := text response in
              throw ("Failed to delete vacancy: " ++ pretty (status response)
                     ++ " - " ++ errorText)
            else ret tt) ;;
           fetchVacancies refetchOutcome ;;
           closeDrawer)
          (fun error =>
             console_error "Error deleting vacancy:" ;;
             alert ("Error deleting vacancy: " ++ error
                    ++ ". Check console for details."))
  end.

(** ** Running a handler *)

Definition state_after {A} (h : Handler A) (s : State) : State := (h s).1.2.
Definition effects_of {A} (h : Handler A) (s : State) : list Effect := (h s).2.
Definition result_of {A} (h : Handler A) (s : State) : Completion A := (h s).1.1.

(** ** Properties stated about the program *)

(** The order a comparator stands for: [x] may come before [y]. *)
Definition comes_before {A} (compareFn : A -> A -> Z) (x y : A) : Prop :=
  compareFn x y <= 0.

(** Ascending lexical order of the dates of two rows. *)
Definition date_le (a b : Shift) : Prop := String.le (date a) (date b).

(** The rows are in ascending lexical order of their dates: each row's
    date is at most the date of every later row. *)
Definition sorted_by_date (l : list Shift) : Prop := StronglySorted date_le l.

(** All dates are pairwise distinct. *)
Definition distinct_dates (l : list Shift) : Prop := NoDup (List.map date l).

(** The structural invariant of the draft's shift list. *)
Definition shift_invariant (l : list Shift) : Prop :=
  distinct_dates l /\ sorted_by_date l.

(** The row a fetched shift is copied to when the drawer opens: the date,
    type and price as they are, the times cut to five characters. *)
Definition load_shift (swift : Shift) : Shift :=
  {| date := date swift;
     start_time := Str.substring (start_time swift) 0 5;
     end_time := Str.substring (end_time swift) 0 5;
     type := type swift;
     price := price swift |}.

Definition is_digit (c : ascii) : bool :=
  let n := N_of_ascii c in ((48 <=? n) && (n <=? 57))%N.

(** A date in the form YYYY-MM-DD. *)
Definition is_iso_date (d : string) : bool :=
  match list_ascii_of_string d with
  | [y1; y2; y3; y4; h1; m1; m2; h2; d1; d2] =>
      forallb is_digit [y1; y2; y3; y4; m1; m2; d1; d2]
      && Ascii.eqb h1 "-" && Ascii.eqb h2 "-"
  | _ => false
  end.

(** A date in the form DD-MM-YYYY. *)
Definition is_wire_date (d : string) : bool :=
  match list_ascii_of_string d with
  | [d1; d2; h1; m1; m2; h2; y1; y2; y3; y4] =>
      forallb is_digit [y1; y2; y3; y4; m1; m2; d1; d2]
      && Ascii.eqb h1 "-" && Ascii.eqb h2 "-"
  | _ => false
  end.

(** The rows of the draft held by a state. *)
Definition draft_shifts (s : State) : list Shift := FormData.shifts (formData s).

(** A string of digits and hyphens only: every value of a date input is
    one (it is empty or of the form YYYY-MM-DD), and so is every date of
    the form DD-MM-YYYY.  These are the strings on which the comparison
    of the sort is the comparison of code units. *)
Definition plain_date (d : string) : bool :=
  forallb (fun c => is_digit c || Ascii.eqb c "-") (list_ascii_of_string d).

(** All rows have such a date. *)
Definition plain_dates (l : list Shift) : Prop :=
  Forall (fun row => plain_date (date row) = true) l.

(** ** The component as a machine

    What can happen to the mounted component: the effects (the initial
    fetch, the expiry of the debounce timer) and the events its elements
    are wired to. *)
Inductive Event : Type :=
| Mounted (outcome : NetResult)
| MinPriceChanged (value : Z)
| MaxPriceChanged (value : Z)
| DebounceExpired
| OpenClicked (vacancy : option Vacancy.t)
| CloseClicked
| InputChanged (name : InputName) (value : string)
| DateInputChanged (value : string)
| AddShiftClicked
| ShiftChanged (index : nat) (name : ShiftField) (value : string)
| RemoveShiftClicked (dateToRemove : string)
| SaveClicked (saveOutcome refetchOutcome : NetResult)
| DeleteClicked (answer : bool) (deleteOutcome refetchOutcome : NetResult).

Definition handle (e : Event) : Handler unit :=
  match e with
  | Mounted outcome => fetchVacancies outcome
  | MinPriceChanged value => onMinPriceChange value
  | MaxPriceChanged value => onMaxPriceChange value
  | DebounceExpired => debounceExpired
  | OpenClicked vacancy => openDrawer vacancy
  | CloseClicked => closeDrawer
  | InputChanged name value => handleInputChange name value
  | DateInputChanged value => setDateInput value
  | AddShiftClicked => addShift
  | ShiftChanged index name value => handleShiftChange index name value
  | RemoveShiftClicked dateToRemove => removeShift dateToRemove
  | SaveClicked saveOutcome refetchOutcome => handleSave saveOutcome refetchOutcome
  | DeleteClicked answer deleteOutcome refetchOutcome =>
      handleDelete answer deleteOutcome refetchOutcome
  end.

Definition step (s : State) (e : Event) : State := state_after (handle e) s.

(** The state after a sequence of events, each handled on the state the
    previous one left. *)
Definition run (events : list Event) (s : State) : State := foldl step s events.

(** The bounds are ordered: those of the sliders and those handed to the
    filter. *)
Definition bounds_ordered (s : State) : Prop :=
  minPrice s <= maxPrice s /\ actualMinPrice s <= actualMaxPrice s.

(** The vacancies a sequence of events opens the drawer on. *)
Definition opened (events : list Event) : list Vacancy.t :=
  omap (fun e => match e with OpenClicked (Some v) => Some v | _ => None end) events.

(** The requests, alerts and console diagnostics among the effects. *)
Definition requests (t : list Effect) : list (string * string) :=
  omap (fun e => match e with Fetch method url _ => Some (method, url) | _ => None end) t.

Definition alerts (t : list Effect) : list string :=
  omap (fun e => match e with Alert message => Some message | _ => None end) t.

Definition diagnostics (t : list Effect) : list string :=
  omap (fun e => match e with ConsoleError message => Some message | _ => None end) t.

(** The two faults [validateForm] looks for in a row. *)
Definition bad_price (row : Shift) : bool :=
  Num.le (price row) (Int 0) || Num.isNaN (price row).

Definition bad_time (row : Shift) : bool :=
  Num.le (timeInMinutes (end_time row)) (timeInMinutes (start_time row)).

(** A draft with at least one of the faults validation reports: no title,
    no description, no row, a row whose price is not positive or not a
    number, a row whose end time in minutes is at most its start time. *)
Definition invalid_draft (fd : FormData.t) : Prop :=
  FormData.title fd = ""
  \/ FormData.description fd = ""
  \/ FormData.shifts fd = []
  \/ exists row, In row (FormData.shifts fd) /\ (bad_price row = true \/ bad_time row = true).

(** A request that did not succeed: the network failed or the status is
    not in the range 200-299. *)
Definition failed (outcome : NetResult) : bool :=
  match outcome with
  | Rejected _ => true
  | Resolved response => negb (ok response)
  end.

(** [part] occurs in [whole]. *)
Definition contains (part whole : string) : Prop :=
  exists before after, whole = before ++ part ++ after.

(** The alert names the cause of the failure: the status and the body of
    the response, or the message of the network error. *)
Definition reports (outcome : NetResult) (message : string) : Prop :=
  match outcome with
  | Rejected cause => contains cause message
  | Resolved response =>
      contains (pretty (status response)) message
      /\ contains (text response) message
  end.

(** A parsed, non-null body that is not of the shape
    [{success: true, data: <array>}]. *)
Definition malformed (j : Json) : Prop :=
  match j with
  | JsonValue true (Some _) => False
  | JsonValue _ _ => True
  | _ => False
  end.

(** A body that cannot be read: not JSON, or [null]. *)
Definition unreadable (j : Json) : Prop :=
  match j with
  | JsonSyntaxError _ | JsonNull => True
  | JsonValue _ _ => False
  end.

(** The request a save sends: PUT to the vacancy's URL when editing, POST
    to the base URL otherwise. *)
Definition save_method (s : State) : string :=
  match editingVacancy s with
  | Some _ => "PUT"
  | None => "POST"
  end.

Definition save_url (s : State) : string :=
  match editingVacancy s with
  | Some vacancy => vacancy_url vacancy
  | None => API_BASE_URL
  end.

(** The list a fetch leaves behind: the data of a well-formed body of a
    successful response, and nothing in every other case. *)
Definition fetched (outcome : NetResult) : list Vacancy.t :=
  match outcome with
  | Rejected _ => []
  | Resolved response =>
      if ok response then
        match json response with
        | JsonValue true (Some data) => data
        | _ => []
        end
      else []
  end.

(** What a failed fetch of the list does besides emptying it. *)
Definition fetch_failure_effects (cause : string) : list Effect :=
  [Fetch "GET" API_BASE_URL None;
   ConsoleError "Failed to fetch vacancies:";
   Alert ("Failed to connect to API: " ++ cause
          ++ ". Please ensure the backend is running at " ++ API_BASE_URL)].

(** The error a failed save or delete request raises inside the handler;
    [what] is "save" or "delete". *)
Definition mutation_error (what : string) (outcome : NetResult) : string :=
  match outcome with
  | Rejected cause => cause
  | Resolved response =>
      "Failed to " ++ what ++ " vacancy: " ++ pretty (status response)
      ++ " - " ++ text response
  end.

(** The request [handleSave] sends for the draft of a state. *)
Definition save_request (s : State) : Effect :=
  Fetch (save_method s) (save_url s) (Some (vacancyPayload (formData s))).

(** [s'] has the draft, the date input and the four price bounds of [s]. *)
Definition same_form_and_bounds (s s' : State) : Prop :=
  formData s' = formData s
  /\ dateInput s' = dateInput s
  /\ minPrice s' = minPrice s
  /\ maxPrice s' = maxPrice s
  /\ actualMinPrice s' = actualMinPrice s
  /\ actualMaxPrice s' = actualMaxPrice s.

(** The vacancies of the example of the specification, identified by
    their prices. *)
Definition example_vacancy (id : Z) (prices : list Z) : Vacancy.t :=
  Vacancy.mk id None None
    (Some (List.map (fun p => mkShift "" "" "" "" (Int p)) prices)).

(** ** What the component renders *)

(** The list handed to the cards: [filteredVacancies] on the raw list and
    the debounced bounds of the state. *)
Definition displayedVacancies (s : State) : list Vacancy.t :=
  filteredVacancies (rawVacancies s) (actualMinPrice s) (actualMaxPrice s).

(** The [disabled] attribute of the button wired to [addShift]. *)
Definition addShiftDisabled (s : State) : bool :=
  negb (Str.truthy (dateInput s))
  || has_date (dateInput s) (FormData.shifts (formData s)).

(** A message read from an object: present and not empty. *)
Definition truthy_message (m : option string) : bool :=
  match m with
  | Some text => Str.truthy text
  | None => false
  end.

(** Whether the row at [index] is drawn with the error border:
    [validationErrors.shiftDetails &&
     (shiftDetails[`time-${index}`] || shiftDetails[`price-${index}`])]. *)
Definition rowHasError (s : State) (index : nat) : bool :=
  match validationErrors s !! "shiftDetails" with
  | Some (ShiftErrors shiftDetails) =>
      truthy_message (shiftDetails !! ("time-" ++ pretty index))
      || truthy_message (shiftDetails !! ("price-" ++ pretty index))
  | _ => false
  end.

(** The draft that is on the screen: the drawer, and the form in it, is
    rendered under [isDrawerOpen &&]. *)
Definition shownDraft (s : State) : option FormData.t :=
  if isDrawerOpen s then Some (formData s) else None.

(** ** Further properties stated about the program *)

(** [c] occurs in [s]. *)
Fixpoint occurs (c : ascii) (s : string) : bool :=
  match s with
  | EmptyString => false
  | String x rest => Ascii.eqb x c || occurs c rest
  end.

(** A slider event carries a value of its range, 0 to 1000. *)
Definition slider_in_range (e : Event) : Prop :=
  match e with
  | MinPriceChanged value | MaxPriceChanged value => 0 <= value <= 1000
  | _ => True
  end.

(** All four bounds lie between 0 and 1000. *)
Definition bounds_in_range (s : State) : Prop :=
  0 <= minPrice s /\ maxPrice s <= 1000
  /\ 0 <= actualMinPrice s /\ actualMaxPrice s <= 1000.

(** [s'] differs from [s] at most in the draft and the date input. *)
Definition same_outside_form (s s' : State) : Prop :=
  rawVacancies s' = rawVacancies s
  /\ isLoading s' = isLoading s
  /\ isDrawerOpen s' = isDrawerOpen s
  /\ editingVacancy s' = editingVacancy s
  /\ minPrice s' = minPrice s
  /\ maxPrice s' = maxPrice s
  /\ actualMinPrice s' = actualMinPrice s
  /\ actualMaxPrice s' = actualMaxPrice s
  /\ validationErrors s' = validationErrors s.

(** The events that only edit the form. *)
Definition edits_form (e : Event) : bool :=
  match e with
  | InputChanged _ _ | DateInputChanged _ | AddShiftClicked
  | ShiftChanged _ _ _ | RemoveShiftClicked _ => true
  | _ => false
  end.

(** The events after which the displayed list may differ: those that
    fetch, and the expiry of the timer. *)
Definition may_refresh (e : Event) : bool :=
  match e with
  | Mounted _ | DebounceExpired | SaveClicked _ _ | DeleteClicked _ _ _ => true
  | _ => false
  end.

(** A string of the form HH:MM, for numbers below 100. *)
Definition clock (h m : nat) : string :=
  padStart2 (pretty h) ++ ":" ++ padStart2 (pretty m).

#[global] Instance number_eq_dec : EqDecision number.
Proof. solve_decision. Defined.

(** The validation errors of a state hold a time error, or a price error,
    for the row at [index]. *)
Definition time_error_at (s : State) (index : nat) : Prop :=
  exists details,
    validationErrors s !! "shiftDetails" = Some (ShiftErrors details)
    /\ details !! ("time-" ++ pretty index) = Some time_message.

Definition price_error_at (s : State) (index : nat) : Prop :=
  exists details,
    validationErrors s !! "shiftDetails" = Some (ShiftErrors details)
    /\ details !! ("price-" ++ pretty index) = Some price_message.


(** The dates an event brings into the form are made of digits and
    hyphens: the value typed in the date input, and the dates of the
    shifts of the vacancy the drawer is opened on. *)
Definition plain_event (e : Event) : Prop :=
  match e with
  | OpenClicked (Some v) => plain_dates (default [] (Vacancy.swifts v))
  | DateInputChanged value => plain_date value = true
  | _ => True
  end.

(** The rows of the draft are in ascending order of their dates, and
    these dates and the date input are made of digits and hyphens. *)
Definition plain_sorted (s : State) : Prop :=
  sorted_by_date (draft_shifts s)
  /\ plain_dates (draft_shifts s)
  /\ plain_date (dateInput s) = true.

(** * Proofs *)

(** Unfolds the plumbing of handlers, leaving the handlers themselves. *)
Ltac run_handler :=
  cbv beta iota zeta delta
    [mbind handler_bind bind mret handler_ret ret throw try_catch try_finally
     closure perform alert console_error confirm fetch update
     setRawVacancies setIsLoading setIsDrawerOpen setEditingVacancy
     setFormData setDateInput setValidationErrors updateFormData].

(** ** Filtering *)

Lemma filter_ext_all {A} (f g : A -> bool) (l : list A) :
  (forall x, f x = g x) -> List.filter f l = List.filter g l.
Proof.
  intros E. induction l as [|x l IH]; simpl; [reflexivity|].
  rewrite E, IH. reflexivity.
Qed.

Lemma existsb_ext_all {A} (f g : A -> bool) (l : list A) :
  (forall x, f x = g x) -> existsb f l = existsb g l.
Proof.
  intros E. induction l as [|x l IH]; simpl; [reflexivity|].
  rewrite E, IH. reflexivity.
Qed.

Lemma price_in_range_cmp min max s :
  Num.ge (price s) (Int min) && Num.le (price s) (Int max)
  = price_in_range min max s.
Proof. unfold price_in_range. destruct (price s); reflexivity. Qed.

Lemma spec_keeps_kept min max v :
  spec_keeps min max v = true <-> kept min max v.
Proof.
  unfold spec_keeps, kept, has_shifts, range_active.
  destruct (Vacancy.swifts v) as [[|s0 sw]|] eqn:E; simpl.
  - split; [discriminate|]. intros (sw' & H & Hne & _). congruence.
  - split.
    + intros H. exists (s0 :: sw). split; [reflexivity|]. split; [discriminate|].
      intros Hact.
      assert (Hb : (0 <? min) || (max <? 1000) = true).
      { apply orb_true_iff. destruct Hact; [left|right]; apply Z.ltb_lt; lia. }
      rewrite Hb in H.
      change (existsb (price_in_range min max) (s0 :: sw) = true) in H.
      apply existsb_exists in H. destruct H as (s & Hin & Hp).
      unfold price_in_range in Hp. destruct (price s) as [p|] eqn:Ep; [|discriminate].
      exists s, p. split; [exact Hin|]. split; [exact Ep|].
      apply andb_true_iff in Hp. destruct Hp as [H1 H2].
      apply Z.leb_le in H1. apply Z.leb_le in H2. lia.
    + intros (sw' & H & _ & Hrange). inversion H; subst sw'; clear H.
      destruct ((0 <? min) || (max <? 1000)) eqn:Hb; [|reflexivity].
      change (existsb (price_in_range min max) (s0 :: sw) = true).
      apply existsb_exists.
      destruct Hrange as (s & p & Hin & Ep & Hp).
      { apply orb_true_iff in Hb. destruct Hb as [Hb|Hb]; apply Z.ltb_lt in Hb; lia. }
      exists s. split; [exact Hin|]. unfold price_in_range. rewrite Ep.
      apply andb_true_iff. split; apply Z.leb_le; lia.
  - split; [discriminate|]. intros (sw' & H & _). discriminate.
Qed.

(** C1. For every raw list and every bound pair, [filteredVacancies] is the
    raw list filtered, in order, by the condition "shift list present and
    non-empty, and, when min > 0 or max < 1000, some shift priced within
    [min, max] inclusive"; for the pair (0, 1000) it is the raw list minus
    the vacancies with a missing or empty shift list. *)
Theorem filteredVacancies_spec (raw : list Vacancy.t) (min max : Z) :
  filteredVacancies raw min max = spec_filter raw min max
  /\ (forall v, spec_keeps min max v = true <-> kept min max v)
  /\ filteredVacancies raw 0 1000 = List.filter has_shifts raw.
Proof.
  split; [|split].
  - unfold filteredVacancies, spec_filter, spec_keeps, range_active.
    destruct ((0 <? min) || (max <? 1000)); apply filter_ext_all; intros v;
      unfold has_shifts; destruct (Vacancy.swifts v) as [[|s0 sw]|]; simpl;
      try reflexivity.
    rewrite price_in_range_cmp. f_equal.
    apply existsb_ext_all. intros s. apply price_in_range_cmp.
  - intros v. apply spec_keeps_kept.
  - unfold filteredVacancies. simpl. apply filter_ext_all. intros v.
    unfold has_shifts. destruct (Vacancy.swifts v) as [[|s0 sw]|]; reflexivity.
Qed.

(** ** Sorting *)

Section SortFacts.
Context {A : Type} (compareFn : A -> A -> Z).

Hypothesis compareFn_total :
  forall x y, comes_before compareFn x y \/ comes_before compareFn y x.
Hypothesis compareFn_trans :
  forall x y z, comes_before compareFn x y -> comes_before compareFn y z ->
                comes_before compareFn x z.

Lemma sort_insert_perm x l : sort_insert compareFn x l ≡ₚ x :: l.
Proof.
  induction l as [|y l IH]; simpl; [reflexivity|].
  destruct (compareFn x y <=? 0); [reflexivity|].
  rewrite IH. apply Permutation_swap.
Qed.

Lemma sort_perm l : sort compareFn l ≡ₚ l.
Proof.
  induction l as [|x l IH]; simpl; [reflexivity|].
  rewrite sort_insert_perm. f_equiv. exact IH.
Qed.

Lemma sort_insert_sorted x l :
  StronglySorted (comes_before compareFn) l ->
  StronglySorted (comes_before compareFn) (sort_insert compareFn x l).
Proof.
  induction 1 as [|y l Hl IH Hy]; simpl.
  - repeat constructor.
  - destruct (compareFn x y <=? 0) eqn:E.
    + apply Z.leb_le in E. constructor; [constructor; assumption|].
      constructor; [exact E|].
      eapply Forall_impl; [exact Hy|]. intros z Hz.
      eapply compareFn_trans; [exact E|exact Hz].
    + apply Z.leb_gt in E. constructor; [exact IH|].
      rewrite sort_insert_perm. constructor; [|exact Hy].
      destruct (compareFn_total x y) as [H|H]; [unfold comes_before in H; lia|exact H].
Qed.

Lemma sort_sorted l : StronglySorted (comes_before compareFn) (sort compareFn l).
Proof.
  induction l as [|x l IH]; simpl; [constructor|].
  apply sort_insert_sorted, IH.
Qed.

(** A list that is already in order is left as it is. *)
Lemma sort_sorted_id l :
  StronglySorted (comes_before compareFn) l -> sort compareFn l = l.
Proof.
  induction 1 as [|x l Hl IH Hx]; simpl; [reflexivity|].
  rewrite IH. destruct l as [|y l]; simpl; [reflexivity|].
  apply Forall_cons in Hx. destruct Hx as [Hxy _].
  apply Z.leb_le in Hxy. rewrite Hxy. reflexivity.
Qed.

Lemma sort_length l : length (sort compareFn l) = length l.
Proof. apply Permutation_length, sort_perm. Qed.
End SortFacts.

(** ** The order of dates *)

Lemma localeCompare_le a b : Str.localeCompare a b <= 0 <-> String.le a b.
Proof.
  unfold Str.localeCompare, String.le, String.leb.
  destruct (String.compare a b); simpl; split; intros H; try lia; try exact I;
    destruct H.
Qed.


(** The comparator of the sort is consistent: any two rows are
    comparable, and the comparison is transitive. *)
Lemma compare_dates_total a b :
  comes_before compare_dates a b \/ comes_before compare_dates b a.
Proof.
  unfold comes_before, compare_dates. rewrite !localeCompare_le.
  destruct (total String.le (date a) (date b)); auto.
Qed.

Lemma compare_dates_trans a b c :
  comes_before compare_dates a b -> comes_before compare_dates b c ->
  comes_before compare_dates a c.
Proof.
  unfold comes_before, compare_dates. rewrite !localeCompare_le. intros H1 H2.
  etransitivity; eassumption.
Qed.

(** On dates of digits and hyphens the comparator is the lexical order. *)
Lemma comes_before_date_le a b :
  plain_date (date a) = true -> plain_date (date b) = true ->
  (comes_before compare_dates a b <-> date_le a b).
Proof. intros _ _. apply localeCompare_le. Qed.


Lemma StronglySorted_on {A} (P : A -> Prop) (R1 R2 : A -> A -> Prop) l :
  (forall x y, P x -> P y -> R1 x y -> R2 x y) ->
  Forall P l -> StronglySorted R1 l -> StronglySorted R2 l.
Proof.
  intros E HP. induction 1 as [|x l Hl IH Hx]; [constructor|].
  apply Forall_cons in HP. destruct HP as [Px Pl].
  constructor; [apply IH, Pl|].
  rewrite List.Forall_forall in *. intros y Hy.
  apply E; [exact Px|apply Pl, Hy|apply Hx, Hy].
Qed.

Lemma sort_by_date_perm l : sort compare_dates l ≡ₚ l.
Proof. apply sort_perm. Qed.

Lemma plain_dates_perm l1 l2 : l1 ≡ₚ l2 -> plain_dates l1 -> plain_dates l2.
Proof. unfold plain_dates. intros P H. rewrite <- P. exact H. Qed.

Lemma plain_dates_sort l : plain_dates l -> plain_dates (sort compare_dates l).
Proof. apply plain_dates_perm. symmetry. apply sort_by_date_perm. Qed.

Lemma sort_by_date_sorted l :
  plain_dates l -> sorted_by_date (sort compare_dates l).
Proof.
  intros Hp.
  apply (StronglySorted_on (fun row => plain_date (date row) = true)
           (comes_before compare_dates)).
  - intros x y Hx Hy. apply comes_before_date_le; assumption.
  - apply plain_dates_sort, Hp.
  - apply sort_sorted; [apply compare_dates_total|apply compare_dates_trans].
Qed.

Lemma sort_by_date_id l :
  plain_dates l -> sorted_by_date l -> sort compare_dates l = l.
Proof.
  intros Hp H. apply sort_sorted_id.
  apply (StronglySorted_on (fun row => plain_date (date row) = true) date_le);
    [|exact Hp|exact H].
  intros x y Hx Hy. apply comes_before_date_le; assumption.
Qed.

Lemma sorted_by_date_filter (f : Shift -> bool) l :
  sorted_by_date l -> sorted_by_date (List.filter f l).
Proof.
  induction 1 as [|x l Hl IH Hx]; simpl; [constructor|].
  destruct (f x); [|exact IH]. constructor; [exact IH|].
  rewrite List.Forall_forall in *. intros y Hy.
  apply List.filter_In in Hy. apply Hx, Hy.
Qed.

Lemma distinct_dates_filter (f : Shift -> bool) l :
  distinct_dates l -> distinct_dates (List.filter f l).
Proof.
  unfold distinct_dates. induction l as [|x l IH]; simpl; [auto|].
  intros H. apply NoDup_cons in H. destruct H as [Hx Hl].
  destruct (f x); [|auto]. simpl. apply NoDup_cons. split; [|auto].
  intros Hin. apply Hx. clear -Hin.
  rewrite !list_elem_of_In in *. apply List.in_map_iff in Hin.
  destruct Hin as (y & Ey & Hy). apply List.filter_In in Hy.
  apply List.in_map_iff. exists y. tauto.
Qed.

Lemma distinct_dates_perm l1 l2 :
  l1 ≡ₚ l2 -> distinct_dates l1 -> distinct_dates l2.
Proof.
  unfold distinct_dates. intros P H.
  eapply NoDup_Permutation_proper; [|exact H].
  symmetry. apply Permutation_map, P.
Qed.

Lemma has_date_In d l : has_date d l = true <-> In d (List.map date l).
Proof.
  unfold has_date. rewrite existsb_exists, List.in_map_iff.
  split; intros (x & H1 & H2).
  - apply String.eqb_eq in H2. eauto.
  - exists x. split; [exact H2|]. apply String.eqb_eq, H1.
Qed.

Lemma truthy_nonempty s : Str.truthy s = true <-> s <> "".
Proof. destruct s; simpl; split; congruence. Qed.

(** ** Opening the drawer *)

Lemma openDrawer_source_run v s :
  openDrawer (Some v) s =
  (Normal tt,
   with_isDrawerOpen true
     (with_formData
        {| FormData.title := or_empty (Vacancy.title v);
           FormData.description := or_empty (Vacancy.description v);
           FormData.shifts :=
             sort compare_dates (List.map load_shift (default [] (Vacancy.swifts v))) |}
        (with_editingVacancy (Some v) (with_validationErrors ∅ s))),
   []).
Proof. unfold openDrawer. destruct (Vacancy.swifts v); reflexivity. Qed.

Lemma openDrawer_empty_run s :
  openDrawer None s =
  (Normal tt,
   with_isDrawerOpen true
     (with_formData initialFormData
        (with_editingVacancy None (with_validationErrors ∅ s))),
   []).
Proof. reflexivity. Qed.

Lemma substring_prefix (t : string) (n : nat) :
  exists rest, t = Str.substring t 0 n ++ rest.
Proof.
  unfold Str.substring. rewrite Nat.min_0_l, Nat.max_0_l, Nat.sub_0_r.
  revert t. induction n as [|n IH]; intros t.
  - exists t. destruct t; reflexivity.
  - destruct t as [|c t]; [exists ""; reflexivity|].
    destruct (IH t) as [rest E]. exists rest.
    change (String c t = String c (String.substring 0 n t ++ rest)).
    f_equal. exact E.
Qed.

Lemma substring_length (t : string) (n : nat) :
  String.length (Str.substring t 0 n) = Nat.min n (String.length t).
Proof.
  unfold Str.substring. rewrite Nat.min_0_l, Nat.max_0_l, Nat.sub_0_r.
  revert t. induction n as [|n IH]; intros t.
  - destruct t; reflexivity.
  - destruct t as [|c t]; [reflexivity|]. simpl. f_equal. apply IH.
Qed.

Lemma load_shift_date l : List.map date (List.map load_shift l) = List.map date l.
Proof. rewrite List.map_map. reflexivity. Qed.

Lemma plain_dates_load l : plain_dates (List.map load_shift l) <-> plain_dates l.
Proof.
  unfold plain_dates. rewrite List.Forall_map. reflexivity.
Qed.

(** C2, as the code has it. Opening on a source vacancy copies each shift
    with its date string unchanged and its times cut to their first five
    characters; the rows are those copies rearranged, and when the date
    strings are made of digits and hyphens they are in ascending lexical
    order of the date strings; opening without a source yields the empty
    draft; in both cases the validation errors are cleared and the drawer
    is open. *)
Theorem openDrawer_loads_draft (s : State) :
  (forall v,
     draft_shifts (state_after (openDrawer (Some v)) s)
       ≡ₚ List.map load_shift (default [] (Vacancy.swifts v))
     /\ List.map date (draft_shifts (state_after (openDrawer (Some v)) s))
       ≡ₚ List.map date (default [] (Vacancy.swifts v))
     /\ (plain_dates (default [] (Vacancy.swifts v)) ->
         sorted_by_date (draft_shifts (state_after (openDrawer (Some v)) s)))
     /\ FormData.title (formData (state_after (openDrawer (Some v)) s))
        = or_empty (Vacancy.title v)
     /\ FormData.description (formData (state_after (openDrawer (Some v)) s))
        = or_empty (Vacancy.description v)
     /\ validationErrors (state_after (openDrawer (Some v)) s) = ∅
     /\ editingVacancy (state_after (openDrawer (Some v)) s) = Some v
     /\ isDrawerOpen (state_after (openDrawer (Some v)) s) = true)
  /\ (forall swift,
        date (load_shift swift) = date swift
        /\ type (load_shift swift) = type swift
        /\ price (load_shift swift) = price swift
        /\ (exists rest, start_time swift = start_time (load_shift swift) ++ rest)
        /\ String.length (start_time (load_shift swift))
           = Nat.min 5 (String.length (start_time swift))
        /\ (exists rest, end_time swift = end_time (load_shift swift) ++ rest)
        /\ String.length (end_time (load_shift swift))
           = Nat.min 5 (String.length (end_time swift)))
  /\ formData (state_after (openDrawer None) s)
     = {| FormData.title := ""; FormData.description := ""; FormData.shifts := [] |}
  /\ validationErrors (state_after (openDrawer None) s) = ∅
  /\ editingVacancy (state_after (openDrawer None) s) = None
  /\ isDrawerOpen (state_after (openDrawer None) s) = true.
Proof.
  split; [|split].
  - intros v. unfold state_after, draft_shifts. rewrite openDrawer_source_run. simpl.
    split; [apply sort_by_date_perm|].
    split; [rewrite sort_by_date_perm; rewrite load_shift_date; reflexivity|].
    split; [intros Hp; apply sort_by_date_sorted, plain_dates_load, Hp|].
    repeat split; reflexivity.
  - intros swift. repeat split; simpl;
      auto using substring_prefix, substring_length.
  - unfold state_after. rewrite openDrawer_empty_run. repeat split; reflexivity.
Qed.

Lemma openDrawer_loads_draft_witness :
  let v := Vacancy.mk 6 (Some "Night desk") (Some "Reception")
             (Some [mkShift "27-09-2025" "09:00:00" "17:00:00" "Telephone" (Int 80);
                    mkShift "01-10-2025" "22:00:00" "23:30:00" "Emergency" (Int 95)]) in
  let s := state_after (openDrawer (Some v)) (initialState "2025-09-01") in
  List.map date (draft_shifts s) = ["01-10-2025"; "27-09-2025"]
  /\ List.map start_time (draft_shifts s) = ["22:00"; "09:00"]
  /\ sorted_by_date (draft_shifts s).
Proof.
  intros v s. split; [reflexivity|]. split; [reflexivity|].
  destruct (openDrawer_loads_draft (initialState "2025-09-01")) as [H _].
  destruct (H v) as (_ & _ & Hsorted & _).
  apply Hsorted. repeat constructor.
Defined.

(** C2 as worded fails: a date received in the form DD-MM-YYYY stays in
    that form in the draft. *)
Lemma openDrawer_reformats_dates_counterexample :
  ~ (forall s v,
       Forall (fun swift => is_wire_date (date swift) = true)
              (default [] (Vacancy.swifts v)) ->
       Forall (fun row => is_iso_date (date row) = true)
              (draft_shifts (state_after (openDrawer (Some v)) s))).
Proof.
  intros H.
  specialize (H (initialState "2025-09-01")
    (Vacancy.mk 1 (Some "Night desk") (Some "Reception")
       (Some [mkShift "27-09-2025" "09:00:00" "17:00:00" "Telephone" (Int 80)]))).
  assert (Hw : Forall (fun swift => is_wire_date (date swift) = true)
                 [mkShift "27-09-2025" "09:00:00" "17:00:00" "Telephone" (Int 80)]).
  { constructor; [reflexivity|constructor]. }
  specialize (H Hw). vm_compute in H.
  apply Forall_cons in H. destruct H as [H _]. discriminate H.
Qed.

(** ** Adding and removing rows *)

Lemma addShift_skip_run s :
  Str.truthy (dateInput s)
  && negb (has_date (dateInput s) (FormData.shifts (formData s))) = false ->
  addShift s = (Normal tt, s, []).
Proof.
  intros H. unfold addShift. cbv beta iota zeta delta [mbind handler_bind bind closure].
  rewrite H. reflexivity.
Qed.

Lemma addShift_add_run s :
  Str.truthy (dateInput s)
  && negb (has_date (dateInput s) (FormData.shifts (formData s))) = true ->
  addShift s =
  (Normal tt,
   with_dateInput ""
     (with_formData
        {| FormData.title := FormData.title (formData s);
           FormData.description := FormData.description (formData s);
           FormData.shifts :=
             sort compare_dates
               (FormData.shifts (formData s) ++ [initialShiftDetails (dateInput s)])%list |}
        s),
   []).
Proof.
  intros H. unfold addShift. cbv beta iota zeta delta [mbind handler_bind bind closure].
  rewrite H. reflexivity.
Qed.

Lemma removeShift_run d s :
  removeShift d s =
  (Normal tt,
   with_formData
     {| FormData.title := FormData.title (formData s);
        FormData.description := FormData.description (formData s);
        FormData.shifts :=
          List.filter (fun row => negb (String.eqb (date row) d))
            (FormData.shifts (formData s)) |}
     s,
   []).
Proof. reflexivity. Qed.

Lemma addShift_guard s :
  Str.truthy (dateInput s)
  && negb (has_date (dateInput s) (FormData.shifts (formData s))) = true
  <-> dateInput s <> "" /\ ~ In (dateInput s) (List.map date (draft_shifts s)).
Proof.
  unfold draft_shifts.
  rewrite andb_true_iff, negb_true_iff, truthy_nonempty, <- has_date_In.
  destruct (has_date _ _); split; intros [H1 H2]; split; auto; congruence.
Qed.

Lemma plain_dates_snoc rows d :
  plain_date d = true -> plain_dates rows ->
  plain_dates (rows ++ [initialShiftDetails d])%list.
Proof.
  intros Hd Hrows. apply Forall_app. split; [exact Hrows|].
  constructor; [exact Hd|constructor].
Qed.

Lemma digit_plain c : is_digit c = true -> is_digit c || Ascii.eqb c "-" = true.
Proof. intros ->. reflexivity. Qed.

Lemma iso_date_plain d : is_iso_date d = true -> plain_date d = true.
Proof.
  unfold is_iso_date, plain_date.
  destruct (list_ascii_of_string d)
    as [|y1 [|y2 [|y3 [|y4 [|h1 [|m1 [|m2 [|h2 [|d1 [|d2 [|? ?]]]]]]]]]]];
    try discriminate.
  intros H. apply andb_true_iff in H. destruct H as [H H2].
  apply andb_true_iff in H. destruct H as [H H1].
  cbn [forallb] in *.
  repeat (apply andb_true_iff in H; destruct H as [? H]).
  rewrite H1, H2, !digit_plain by assumption. rewrite !orb_true_r. reflexivity.
Qed.

(** C6. [addShift] leaves the state as it is when the date input is empty
    or its date is already in the draft; otherwise the draft's rows become
    the old rows plus one row with that date and the defaults 09:00,
    17:00, Consultation, 70, rearranged by the sort: in ascending lexical
    order of the dates when the dates of the rows and of the input are
    made of digits and hyphens, as the value of a date input is. *)
Theorem addShift_spec (s : State) :
  ((dateInput s = "" \/ In (dateInput s) (List.map date (draft_shifts s))) ->
     state_after addShift s = s
     /\ draft_shifts (state_after addShift s) = draft_shifts s
     /\ length (draft_shifts (state_after addShift s)) = length (draft_shifts s))
  /\ (dateInput s <> "" ->
      ~ In (dateInput s) (List.map date (draft_shifts s)) ->
      draft_shifts (state_after addShift s)
        ≡ₚ (draft_shifts s
            ++ [mkShift (dateInput s) "09:00" "17:00" "Consultation" (Int 70)])%list
      /\ length (draft_shifts (state_after addShift s)) = S (length (draft_shifts s))
      /\ (plain_date (dateInput s) = true -> plain_dates (draft_shifts s) ->
          sorted_by_date (draft_shifts (state_after addShift s))))
  /\ (is_iso_date (dateInput s) = true -> plain_date (dateInput s) = true).
Proof.
  split; [|split].
  - intros H.
    assert (E : state_after addShift s = s).
    { unfold state_after. rewrite addShift_skip_run; [reflexivity|].
      destruct (_ && _) eqn:G; [|reflexivity].
      apply addShift_guard in G. destruct G as [G1 G2]. destruct H; contradiction. }
    rewrite E. auto.
  - intros H1 H2.
    assert (G := proj2 (addShift_guard s) (conj H1 H2)).
    unfold state_after, draft_shifts. rewrite (addShift_add_run s G). simpl.
    split; [apply sort_by_date_perm|].
    split.
    + rewrite sort_length, length_app. simpl. lia.
    + intros Hd Hrows. apply sort_by_date_sorted, plain_dates_snoc; assumption.
  - apply iso_date_plain.
Qed.

Lemma addShift_spec_witness :
  let s := with_dateInput "2025-02-10"
             (state_after (openDrawer None) (initialState "2025-01-15")) in
  let s1 := state_after addShift s in
  let s2 := state_after addShift (with_dateInput "2025-02-10" s1) in
  let s3 := state_after addShift (with_dateInput "2025-01-20" s1) in
  List.map date (draft_shifts s1) = ["2025-02-10"]
  /\ state_after addShift s1 = s1
  /\ s2 = with_dateInput "2025-02-10" s1
  /\ length (draft_shifts s3) = 2%nat
  /\ sorted_by_date (draft_shifts s3).
Proof.
  intros s s1 s2 s3.
  split; [reflexivity|].
  split; [apply (addShift_spec s1); left; reflexivity|].
  split; [apply (addShift_spec (with_dateInput "2025-02-10" s1)); right; left; reflexivity|].
  assert (Hne : dateInput (with_dateInput "2025-01-20" s1) <> "") by discriminate.
  assert (Hnew : ~ In (dateInput (with_dateInput "2025-01-20" s1))
                   (List.map date (draft_shifts (with_dateInput "2025-01-20" s1)))).
  { simpl. intros [H|[]]. discriminate H. }
  destruct (addShift_spec (with_dateInput "2025-01-20" s1)) as (_ & H & _).
  destruct (H Hne Hnew) as (_ & Hlen & Hsorted).
  split; [exact Hlen|]. apply Hsorted; [reflexivity|repeat constructor].
Defined.

(** ** The invariant of the draft's shift list *)

Lemma distinct_dates_load l :
  distinct_dates (List.map load_shift l) <-> distinct_dates l.
Proof. unfold distinct_dates. rewrite load_shift_date. reflexivity. Qed.

Lemma distinct_dates_sort l :
  distinct_dates (sort compare_dates l) <-> distinct_dates l.
Proof.
  split; apply distinct_dates_perm; [|symmetry]; apply sort_by_date_perm.
Qed.

Lemma distinct_dates_snoc l x :
  distinct_dates l -> ~ In (date x) (List.map date l) -> distinct_dates (l ++ [x])%list.
Proof.
  intros Hl Hx.
  apply (distinct_dates_perm (x :: l)).
  - rewrite Permutation_app_comm. reflexivity.
  - unfold distinct_dates. simpl. apply NoDup_cons. split; [|exact Hl].
    rewrite list_elem_of_In. exact Hx.
Qed.

Lemma openDrawer_distinct_iff s v :
  distinct_dates (draft_shifts (state_after (openDrawer (Some v)) s))
  <-> distinct_dates (default [] (Vacancy.swifts v)).
Proof.
  unfold state_after, draft_shifts. rewrite openDrawer_source_run. simpl.
  rewrite distinct_dates_sort, distinct_dates_load. reflexivity.
Qed.

Lemma openDrawer_plain s v :
  plain_dates (default [] (Vacancy.swifts v)) ->
  plain_dates (draft_shifts (state_after (openDrawer (Some v)) s)).
Proof.
  intros Hp. unfold state_after, draft_shifts. rewrite openDrawer_source_run. simpl.
  apply plain_dates_sort, plain_dates_load, Hp.
Qed.

Lemma openDrawer_sorted s v :
  plain_dates (default [] (Vacancy.swifts v)) ->
  sorted_by_date (draft_shifts (state_after (openDrawer (Some v)) s)).
Proof.
  intros Hp. unfold state_after, draft_shifts. rewrite openDrawer_source_run. simpl.
  apply sort_by_date_sorted, plain_dates_load, Hp.
Qed.

Lemma openDrawer_invariant_iff s v :
  plain_dates (default [] (Vacancy.swifts v)) ->
  (shift_invariant (draft_shifts (state_after (openDrawer (Some v)) s))
   <-> distinct_dates (default [] (Vacancy.swifts v))).
Proof.
  intros Hp. unfold shift_invariant. rewrite openDrawer_distinct_iff.
  split; [tauto|]. intros H. split; [exact H|apply openDrawer_sorted, Hp].
Qed.

Lemma addShift_distinct s :
  distinct_dates (draft_shifts s) ->
  distinct_dates (draft_shifts (state_after addShift s)).
Proof.
  intros Hd. unfold state_after.
  destruct (Str.truthy (dateInput s)
            && negb (has_date (dateInput s) (FormData.shifts (formData s)))) eqn:G.
  - rewrite (addShift_add_run s G). unfold draft_shifts. simpl.
    apply addShift_guard in G. destruct G as [_ G].
    apply distinct_dates_sort, distinct_dates_snoc; assumption.
  - rewrite (addShift_skip_run s G). exact Hd.
Qed.

Lemma addShift_plain s :
  plain_date (dateInput s) = true -> plain_dates (draft_shifts s) ->
  plain_dates (draft_shifts (state_after addShift s))
  /\ plain_date (dateInput (state_after addShift s)) = true.
Proof.
  intros Hi Hp. unfold state_after.
  destruct (Str.truthy (dateInput s)
            && negb (has_date (dateInput s) (FormData.shifts (formData s)))) eqn:G.
  - rewrite (addShift_add_run s G). unfold draft_shifts. simpl.
    split; [|reflexivity]. apply plain_dates_sort, plain_dates_snoc; assumption.
  - rewrite (addShift_skip_run s G). split; assumption.
Qed.

Lemma addShift_sorted s :
  plain_date (dateInput s) = true -> plain_dates (draft_shifts s) ->
  sorted_by_date (draft_shifts s) ->
  sorted_by_date (draft_shifts (state_after addShift s)).
Proof.
  intros Hi Hp Hs. unfold state_after.
  destruct (Str.truthy (dateInput s)
            && negb (has_date (dateInput s) (FormData.shifts (formData s)))) eqn:G.
  - rewrite (addShift_add_run s G). unfold draft_shifts. simpl.
    apply sort_by_date_sorted, plain_dates_snoc; assumption.
  - rewrite (addShift_skip_run s G). exact Hs.
Qed.

Lemma addShift_invariant s :
  plain_date (dateInput s) = true -> plain_dates (draft_shifts s) ->
  shift_invariant (draft_shifts s) ->
  shift_invariant (draft_shifts (state_after addShift s)).
Proof.
  intros Hi Hp [Hd Hs].
  split; [apply addShift_distinct, Hd|apply addShift_sorted; assumption].
Qed.

Lemma removeShift_plain s d :
  plain_dates (draft_shifts s) ->
  plain_dates (draft_shifts (state_after (removeShift d) s)).
Proof.
  intros Hp. unfold state_after. rewrite removeShift_run.
  unfold draft_shifts, plain_dates in *. simpl.
  rewrite List.Forall_forall in *. intros row Hrow.
  apply List.filter_In in Hrow. apply Hp, Hrow.
Qed.

Lemma removeShift_invariant_distinct s d :
  distinct_dates (draft_shifts s) ->
  distinct_dates (draft_shifts (state_after (removeShift d) s)).
Proof.
  intros Hd. unfold state_after. rewrite removeShift_run.
  unfold draft_shifts. simpl. apply distinct_dates_filter, Hd.
Qed.

Lemma removeShift_sorted s d :
  sorted_by_date (draft_shifts s) ->
  sorted_by_date (draft_shifts (state_after (removeShift d) s)).
Proof.
  intros Hs. unfold state_after. rewrite removeShift_run.
  unfold draft_shifts. simpl. apply sorted_by_date_filter, Hs.
Qed.

Lemma removeShift_invariant s d :
  shift_invariant (draft_shifts s) ->
  shift_invariant (draft_shifts (state_after (removeShift d) s)).
Proof.
  intros [Hd Hs]. unfold state_after. rewrite removeShift_run.
  unfold draft_shifts. simpl.
  split; [apply distinct_dates_filter|apply sorted_by_date_filter]; assumption.
Qed.

Lemma removeShift_removes s d :
  ~ In d (List.map date (draft_shifts (state_after (removeShift d) s))).
Proof.
  unfold state_after. rewrite removeShift_run. unfold draft_shifts. simpl.
  rewrite List.in_map_iff. intros (x & E & Hx).
  apply List.filter_In in Hx. destruct Hx as [_ Hx].
  apply negb_true_iff, String.eqb_neq in Hx. contradiction.
Qed.

(** C9, as the code has it. The invariant "dates pairwise distinct and
    rows in ascending lexical order of the dates" holds for the empty
    initial draft and after opening without a source, and is preserved by
    removing a row.  Adding a row keeps the dates distinct, and keeps the
    invariant when the dates of the rows and of the date input are made
    of digits and hyphens, as the value of a date input is.  Opening on a
    source vacancy gives distinct dates exactly when the dates of the
    source's shifts are distinct, and sorted rows when those dates are
    made of digits and hyphens.  Rows of such dates stay so. *)
Theorem shift_invariant_operations :
  shift_invariant (FormData.shifts initialFormData)
  /\ (forall s, shift_invariant (draft_shifts (state_after (openDrawer None) s)))
  /\ (forall s v,
        (distinct_dates (draft_shifts (state_after (openDrawer (Some v)) s))
         <-> distinct_dates (default [] (Vacancy.swifts v)))
        /\ (plain_dates (default [] (Vacancy.swifts v)) ->
            sorted_by_date (draft_shifts (state_after (openDrawer (Some v)) s))
            /\ plain_dates (draft_shifts (state_after (openDrawer (Some v)) s))
            /\ (distinct_dates (default [] (Vacancy.swifts v))
                <-> shift_invariant
                      (draft_shifts (state_after (openDrawer (Some v)) s)))))
  /\ (forall s, distinct_dates (draft_shifts s) ->
                distinct_dates (draft_shifts (state_after addShift s)))
  /\ (forall s, plain_date (dateInput s) = true -> plain_dates (draft_shifts s) ->
                shift_invariant (draft_shifts s) ->
                shift_invariant (draft_shifts (state_after addShift s))
                /\ plain_dates (draft_shifts (state_after addShift s))
                /\ plain_date (dateInput (state_after addShift s)) = true)
  /\ (forall s d, shift_invariant (draft_shifts s) ->
                  shift_invariant (draft_shifts (state_after (removeShift d) s)))
  /\ (forall s d, plain_dates (draft_shifts s) ->
                  plain_dates (draft_shifts (state_after (removeShift d) s))).
Proof.
  assert (Hnil : shift_invariant []).
  { split; [apply NoDup_nil_2|constructor]. }
  split; [exact Hnil|].
  split; [intros s; unfold state_after; rewrite openDrawer_empty_run; exact Hnil|].
  split; [|split; [|split; [|split]]].
  - intros s v. split; [apply openDrawer_distinct_iff|].
    intros Hp. split; [apply openDrawer_sorted, Hp|].
    split; [apply openDrawer_plain, Hp|].
    symmetry. apply openDrawer_invariant_iff, Hp.
  - apply addShift_distinct.
  - intros s Hi Hp Hinv. split; [apply addShift_invariant; assumption|].
    apply addShift_plain; assumption.
  - apply removeShift_invariant.
  - apply removeShift_plain.
Qed.

Lemma shift_invariant_operations_witness :
  let s := with_dateInput "2025-03-02"
             (state_after (openDrawer None) (initialState "2025-03-01")) in
  shift_invariant (draft_shifts s)
  /\ List.map date (draft_shifts (state_after addShift s)) = ["2025-03-02"]
  /\ shift_invariant (draft_shifts (state_after addShift s))
  /\ shift_invariant
       (draft_shifts (state_after (removeShift "2025-03-02") (state_after addShift s))).
Proof.
  intros s.
  destruct shift_invariant_operations as (_ & Hopen & _ & _ & Hadd & Hremove & _).
  assert (H0 : shift_invariant (draft_shifts s)) by exact (Hopen (initialState "2025-03-01")).
  assert (H1 : shift_invariant (draft_shifts (state_after addShift s))).
  { apply (Hadd s); [reflexivity|constructor|exact H0]. }
  split; [exact H0|].
  split; [reflexivity|].
  split; [exact H1|].
  exact (Hremove (state_after addShift s) "2025-03-02" H1).
Defined.

(** C9 as worded fails after opening on a source vacancy with two shifts
    on one date: both rows are kept. *)
Lemma openDrawer_distinct_dates_counterexample :
  ~ (forall s v,
       shift_invariant (draft_shifts (state_after (openDrawer (Some v)) s))).
Proof.
  intros H.
  specialize (H (initialState "2025-05-01")
    (Vacancy.mk 4 (Some "Ward cover") (Some "Two slots on one day")
       (Some [mkShift "2025-05-03" "08:00:00" "12:00:00" "Consultation" (Int 60);
              mkShift "2025-05-03" "13:00:00" "18:00:00" "Emergency" (Int 95)]))).
  destruct H as [H _]. vm_compute in H.
  apply NoDup_cons in H. destruct H as [H _]. apply H. left.
Qed.

(** ** Validation *)

Lemma validateForm_run s :
  validateForm s =
  (Normal (length (Object_keys (formErrors (formData s))) =? 0)%nat,
   with_validationErrors (formErrors (formData s)) s,
   []).
Proof. reflexivity. Qed.

Lemma Object_keys_nil {V} (o : gmap string V) : Object_keys o = [] <-> o = ∅.
Proof.
  unfold Object_keys. rewrite <- map_to_list_empty_iff.
  split; [apply fmap_nil_inv|intros ->; reflexivity].
Qed.

Lemma no_keys_empty {V} (o : gmap string V) :
  (length (Object_keys o) =? 0)%nat = true <-> o = ∅.
Proof.
  rewrite Nat.eqb_eq, <- Object_keys_nil.
  destruct (Object_keys o); simpl; split; congruence.
Qed.

Lemma checkShift_flag row index m b :
  (checkShift row index (m, b)).2 = b || (bad_price row || bad_time row).
Proof.
  unfold checkShift, bad_price, bad_time.
  destruct (Num.le (price row) (Int 0) || Num.isNaN (price row));
    destruct (Num.le _ _); destruct b; reflexivity.
Qed.

Lemma forEach_checkShift_flag l index acc :
  (forEach_from checkShift index l acc).2
  = acc.2 || existsb (fun row => bad_price row || bad_time row) l.
Proof.
  revert index acc. induction l as [|row l IH]; intros index [m b].
  - simpl. rewrite orb_false_r. reflexivity.
  - cbn [forEach_from existsb]. rewrite IH, checkShift_flag.
    cbn [snd]. rewrite !orb_assoc. reflexivity.
Qed.

(** Once recorded, a time error stays under its key. *)
Lemma checkShift_keeps_time row index m b key :
  m !! ("time-" ++ key) = Some time_message ->
  (checkShift row index (m, b)).1 !! ("time-" ++ key) = Some time_message.
Proof.
  intros H. unfold checkShift.
  destruct (Num.le (price row) (Int 0) || Num.isNaN (price row));
    destruct (Num.le _ _); simpl.
  - destruct (decide ("time-" ++ pretty index = "time-" ++ key)) as [E|E].
    + rewrite E, lookup_insert_eq. reflexivity.
    + rewrite lookup_insert_ne by exact E.
      rewrite lookup_insert_ne by discriminate. exact H.
  - rewrite lookup_insert_ne by discriminate. exact H.
  - destruct (decide ("time-" ++ pretty index = "time-" ++ key)) as [E|E].
    + rewrite E, lookup_insert_eq. reflexivity.
    + rewrite lookup_insert_ne by exact E. exact H.
  - exact H.
Qed.

Lemma checkShift_records_time row index m b :
  bad_time row = true ->
  (checkShift row index (m, b)).1 !! ("time-" ++ pretty index) = Some time_message.
Proof.
  unfold bad_time, checkShift. intros H. rewrite H.
  destruct (Num.le (price row) (Int 0) || Num.isNaN (price row)); simpl;
    apply lookup_insert_eq.
Qed.

Lemma forEach_keeps_time l index acc key :
  acc.1 !! ("time-" ++ key) = Some time_message ->
  (forEach_from checkShift index l acc).1 !! ("time-" ++ key) = Some time_message.
Proof.
  revert index acc. induction l as [|row l IH]; intros index [m b] H.
  - exact H.
  - cbn [forEach_from]. apply IH.
    destruct (checkShift row index (m, b)) as [m' b'] eqn:E.
    pose proof (checkShift_keeps_time row index m b key H) as K.
    rewrite E in K. exact K.
Qed.

Lemma forEach_records_time l index acc i row :
  l !! i = Some row -> bad_time row = true ->
  (forEach_from checkShift index l acc).1 !! ("time-" ++ pretty (index + i)%nat)
  = Some time_message.
Proof.
  revert index acc i. induction l as [|x l IH]; intros index [m b] i Hi Hbad.
  - discriminate Hi.
  - cbn [forEach_from]. destruct i as [|i].
    + inversion Hi; subst x. rewrite Nat.add_0_r.
      apply forEach_keeps_time, checkShift_records_time, Hbad.
    + replace (index + S i)%nat with (S index + i)%nat by lia.
      apply IH; assumption.
Qed.

Lemma formErrors_shiftDetails fd :
  existsb (fun row => bad_price row || bad_time row) (FormData.shifts fd) = true ->
  formErrors fd !! "shiftDetails"
  = Some (ShiftErrors (forEach checkShift (FormData.shifts fd) (∅, false)).1).
Proof.
  intros H. unfold formErrors.
  pose proof (forEach_checkShift_flag (FormData.shifts fd) 0 (∅, false)) as F.
  fold (forEach checkShift (FormData.shifts fd) (∅, false)) in F.
  destruct (forEach checkShift (FormData.shifts fd) (∅, false)) as [m b].
  simpl in F. rewrite H in F. subst b. apply lookup_insert_eq.
Qed.

Lemma formErrors_title fd :
  FormData.title fd = "" ->
  formErrors fd !! "title" = Some (Message "Title is required.").
Proof.
  intros H. unfold formErrors. rewrite H. simpl.
  destruct (forEach checkShift (FormData.shifts fd) (∅, false)) as [m b].
  destruct b; destruct (negb (Str.truthy (FormData.description fd)));
    destruct (length (FormData.shifts fd) =? 0)%nat;
    repeat (rewrite lookup_insert_ne by discriminate);
    apply lookup_insert_eq.
Qed.

Lemma lookup_nonempty {V} (o : gmap string V) key v : o !! key = Some v -> o <> ∅.
Proof. intros H E. rewrite E, lookup_empty in H. discriminate. Qed.

Lemma validateForm_fails s key v :
  formErrors (formData s) !! key = Some v ->
  result_of validateForm s = Normal false.
Proof.
  intros H. unfold result_of. rewrite validateForm_run. simpl. f_equal.
  apply not_true_is_false. rewrite no_keys_empty.
  eapply lookup_nonempty, H.
Qed.

Lemma existsb_bad l row :
  In row l -> bad_price row = true \/ bad_time row = true ->
  existsb (fun row => bad_price row || bad_time row) l = true.
Proof.
  intros Hin H. apply existsb_exists. exists row. split; [exact Hin|].
  apply orb_true_iff. exact H.
Qed.

Lemma formErrors_empty_iff fd : formErrors fd = ∅ <-> ~ invalid_draft fd.
Proof.
  unfold invalid_draft. split.
  - intros E [H|[H|[H|(row & Hin & H)]]].
    + apply formErrors_title in H. rewrite E, lookup_empty in H. discriminate.
    + revert E. unfold formErrors. rewrite H. simpl.
      destruct (forEach checkShift (FormData.shifts fd) (∅, false)) as [m b].
      destruct b; destruct (length (FormData.shifts fd) =? 0)%nat;
        intros E; apply (f_equal (fun o => o !! "description")) in E;
        repeat (rewrite lookup_insert_ne in E by discriminate);
        rewrite lookup_insert_eq, lookup_empty in E; discriminate.
    + revert E. unfold formErrors. rewrite H. simpl.
      intros E; apply (f_equal (fun o => o !! "shifts")) in E.
      rewrite lookup_insert_eq, lookup_empty in E. discriminate.
    + pose proof (formErrors_shiftDetails fd (existsb_bad _ _ Hin H)) as F.
      rewrite E, lookup_empty in F. discriminate.
  - intros H. unfold formErrors.
    pose proof (forEach_checkShift_flag (FormData.shifts fd) 0 (∅, false)) as F.
    fold (forEach checkShift (FormData.shifts fd) (∅, false)) in F.
    destruct (forEach checkShift (FormData.shifts fd) (∅, false)) as [m b].
    simpl in F.
    destruct (FormData.title fd) eqn:Et; [exfalso; apply H; auto|].
    destruct (FormData.description fd) eqn:Ed; [exfalso; apply H; auto|].
    destruct (FormData.shifts fd) as [|r0 rows] eqn:Es; [exfalso; apply H; auto|].
    destruct b; [|reflexivity].
    exfalso. apply H. right. right. right.
    symmetry in F. apply existsb_exists in F. destruct F as (row & Hin & Hbad).
    exists row. split; [exact Hin|]. apply orb_true_iff, Hbad.
Qed.

Lemma invalid_draft_dec fd : invalid_draft fd \/ ~ invalid_draft fd.
Proof.
  unfold invalid_draft.
  destruct (FormData.title fd) eqn:Et; [left; auto|].
  destruct (FormData.description fd) eqn:Ed; [left; auto|].
  destruct (FormData.shifts fd) as [|r0 rows] eqn:Es; [left; auto|].
  destruct (existsb (fun row => bad_price row || bad_time row) (r0 :: rows)) eqn:Eb.
  - left. right. right. right.
    apply existsb_exists in Eb. destruct Eb as (row & Hin & Hbad).
    exists row. split; [exact Hin|]. apply orb_true_iff, Hbad.
  - right. intros [H|[H|[H|(row & Hin & H)]]]; try discriminate.
    rewrite (existsb_bad _ _ Hin H) in Eb. discriminate.
Qed.

(** C8. A draft with an empty title fails validation with a title error,
    whatever the description and the rows are. *)
Theorem validateForm_empty_title (s : State) :
  FormData.title (formData s) = "" ->
  result_of validateForm s = Normal false
  /\ validationErrors (state_after validateForm s) !! "title"
     = Some (Message "Title is required.").
Proof.
  intros H. apply formErrors_title in H. split.
  - eapply validateForm_fails, H.
  - unfold state_after. rewrite validateForm_run. exact H.
Qed.

Lemma validateForm_empty_title_witness :
  let s :=
    with_formData
      (FormData.mk "" "Evening cover"
         [mkShift "2025-04-11" "18:00" "23:00" "Emergency" (Int 120)])
      (initialState "2025-04-01") in
  result_of validateForm s = Normal false
  /\ validationErrors (state_after validateForm s) !! "title"
     = Some (Message "Title is required.").
Proof. intros s. apply (validateForm_empty_title s). reflexivity. Defined.

(** C7. A row whose end time, in minutes since midnight, is at most its
    start time gets an error under the key [time-<index>], and validation
    fails; the draft of the example gets exactly that error at index 0 and
    no price error. *)
Theorem validateForm_time_error :
  (forall (s : State) (i : nat) (row : Shift) (e b : Z),
     draft_shifts s !! i = Some row ->
     timeInMinutes (end_time row) = Int e ->
     timeInMinutes (start_time row) = Int b ->
     e <= b ->
     result_of validateForm s = Normal false
     /\ exists details,
          validationErrors (state_after validateForm s) !! "shiftDetails"
          = Some (ShiftErrors details)
          /\ details !! ("time-" ++ pretty i) = Some time_message)
  /\ (forall (s : State) (ty : string),
        formData s
        = FormData.mk "A" "B" [mkShift "2025-01-02" "09:00" "08:00" ty (Int 10)] ->
        result_of validateForm s = Normal false
        /\ validationErrors (state_after validateForm s)
           = {[ "shiftDetails" := ShiftErrors {[ "time-0" := time_message ]} ]}
        /\ ({[ "time-0" := time_message ]} : gmap string string) !! "price-0" = None).
Proof.
  split.
  - intros s i row e b Hi He Hb Hle.
    assert (Hbad : bad_time row = true).
    { unfold bad_time. rewrite He, Hb. simpl. apply Z.leb_le, Hle. }
    assert (Hin : In row (FormData.shifts (formData s))).
    { apply list_elem_of_In. eapply list_elem_of_lookup_2, Hi. }
    pose proof (formErrors_shiftDetails (formData s)
                  (existsb_bad _ _ Hin (or_intror Hbad))) as F.
    split; [eapply validateForm_fails, F|].
    eexists. unfold state_after. rewrite validateForm_run.
    split; [exact F|].
    apply (forEach_records_time _ 0 _ i row Hi Hbad).
  - intros s ty E.
    assert (F : formErrors (formData s)
                = {[ "shiftDetails" := ShiftErrors {[ "time-0" := time_message ]} ]}).
    { rewrite E. reflexivity. }
    split; [|split].
    + eapply validateForm_fails. rewrite F. apply lookup_singleton_eq.
    + unfold state_after. rewrite validateForm_run. exact F.
    + reflexivity.
Qed.

Lemma validateForm_time_error_witness :
  let s :=
    with_formData
      (FormData.mk "Day desk" "Front office"
         [mkShift "2025-06-01" "09:00" "17:00" "Consultation" (Int 70);
          mkShift "2025-06-02" "14:30" "14:30" "Telephone" (Int 55)])
      (initialState "2025-05-20") in
  result_of validateForm s = Normal false
  /\ exists details,
       validationErrors (state_after validateForm s) !! "shiftDetails"
       = Some (ShiftErrors details)
       /\ details !! "time-1" = Some time_message.
Proof.
  intros s.
  apply (proj1 validateForm_time_error s 1%nat
           (mkShift "2025-06-02" "14:30" "14:30" "Telephone" (Int 55)) 870 870);
    [reflexivity|reflexivity|reflexivity|lia].
Defined.

(** ** Saving *)

Lemma handleSave_invalid_run s saveOutcome refetchOutcome :
  formErrors (formData s) <> ∅ ->
  handleSave saveOutcome refetchOutcome s =
  (Normal tt,
   with_validationErrors (formErrors (formData s)) s,
   [Alert "Please fix the validation errors before saving."]).
Proof.
  intros H. unfold handleSave.
  cbv beta iota zeta delta [mbind handler_bind bind closure].
  rewrite validateForm_run.
  destruct (length (Object_keys (formErrors (formData s))) =? 0)%nat eqn:E.
  - apply no_keys_empty in E. contradiction.
  - reflexivity.
Qed.

(** C5. When validation records at least one error key, [handleSave] sends
    no request and changes nothing but the validation errors, which become
    the new error object; the draft and the raw list are as before.  The
    drafts concerned are those with an empty title, an empty description,
    no row, a row with a price that is not positive or not a number, or a
    row whose end time in minutes is at most its start time. *)
Theorem handleSave_invalid_blocked (s : State) (saveOutcome refetchOutcome : NetResult) :
  Object_keys (formErrors (formData s)) <> [] ->
  invalid_draft (formData s)
  /\ requests (effects_of (handleSave saveOutcome refetchOutcome) s) = []
  /\ state_after (handleSave saveOutcome refetchOutcome) s
     = with_validationErrors (formErrors (formData s)) s
  /\ formData (state_after (handleSave saveOutcome refetchOutcome) s) = formData s
  /\ rawVacancies (state_after (handleSave saveOutcome refetchOutcome) s)
     = rawVacancies s
  /\ validationErrors (state_after (handleSave saveOutcome refetchOutcome) s)
     = formErrors (formData s).
Proof.
  intros H. rewrite Object_keys_nil in H.
  split.
  - destruct (invalid_draft_dec (formData s)) as [I|I]; [exact I|].
    apply formErrors_empty_iff in I. contradiction.
  - unfold state_after, effects_of. rewrite (handleSave_invalid_run _ _ _ H).
    repeat split; reflexivity.
Qed.

Lemma handleSave_invalid_blocked_witness :
  let s :=
    with_formData
      (FormData.mk "Night desk" ""
         [mkShift "2025-07-04" "22:00" "23:45" "Ambulance" NaN])
      (with_rawVacancies
         [Vacancy.mk 3 (Some "Old") (Some "Kept") (Some [])]
         (initialState "2025-07-01")) in
  let s' :=
    state_after (handleSave (Rejected "offline") (Rejected "offline")) s in
  requests (effects_of (handleSave (Rejected "offline") (Rejected "offline")) s) = []
  /\ formData s' = formData s
  /\ rawVacancies s' = rawVacancies s
  /\ validationErrors s' !! "description" = Some (Message "Description is required.").
Proof.
  intros s s'.
  assert (H : Object_keys (formErrors (formData s)) <> []) by (vm_compute; discriminate).
  destruct (handleSave_invalid_blocked s (Rejected "offline") (Rejected "offline") H)
    as (_ & Hreq & _ & Hform & Hraw & Herr).
  split; [exact Hreq|]. split; [exact Hform|]. split; [exact Hraw|].
  unfold s'. rewrite Herr. reflexivity.
Defined.

(** ** Fetching *)


Lemma fetchVacancies_rejected cause s :
  fetchVacancies (Rejected cause) s =
  (Normal tt, with_isLoading false (with_rawVacancies [] (with_isLoading true s)),
   fetch_failure_effects cause).
Proof. reflexivity. Qed.

Lemma fetchVacancies_not_ok r s :
  ok r = false ->
  fetchVacancies (Resolved r) s =
  (Normal tt, with_isLoading false (with_rawVacancies [] (with_isLoading true s)),
   fetch_failure_effects ("HTTP error! status: " ++ pretty (status r))).
Proof.
  intros H. unfold fetchVacancies. run_handler. rewrite H. reflexivity.
Qed.

Lemma fetchVacancies_ok r s :
  ok r = true ->
  fetchVacancies (Resolved r) s =
  (Normal tt,
   with_isLoading false (with_rawVacancies (fetched (Resolved r)) (with_isLoading true s)),
   match json r with
   | JsonSyntaxError message => fetch_failure_effects message
   | JsonNull => fetch_failure_effects null_property_message
   | JsonValue true (Some _) => [Fetch "GET" API_BASE_URL None]
   | JsonValue _ _ =>
       [Fetch "GET" API_BASE_URL None;
        ConsoleError "API success: true, but data array is missing or malformed."]
   end).
Proof.
  intros H. unfold fetchVacancies, fetched. run_handler. rewrite H.
  destruct (json r) as [message| |[|] [data|]]; reflexivity.
Qed.

Lemma fetchVacancies_normal outcome s :
  fetchVacancies outcome s =
  (Normal tt,
   with_isLoading false (with_rawVacancies (fetched outcome) (with_isLoading true s)),
   effects_of (fetchVacancies outcome) s).
Proof.
  unfold effects_of. destruct outcome as [cause|r].
  - reflexivity.
  - destruct (ok r) eqn:H.
    + rewrite (fetchVacancies_ok r s H). reflexivity.
    + rewrite (fetchVacancies_not_ok r s H). unfold fetched. rewrite H. reflexivity.
Qed.

Lemma fetchVacancies_requests outcome s :
  requests (effects_of (fetchVacancies outcome) s) = [("GET", API_BASE_URL)].
Proof.
  destruct outcome as [cause|r]; [reflexivity|]. unfold effects_of.
  destruct (ok r) eqn:H.
  - rewrite (fetchVacancies_ok r s H).
    destruct (json r) as [message| |[|] [data|]]; reflexivity.
  - rewrite (fetchVacancies_not_ok r s H). reflexivity.
Qed.

(** C4, as the code has it. A fetch sends one GET and changes only the raw
    list and the loading flag, which ends false.  After a network failure
    or a response that is not 2xx the list is empty and one alert is
    shown.  After a 2xx response: a body [{success: true, data: <array>}]
    replaces the list by its data, silently; a parsed body of another
    shape empties the list and logs a diagnostic without an alert; a body
    that cannot be read (not JSON, or null) empties the list, logs and
    alerts like a failure. *)
Theorem fetchVacancies_outcome (s : State) (outcome : NetResult) :
  result_of (fetchVacancies outcome) s = Normal tt
  /\ state_after (fetchVacancies outcome) s
     = with_isLoading false
         (with_rawVacancies (rawVacancies (state_after (fetchVacancies outcome) s)) s)
  /\ requests (effects_of (fetchVacancies outcome) s) = [("GET", API_BASE_URL)]
  /\ (failed outcome = true ->
      rawVacancies (state_after (fetchVacancies outcome) s) = []
      /\ exists message, alerts (effects_of (fetchVacancies outcome) s) = [message])
  /\ (forall r, outcome = Resolved r -> ok r = true ->
      (forall data, json r = JsonValue true (Some data) ->
         rawVacancies (state_after (fetchVacancies outcome) s) = data
         /\ alerts (effects_of (fetchVacancies outcome) s) = []
         /\ diagnostics (effects_of (fetchVacancies outcome) s) = [])
      /\ (malformed (json r) ->
          rawVacancies (state_after (fetchVacancies outcome) s) = []
          /\ alerts (effects_of (fetchVacancies outcome) s) = []
          /\ diagnostics (effects_of (fetchVacancies outcome) s)
             = ["API success: true, but data array is missing or malformed."])
      /\ (unreadable (json r) ->
          rawVacancies (state_after (fetchVacancies outcome) s) = []
          /\ (exists message, alerts (effects_of (fetchVacancies outcome) s) = [message])
          /\ diagnostics (effects_of (fetchVacancies outcome) s)
             = ["Failed to fetch vacancies:"])).
Proof.
  unfold result_of, state_after.
  split; [rewrite fetchVacancies_normal; reflexivity|].
  split; [rewrite fetchVacancies_normal; reflexivity|].
  split; [apply fetchVacancies_requests|].
  split.
  { intros H. destruct outcome as [cause|r].
    - split; [reflexivity|]. eexists. reflexivity.
    - simpl in H. apply negb_true_iff in H. unfold effects_of.
      rewrite (fetchVacancies_not_ok r s H). split; [reflexivity|].
      eexists. reflexivity. }
  intros r -> H. unfold effects_of. rewrite (fetchVacancies_ok r s H).
  unfold fetched. rewrite H. simpl.
  split; [|split].
  - intros data ->. repeat split; reflexivity.
  - destruct (json r) as [message| |[|] [data|]]; simpl; intros M;
      try contradiction; repeat split; reflexivity.
  - destruct (json r) as [message| |[|] [data|]]; simpl; intros M;
      try contradiction; (split; [reflexivity|split; [eexists|]; reflexivity]).
Qed.

Lemma fetchVacancies_outcome_witness :
  let s := with_rawVacancies
             [Vacancy.mk 9 (Some "Stale") (Some "From the last fetch") None]
             (initialState "2025-08-01") in
  let v := Vacancy.mk 2 (Some "Fresh") (Some "New")
             (Some [mkShift "2025-08-03" "09:00:00" "17:00:00" "Consultation" (Int 70)]) in
  rawVacancies (state_after (fetchVacancies (Rejected "Failed to fetch")) s) = []
  /\ rawVacancies
       (state_after
          (fetchVacancies (Resolved (mkResponse 200 "" (JsonValue true (Some [v]))))) s)
     = [v]
  /\ alerts
       (effects_of
          (fetchVacancies (Resolved (mkResponse 200 "" (JsonValue false (Some [v]))))) s)
     = [].
Proof.
  intros s v.
  split; [|split].
  - apply (fetchVacancies_outcome s (Rejected "Failed to fetch")). reflexivity.
  - destruct (fetchVacancies_outcome s
                (Resolved (mkResponse 200 "" (JsonValue true (Some [v])))))
      as (_ & _ & _ & _ & H).
    destruct (H _ eq_refl eq_refl) as (H1 & _ & _).
    apply (H1 [v] eq_refl).
  - destruct (fetchVacancies_outcome s
                (Resolved (mkResponse 200 "" (JsonValue false (Some [v])))))
      as (_ & _ & _ & _ & H).
    destruct (H _ eq_refl eq_refl) as (_ & H2 & _).
    apply (H2 I).
Defined.

(** C4 as worded fails: a 2xx response whose body is not JSON, hence not
    of the well-formed shape, does raise an alert. *)
Lemma fetchVacancies_silent_counterexample :
  ~ (forall s r,
       ok r = true ->
       (forall data, json r <> JsonValue true (Some data)) ->
       rawVacancies (state_after (fetchVacancies (Resolved r)) s) = []
       /\ alerts (effects_of (fetchVacancies (Resolved r)) s) = []).
Proof.
  intros H.
  specialize (H (initialState "2025-08-01")
                (mkResponse 200 "<html>It works</html>"
                   (JsonSyntaxError "Unexpected token '<'"))
                eq_refl).
  destruct H as [_ H]; [intros data; discriminate|].
  vm_compute in H. discriminate H.
Qed.

(** ** Saving and deleting *)

Lemma append_assoc (a b c : string) : (a ++ b) ++ c = a ++ (b ++ c).
Proof.
  induction a as [|x a IH]; [reflexivity|].
  change (String x ((a ++ b) ++ c) = String x (a ++ (b ++ c))).
  f_equal. exact IH.
Qed.

Lemma contains_inside (before part after : string) :
  contains part (before ++ part ++ after).
Proof. exists before, after. reflexivity. Qed.

Lemma closeDrawer_run s :
  closeDrawer s =
  (Normal tt,
   with_validationErrors ∅ (with_editingVacancy None (with_isDrawerOpen false s)),
   []).
Proof. reflexivity. Qed.

Lemma save_fetch_eq s :
  Fetch
    match editingVacancy s with Some _ => "PUT" | None => "POST" end
    match editingVacancy s with
    | Some vacancy => vacancy_url vacancy
    | None => API_BASE_URL
    end
    (Some (vacancyPayload (formData s)))
  = save_request s.
Proof. reflexivity. Qed.

Lemma handleSave_failed_run s outcome refetch :
  formErrors (formData s) = ∅ ->
  failed outcome = true ->
  handleSave outcome refetch s =
  (Normal tt,
   with_validationErrors ∅ s,
   [save_request s;
    ConsoleError "Error saving vacancy:";
    Alert ("Error saving vacancy: " ++ mutation_error "save" outcome
           ++ ". Please check the console for the full API response.")]).
Proof.
  intros Hvalid Hfail. unfold handleSave. run_handler.
  rewrite validateForm_run, Hvalid, (proj2 (no_keys_empty ∅) eq_refl).
  cbv beta iota zeta delta [negb]. rewrite save_fetch_eq.
  destruct outcome as [cause|r]; [reflexivity|].
  simpl in Hfail. apply negb_true_iff in Hfail. rewrite Hfail. reflexivity.
Qed.

Lemma handleSave_succeeded_run s outcome refetch :
  formErrors (formData s) = ∅ ->
  failed outcome = false ->
  handleSave outcome refetch s =
  (Normal tt,
   state_after closeDrawer
     (state_after (fetchVacancies refetch) (with_validationErrors ∅ s)),
   save_request s :: effects_of (fetchVacancies refetch) (with_validationErrors ∅ s)).
Proof.
  intros Hvalid Hfail. unfold handleSave. run_handler.
  rewrite validateForm_run, Hvalid, (proj2 (no_keys_empty ∅) eq_refl).
  cbv beta iota zeta delta [negb]. rewrite save_fetch_eq.
  destruct outcome as [cause|r]; [discriminate Hfail|].
  simpl in Hfail. apply negb_false_iff in Hfail. rewrite Hfail.
  rewrite fetchVacancies_normal. unfold state_after.
  rewrite fetchVacancies_normal, closeDrawer_run. cbn [fst snd app].
  rewrite app_nil_r. reflexivity.
Qed.

Lemma handleDelete_failed_run s v outcome refetch :
  editingVacancy s = Some v ->
  failed outcome = true ->
  handleDelete true outcome refetch s =
  (Normal tt, s,
   [Confirm "Are you sure you want to delete this vacancy?";
    Fetch "DELETE" (vacancy_url v) None;
    ConsoleError "Error deleting vacancy:";
    Alert ("Error deleting vacancy: " ++ mutation_error "delete" outcome
           ++ ". Check console for details.")]).
Proof.
  intros Hedit Hfail. unfold handleDelete. run_handler. rewrite Hedit.
  cbv beta iota zeta delta [negb].
  destruct outcome as [cause|r]; [reflexivity|].
  simpl in Hfail. apply negb_true_iff in Hfail. rewrite Hfail. reflexivity.
Qed.

Lemma handleDelete_succeeded_run s v outcome refetch :
  editingVacancy s = Some v ->
  failed outcome = false ->
  handleDelete true outcome refetch s =
  (Normal tt,
   state_after closeDrawer (state_after (fetchVacancies refetch) s),
   Confirm "Are you sure you want to delete this vacancy?"
   :: Fetch "DELETE" (vacancy_url v) None
   :: effects_of (fetchVacancies refetch) s).
Proof.
  intros Hedit Hfail. unfold handleDelete. run_handler. rewrite Hedit.
  cbv beta iota zeta delta [negb].
  destruct outcome as [cause|r]; [discriminate Hfail|].
  simpl in Hfail. apply negb_false_iff in Hfail. rewrite Hfail.
  rewrite fetchVacancies_normal. unfold state_after.
  rewrite fetchVacancies_normal, closeDrawer_run. cbn [fst snd app].
  rewrite app_nil_r. reflexivity.
Qed.

Lemma handleDelete_idle_run s answer outcome refetch :
  editingVacancy s = None ->
  handleDelete answer outcome refetch s = (Normal tt, s, []).
Proof. intros H. unfold handleDelete. run_handler. rewrite H. reflexivity. Qed.

Lemma handleDelete_declined_run s v outcome refetch :
  editingVacancy s = Some v ->
  handleDelete false outcome refetch s =
  (Normal tt, s, [Confirm "Are you sure you want to delete this vacancy?"]).
Proof. intros H. unfold handleDelete. run_handler. rewrite H. reflexivity. Qed.

Lemma mutation_error_reports what outcome before after :
  failed outcome = true ->
  reports outcome (before ++ mutation_error what outcome ++ after).
Proof.
  intros _. destruct outcome as [cause|r]; simpl.
  - apply contains_inside.
  - split.
    + exists (before ++ "Failed to " ++ what ++ " vacancy: "),
        (" - " ++ text r ++ after).
      rewrite !append_assoc. reflexivity.
    + exists (before ++ "Failed to " ++ what ++ " vacancy: "
              ++ pretty (status r) ++ " - "), after.
      rewrite !append_assoc. reflexivity.
Qed.
(** Whatever draft was left behind, the next opening replaces it. *)
Lemma openDrawer_replaces_draft s1 s2 vacancy :
  formData (state_after (openDrawer vacancy) s1)
  = formData (state_after (openDrawer vacancy) s2).
Proof.
  unfold state_after. destruct vacancy as [v|].
  - rewrite !openDrawer_source_run. reflexivity.
  - rewrite !openDrawer_empty_run. reflexivity.
Qed.

(** C3.  For a draft that passes validation, [handleSave] sends one PUT
    or POST; for a vacancy being edited and a confirmed prompt,
    [handleDelete] sends one DELETE.  If the network fails or the
    response is not 2xx, one alert is shown that contains the status and
    the body of the response, or the message of the error, and the state
    is the one in which the request was sent: the state itself for a
    delete, the state left by the validation pass for a save (the given
    state with an empty error object, so the given state when it showed
    no errors); the raw list, the draft and the open flag of the drawer
    are as before.  If the request succeeds, the list is fetched again
    and then the drawer is closed: the open flag is false, the edited
    vacancy and the validation errors are cleared, no draft is on the
    screen any more, and the draft of the next opening is the one any
    other state would give, the empty draft when opened without a
    vacancy. *)
Theorem mutation_outcome (s : State) (outcome refetch : NetResult) :
  (formErrors (formData s) = ∅ ->
     (failed outcome = true ->
        state_after (handleSave outcome refetch) s = state_after validateForm s
        /\ state_after (handleSave outcome refetch) s = with_validationErrors ∅ s
        /\ (validationErrors s = ∅ -> state_after (handleSave outcome refetch) s = s)
        /\ rawVacancies (state_after (handleSave outcome refetch) s) = rawVacancies s
        /\ formData (state_after (handleSave outcome refetch) s) = formData s
        /\ isDrawerOpen (state_after (handleSave outcome refetch) s) = isDrawerOpen s
        /\ requests (effects_of (handleSave outcome refetch) s) = [(save_method s, save_url s)]
        /\ exists message,
             alerts (effects_of (handleSave outcome refetch) s) = [message]
             /\ reports outcome message)
     /\ (failed outcome = false ->
         effects_of (handleSave outcome refetch) s
         = save_request s
           :: effects_of (fetchVacancies refetch) (with_validationErrors ∅ s)
         /\ requests (effects_of (handleSave outcome refetch) s)
            = [(save_method s, save_url s); ("GET", API_BASE_URL)]
         /\ state_after (handleSave outcome refetch) s
            = state_after closeDrawer
                (state_after (fetchVacancies refetch) (with_validationErrors ∅ s))
         /\ rawVacancies (state_after (handleSave outcome refetch) s) = fetched refetch
         /\ isDrawerOpen (state_after (handleSave outcome refetch) s) = false
         /\ editingVacancy (state_after (handleSave outcome refetch) s) = None
         /\ validationErrors (state_after (handleSave outcome refetch) s) = ∅
         /\ shownDraft (state_after (handleSave outcome refetch) s) = None
         /\ (forall vacancy other,
               formData (state_after (openDrawer vacancy)
                           (state_after (handleSave outcome refetch) s))
               = formData (state_after (openDrawer vacancy) other))
         /\ formData (state_after (openDrawer None)
                        (state_after (handleSave outcome refetch) s))
            = initialFormData))
  /\ (forall v, editingVacancy s = Some v ->
     (failed outcome = true ->
        state_after (handleDelete true outcome refetch) s = s
        /\ rawVacancies (state_after (handleDelete true outcome refetch) s) = rawVacancies s
        /\ formData (state_after (handleDelete true outcome refetch) s) = formData s
        /\ isDrawerOpen (state_after (handleDelete true outcome refetch) s) = isDrawerOpen s
        /\ requests (effects_of (handleDelete true outcome refetch) s)
           = [("DELETE", vacancy_url v)]
        /\ exists message,
             alerts (effects_of (handleDelete true outcome refetch) s) = [message]
             /\ reports outcome message)
     /\ (failed outcome = false ->
         effects_of (handleDelete true outcome refetch) s
         = Confirm "Are you sure you want to delete this vacancy?"
           :: Fetch "DELETE" (vacancy_url v) None
           :: effects_of (fetchVacancies refetch) s
         /\ requests (effects_of (handleDelete true outcome refetch) s)
            = [("DELETE", vacancy_url v); ("GET", API_BASE_URL)]
         /\ state_after (handleDelete true outcome refetch) s
            = state_after closeDrawer (state_after (fetchVacancies refetch) s)
         /\ rawVacancies (state_after (handleDelete true outcome refetch) s)
            = fetched refetch
         /\ isDrawerOpen (state_after (handleDelete true outcome refetch) s) = false
         /\ editingVacancy (state_after (handleDelete true outcome refetch) s) = None
         /\ validationErrors (state_after (handleDelete true outcome refetch) s) = ∅
         /\ shownDraft (state_after (handleDelete true outcome refetch) s) = None
         /\ (forall vacancy other,
               formData (state_after (openDrawer vacancy)
                           (state_after (handleDelete true outcome refetch) s))
               = formData (state_after (openDrawer vacancy) other))
         /\ formData (state_after (openDrawer None)
                        (state_after (handleDelete true outcome refetch) s))
            = initialFormData)).
Proof.
  assert (Hopen : forall s', formData (state_after (openDrawer None) s') = initialFormData).
  { intros s'. unfold state_after. rewrite openDrawer_empty_run. reflexivity. }
  split.
  - intros Hvalid. split; intros Hfail.
    + unfold state_after, effects_of.
      rewrite (handleSave_failed_run s outcome refetch Hvalid Hfail).
      rewrite validateForm_run, Hvalid.
      cbn [fst snd]. split; [reflexivity|]. split; [reflexivity|].
      split; [intros <-; destruct s; reflexivity|].
      repeat (split; [reflexivity|]).
      eexists. split; [reflexivity|].
      apply mutation_error_reports, Hfail.
    + split; [|split; [|split; [|split; [|split; [|split; [|split; [|split;
        [|split; [|apply Hopen]]]]]]]]];
        try (intros vacancy other; apply openDrawer_replaces_draft);
        unfold state_after, effects_of;
        rewrite (handleSave_succeeded_run s outcome refetch Hvalid Hfail);
        cbn [fst snd]; try reflexivity.
      * change (requests (save_request s :: ?t))
          with ((save_method s, save_url s) :: requests t).
        rewrite fetchVacancies_requests. reflexivity.
      * unfold state_after. rewrite fetchVacancies_normal, closeDrawer_run. reflexivity.
  - intros v Hedit. split; intros Hfail.
    + unfold state_after, effects_of.
      rewrite (handleDelete_failed_run s v outcome refetch Hedit Hfail).
      cbn [fst snd]. repeat (split; [reflexivity|]).
      eexists. split; [reflexivity|].
      apply mutation_error_reports, Hfail.
    + split; [|split; [|split; [|split; [|split; [|split; [|split; [|split;
        [|split; [|apply Hopen]]]]]]]]];
        try (intros vacancy other; apply openDrawer_replaces_draft);
        unfold state_after, effects_of;
        rewrite (handleDelete_succeeded_run s v outcome refetch Hedit Hfail);
        cbn [fst snd]; try reflexivity.
      * change (requests (Confirm ?m :: Fetch ?a ?b ?c :: ?t))
          with ((a, b) :: requests t).
        rewrite fetchVacancies_requests. reflexivity.
      * unfold state_after. rewrite fetchVacancies_normal, closeDrawer_run. reflexivity.
Qed.

Lemma mutation_outcome_witness :
  let v := Vacancy.mk 12 (Some "Triage") (Some "Weekend triage")
             (Some [mkShift "2025-09-06" "08:00:00" "16:00:00" "Emergency" (Int 140)]) in
  let s := state_after (openDrawer (Some v))
             (with_rawVacancies [v] (initialState "2025-09-01")) in
  let down := Resolved (mkResponse 500 "Server Error" JsonNull) in
  let done := Resolved (mkResponse 200 "{}" JsonNull) in
  let list := Resolved (mkResponse 200 "" (JsonValue true (Some []))) in
  state_after (handleSave down list) s = s
  /\ rawVacancies (state_after (handleSave down list) s) = [v]
  /\ isDrawerOpen (state_after (handleSave down list) s) = true
  /\ alerts (effects_of (handleSave down list) s)
     = ["Error saving vacancy: Failed to save vacancy: 500 - Server Error. Please check the console for the full API response."]
  /\ requests (effects_of (handleSave done list) s)
     = [("PUT", "http://127.0.0.1:8000/api/vacancy/12");
        ("GET", "http://127.0.0.1:8000/api/vacancy")]
  /\ isDrawerOpen (state_after (handleSave done list) s) = false
  /\ shownDraft (state_after (handleSave done list) s) = None
  /\ state_after (handleDelete true down list) s = s
  /\ rawVacancies (state_after (handleDelete true done list) s) = [].
Proof.
  intros v s down done list.
  assert (Hvalid : formErrors (formData s) = ∅) by reflexivity.
  destruct (mutation_outcome s down list) as [Hsave Hdelete].
  destruct (Hsave Hvalid) as [Hfail _].
  destruct (Hfail eq_refl) as (_ & _ & Hkeep & Hraw & _ & Hopen & _ & _).
  destruct (Hdelete v eq_refl) as [Hdfail _].
  destruct (Hdfail eq_refl) as (Hsame & _).
  destruct (mutation_outcome s done list) as [Hsave' Hdelete'].
  destruct (Hsave' Hvalid) as [_ Hok].
  destruct (Hok eq_refl) as (_ & Hreq & _ & _ & Hclosed & _ & _ & Hshown & _).
  destruct (Hdelete' v eq_refl) as [_ Hdok].
  destruct (Hdok eq_refl) as (_ & _ & _ & Hlist & _).
  split; [apply Hkeep; reflexivity|].
  split; [exact Hraw|]. split; [exact Hopen|]. split; [reflexivity|].
  split; [exact Hreq|]. split; [exact Hclosed|]. split; [exact Hshown|].
  split; [exact Hsame|exact Hlist].
Defined.

(** ** What the network handlers leave alone *)

Lemma fetchVacancies_frame outcome s :
  same_form_and_bounds s (state_after (fetchVacancies outcome) s).
Proof.
  unfold state_after. rewrite fetchVacancies_normal. repeat split; reflexivity.
Qed.

Lemma handleSave_frame o1 o2 s :
  same_form_and_bounds s (state_after (handleSave o1 o2) s).
Proof.
  unfold state_after.
  destruct (decide (formErrors (formData s) = ∅)) as [Hvalid|Hinvalid].
  - destruct (failed o1) eqn:Hfail.
    + rewrite (handleSave_failed_run s o1 o2 Hvalid Hfail). repeat split; reflexivity.
    + rewrite (handleSave_succeeded_run s o1 o2 Hvalid Hfail).
      unfold state_after. rewrite fetchVacancies_normal, closeDrawer_run.
      repeat split; reflexivity.
  - rewrite (handleSave_invalid_run s o1 o2 Hinvalid). repeat split; reflexivity.
Qed.

Lemma handleDelete_frame answer o1 o2 s :
  same_form_and_bounds s (state_after (handleDelete answer o1 o2) s).
Proof.
  unfold state_after.
  destruct (editingVacancy s) as [v|] eqn:Hedit.
  - destruct answer.
    + destruct (failed o1) eqn:Hfail.
      * rewrite (handleDelete_failed_run s v o1 o2 Hedit Hfail). repeat split; reflexivity.
      * rewrite (handleDelete_succeeded_run s v o1 o2 Hedit Hfail).
        unfold state_after. rewrite fetchVacancies_normal, closeDrawer_run.
        repeat split; reflexivity.
    + rewrite (handleDelete_declined_run s v o1 o2 Hedit). repeat split; reflexivity.
  - rewrite (handleDelete_idle_run s answer o1 o2 Hedit). repeat split; reflexivity.
Qed.

(** ** The price bounds *)

Lemma step_bounds_ordered s e : bounds_ordered s -> bounds_ordered (step s e).
Proof.
  unfold bounds_ordered, step. intros [Hs Ha].
  destruct e; cbn [handle].
  - destruct (fetchVacancies_frame outcome s) as (_ & _ & -> & -> & -> & ->). lia.
  - simpl. lia.
  - simpl. lia.
  - simpl. lia.
  - destruct vacancy as [v|]; unfold state_after;
      [rewrite openDrawer_source_run|rewrite openDrawer_empty_run]; simpl; lia.
  - simpl. lia.
  - destruct name; simpl; lia.
  - simpl. lia.
  - unfold state_after.
    destruct (Str.truthy (dateInput s)
              && negb (has_date (dateInput s) (FormData.shifts (formData s)))) eqn:G;
      [rewrite (addShift_add_run s G)|rewrite (addShift_skip_run s G)]; simpl; lia.
  - simpl. lia.
  - simpl. lia.
  - destruct (handleSave_frame saveOutcome refetchOutcome s)
      as (_ & _ & -> & -> & -> & ->). lia.
  - destruct (handleDelete_frame answer deleteOutcome refetchOutcome s)
      as (_ & _ & -> & -> & -> & ->). lia.
Qed.

Lemma run_snoc events e s : run (events ++ [e]) s = step (run events s) e.
Proof. unfold run. apply foldl_snoc. Qed.

(** C10. From the initial bounds 0 and 1000, whatever happens to the
    component, [minPrice <= maxPrice] holds, and so does
    [actualMinPrice <= actualMaxPrice] for the pair handed to the filter:
    the handler of the first slider stores the minimum of the new value
    and the current [maxPrice] in [minPrice] and leaves [maxPrice], that
    of the second stores the maximum of the new value and the current
    [minPrice] in [maxPrice] and leaves [minPrice], and the timer copies
    both bounds at once; none of the three changes any other field. *)
Theorem price_bounds_ordered (today : string) (events : list Event) (s : State) (value : Z) :
  (minPrice (initialState today) = 0 /\ maxPrice (initialState today) = 1000
   /\ actualMinPrice (initialState today) = 0
   /\ actualMaxPrice (initialState today) = 1000)
  /\ (minPrice (state_after (onMinPriceChange value) s) = Z.min value (maxPrice s)
      /\ maxPrice (state_after (onMinPriceChange value) s) = maxPrice s
      /\ state_after (onMinPriceChange value) s
         = with_minPrice (Z.min value (maxPrice s)) s)
  /\ (maxPrice (state_after (onMaxPriceChange value) s) = Z.max value (minPrice s)
      /\ minPrice (state_after (onMaxPriceChange value) s) = minPrice s
      /\ state_after (onMaxPriceChange value) s
         = with_maxPrice (Z.max value (minPrice s)) s)
  /\ (actualMinPrice (state_after debounceExpired s) = minPrice s
      /\ actualMaxPrice (state_after debounceExpired s) = maxPrice s
      /\ minPrice (state_after debounceExpired s) = minPrice s
      /\ maxPrice (state_after debounceExpired s) = maxPrice s
      /\ state_after debounceExpired s
         = with_actualMaxPrice (maxPrice s) (with_actualMinPrice (minPrice s) s))
  /\ minPrice (run events (initialState today))
     <= maxPrice (run events (initialState today))
  /\ actualMinPrice (run events (initialState today))
     <= actualMaxPrice (run events (initialState today)).
Proof.
  split; [repeat split; reflexivity|].
  split; [repeat split; reflexivity|].
  split; [repeat split; reflexivity|].
  split; [repeat split; reflexivity|].
  change (bounds_ordered (run events (initialState today))).
  induction events as [|e events IH] using rev_ind.
  - split; simpl; lia.
  - rewrite run_snoc. apply step_bounds_ordered, IH.
Qed.

(** ** The draft's invariant along a run *)

Lemma sorted_by_date_dates l :
  sorted_by_date l <-> StronglySorted String.le (List.map date l).
Proof.
  unfold sorted_by_date. induction l as [|x l IH]; simpl.
  - split; constructor.
  - split; intros H; apply StronglySorted_inv in H; destruct H as [Hl Hx];
      constructor; try (apply IH; exact Hl).
    + rewrite List.Forall_forall in *. intros d Hd.
      apply List.in_map_iff in Hd. destruct Hd as (y & <- & Hy). apply Hx, Hy.
    + rewrite List.Forall_forall in *. intros y Hy.
      apply Hx, List.in_map, Hy.
Qed.

Lemma set_field_date name value row : date (set_field name value row) = date row.
Proof. destruct name; reflexivity. Qed.

Lemma handleShiftChange_dates index name value s :
  List.map date (draft_shifts (state_after (handleShiftChange index name value) s))
  = List.map date (draft_shifts s).
Proof.
  unfold draft_shifts. simpl.
  destruct (FormData.shifts (formData s) !! index) as [row|] eqn:E; [|reflexivity].
  change (List.map date ?l) with (date <$> l).
  rewrite list_fmap_insert, set_field_date.
  apply list_insert_id. rewrite list_lookup_fmap, E. reflexivity.
Qed.

Lemma plain_dates_dates l1 l2 :
  List.map date l1 = List.map date l2 -> plain_dates l1 -> plain_dates l2.
Proof.
  unfold plain_dates. intros E H.
  apply (List.Forall_map date (fun d => plain_date d = true)).
  rewrite <- E. apply (List.Forall_map date (fun d => plain_date d = true)), H.
Qed.

Lemma sorted_by_date_same_dates l1 l2 :
  List.map date l1 = List.map date l2 -> sorted_by_date l1 -> sorted_by_date l2.
Proof. rewrite !sorted_by_date_dates. intros ->. trivial. Qed.

Lemma distinct_dates_same_dates l1 l2 :
  List.map date l1 = List.map date l2 -> distinct_dates l1 -> distinct_dates l2.
Proof. unfold distinct_dates. intros ->. trivial. Qed.

Lemma step_distinct_dates s e :
  match e with
  | OpenClicked (Some v) => distinct_dates (default [] (Vacancy.swifts v))
  | _ => True
  end ->
  distinct_dates (draft_shifts s) -> distinct_dates (draft_shifts (step s e)).
Proof.
  unfold step. intros He Hs.
  destruct e; cbn [handle]; try exact Hs.
  - unfold draft_shifts.
    destruct (fetchVacancies_frame outcome s) as (-> & _). exact Hs.
  - destruct vacancy as [v|].
    + apply openDrawer_distinct_iff, He.
    + unfold state_after. rewrite openDrawer_empty_run. apply NoDup_nil_2.
  - destruct name; exact Hs.
  - apply addShift_distinct, Hs.
  - eapply distinct_dates_same_dates; [|exact Hs].
    symmetry. apply handleShiftChange_dates.
  - apply removeShift_invariant_distinct, Hs.
  - unfold draft_shifts.
    destruct (handleSave_frame saveOutcome refetchOutcome s) as (-> & _). exact Hs.
  - unfold draft_shifts.
    destruct (handleDelete_frame answer deleteOutcome refetchOutcome s) as (-> & _).
    exact Hs.
Qed.

(** As long as the drawer is only opened on vacancies whose shifts have
    distinct dates, the draft's rows have distinct dates at every point
    of every run. *)
Lemma distinct_dates_run today events :
  Forall (fun v => distinct_dates (default [] (Vacancy.swifts v))) (opened events) ->
  distinct_dates (draft_shifts (run events (initialState today))).
Proof.
  induction events as [|e events IH] using rev_ind; intros H.
  - apply NoDup_nil_2.
  - rewrite run_snoc. unfold opened in H. rewrite omap_app in H.
    apply Forall_app in H. destruct H as [H1 H2].
    apply step_distinct_dates; [|apply IH, H1].
    destruct e as [| | | |[v|]| | | | | | | |]; try exact I.
    simpl in H2. apply Forall_cons in H2. apply H2.
Qed.

Lemma step_plain_sorted s e :
  plain_event e -> plain_sorted s -> plain_sorted (step s e).
Proof.
  unfold step, plain_sorted. intros He (Hs & Hp & Hi).
  destruct e; cbn [handle]; try (split; [exact Hs|split; [exact Hp|exact Hi]]).
  - unfold draft_shifts.
    destruct (fetchVacancies_frame outcome s) as (-> & -> & _). auto.
  - destruct vacancy as [v|].
    + split; [apply openDrawer_sorted, He|].
      split; [apply openDrawer_plain, He|].
      unfold state_after. rewrite openDrawer_source_run. exact Hi.
    + unfold state_after. rewrite openDrawer_empty_run.
      split; [constructor|]. split; [constructor|exact Hi].
  - destruct name; auto.
  - split; [exact Hs|]. split; [exact Hp|exact He].
  - split; [apply addShift_sorted; assumption|apply addShift_plain; assumption].
  - split; [|split; [|exact Hi]].
    + eapply sorted_by_date_same_dates; [|exact Hs].
      symmetry. apply handleShiftChange_dates.
    + eapply plain_dates_dates; [|exact Hp].
      symmetry. apply handleShiftChange_dates.
  - split; [apply removeShift_sorted, Hs|].
    split; [apply removeShift_plain, Hp|exact Hi].
  - unfold draft_shifts.
    destruct (handleSave_frame saveOutcome refetchOutcome s) as (-> & -> & _). auto.
  - unfold draft_shifts.
    destruct (handleDelete_frame answer deleteOutcome refetchOutcome s) as (-> & -> & _).
    auto.
Qed.

(** As long as the dates typed in the date input and those of the
    vacancies opened are made of digits and hyphens, the draft's rows are
    in ascending order of the dates at every point of every run. *)
Lemma plain_sorted_run today events :
  plain_date today = true -> Forall plain_event events ->
  plain_sorted (run events (initialState today)).
Proof.
  intros Ht. induction events as [|e events IH] using rev_ind; intros H.
  - split; [constructor|]. split; [constructor|exact Ht].
  - rewrite run_snoc. apply Forall_app in H. destruct H as [H1 H2].
    apply step_plain_sorted; [|apply IH, H1].
    apply Forall_cons in H2. apply H2.
Qed.

(** ** The examples of the specification *)

Example filter_example_full_range :
  List.map Vacancy.id
    (filteredVacancies
       [example_vacancy 1 [50]; example_vacancy 2 []; example_vacancy 3 [900]] 0 1000)
  = [1; 3].
Proof. reflexivity. Qed.

Example filter_example_narrow_range :
  List.map Vacancy.id
    (filteredVacancies
       [example_vacancy 1 [50]; example_vacancy 2 []; example_vacancy 3 [900]] 0 100)
  = [1].
Proof. reflexivity. Qed.

Example timeInMinutes_examples :
  List.map timeInMinutes ["00:00"; "09:00"; "17:00"; "23:45"; "9:5"; ""; "0900"]
  = [Int 0; Int 540; Int 1020; Int 1425; Int 545; NaN; NaN].
Proof. reflexivity. Qed.

Example formatDateForAPI_example : formatDateForAPI "2025-09-27" = "27-09-2025".
Proof. reflexivity. Qed.

(** Every time the selects offer is read as its number of minutes since
    midnight. *)
Example timeOptions_minutes :
  List.map timeInMinutes timeOptions
  = List.map (fun k => Int (15 * Z.of_nat k)) (seq 0 96).
Proof. vm_compute. reflexivity. Qed.

(** * Further properties *)

(** ** Dates and times *)

Lemma split_sep sep s : Str.split sep (String sep s) = "" :: Str.split sep s.
Proof. simpl. rewrite Ascii.eqb_refl. reflexivity. Qed.

Lemma split_not_nil sep s : Str.split sep s <> [].
Proof.
  induction s as [|c s IH]; simpl; [discriminate|].
  destruct (Ascii.eqb c sep); [discriminate|].
  destruct (Str.split sep s); [contradiction|discriminate].
Qed.

Lemma split_prefix sep a rest :
  occurs sep a = false ->
  Str.split sep (a ++ String sep rest) = a :: Str.split sep rest.
Proof.
  induction a as [|c a IH]; intros H.
  - apply split_sep.
  - simpl in H. apply orb_false_iff in H. destruct H as [Hc Ha].
    change (String c a ++ String sep rest) with (String c (a ++ String sep rest)).
    simpl. rewrite Hc, (IH Ha). reflexivity.
Qed.

Lemma split_whole sep a : occurs sep a = false -> Str.split sep a = [a].
Proof.
  induction a as [|c a IH]; intros H; [reflexivity|].
  simpl in H. apply orb_false_iff in H. destruct H as [Hc Ha].
  simpl. rewrite Hc, (IH Ha). reflexivity.
Qed.

Lemma truthy_app a c rest : Str.truthy (a ++ String c rest) = true.
Proof. destruct a; reflexivity. Qed.

Lemma formatDateForAPI_split d :
  Str.truthy d = true ->
  formatDateForAPI d =
  Str.interpolate (Str.split "-" d !! 2%nat) ++ "-"
  ++ Str.interpolate (Str.split "-" d !! 1%nat) ++ "-"
  ++ Str.interpolate (Str.split "-" d !! 0%nat).
Proof. intros H. unfold formatDateForAPI. rewrite H. reflexivity. Qed.

Lemma formatDateForAPI_three a b c :
  occurs "-" a = false -> occurs "-" b = false -> occurs "-" c = false ->
  formatDateForAPI (a ++ "-" ++ b ++ "-" ++ c) = c ++ "-" ++ b ++ "-" ++ a.
Proof.
  intros Ha Hb Hc.
  rewrite formatDateForAPI_split by apply truthy_app.
  change (a ++ "-" ++ b ++ "-" ++ c) with (a ++ String "-" (b ++ String "-" c)).
  rewrite (split_prefix _ _ _ Ha), (split_prefix _ _ _ Hb), (split_whole _ _ Hc).
  reflexivity.
Qed.

(** X1. On three parts without a hyphen joined by hyphens,
    [formatDateForAPI] gives the parts in reverse order, whatever their
    lengths; a fourth part and all that follows is dropped. *)
Theorem formatDateForAPI_reverses (a b c : string) :
  occurs "-" a = false -> occurs "-" b = false -> occurs "-" c = false ->
  formatDateForAPI (a ++ "-" ++ b ++ "-" ++ c) = c ++ "-" ++ b ++ "-" ++ a
  /\ forall rest,
       formatDateForAPI (a ++ "-" ++ b ++ "-" ++ c ++ "-" ++ rest)
       = c ++ "-" ++ b ++ "-" ++ a.
Proof.
  intros Ha Hb Hc. split; [apply formatDateForAPI_three; assumption|intros rest].
  rewrite formatDateForAPI_split by apply truthy_app.
  change (a ++ "-" ++ b ++ "-" ++ c ++ "-" ++ rest)
    with (a ++ String "-" (b ++ String "-" (c ++ String "-" rest))).
  rewrite (split_prefix _ _ _ Ha), (split_prefix _ _ _ Hb), (split_prefix _ _ _ Hc).
  reflexivity.
Qed.

Lemma formatDateForAPI_reverses_witness :
  formatDateForAPI "2025-9-27" = "27-9-2025"
  /\ formatDateForAPI "2025-09-27-extra" = "27-09-2025".
Proof.
  split.
  - apply (formatDateForAPI_reverses "2025" "9" "27"); reflexivity.
  - apply (formatDateForAPI_reverses "2025" "09" "27"); reflexivity.
Defined.

Lemma digit_not_hyphen c : is_digit c = true -> Ascii.eqb c "-" = false.
Proof.
  intros H. destruct (Ascii.eqb_spec c "-") as [->|]; [discriminate H|reflexivity].
Qed.

Lemma iso_date_parts d :
  is_iso_date d = true ->
  exists y1 y2 y3 y4 m1 m2 d1 d2,
    d = String y1 (String y2 (String y3 (String y4 (String "-"
          (String m1 (String m2 (String "-" (String d1 (String d2 "")))))))))
    /\ forallb is_digit [y1; y2; y3; y4; m1; m2; d1; d2] = true.
Proof.
  unfold is_iso_date.
  destruct d as [|y1 [|y2 [|y3 [|y4 [|h1 [|m1 [|m2 [|h2 [|d1 [|d2 [|? ?]]]]]]]]]]];
    try discriminate.
  cbn [list_ascii_of_string]. intros H.
  apply andb_true_iff in H. destruct H as [H H2].
  apply andb_true_iff in H. destruct H as [H H1].
  apply Ascii.eqb_eq in H1, H2. subst h1 h2.
  exists y1, y2, y3, y4, m1, m2, d1, d2. split; [reflexivity|exact H].
Qed.

Lemma iso_date_reversed d :
  is_iso_date d = true ->
  exists sent,
    formatDateForAPI d = sent
    /\ formatDateForAPI sent = d
    /\ is_wire_date sent = true.
Proof.
  intros H. destruct (iso_date_parts d H) as (y1 & y2 & y3 & y4 & m1 & m2 & d1 & d2 & -> & Hd).
  cbn [forallb] in Hd. repeat (apply andb_true_iff in Hd; destruct Hd as [? Hd]).
  assert (Hy : occurs "-" (String y1 (String y2 (String y3 (String y4 "")))) = false).
  { cbn [occurs]. rewrite !digit_not_hyphen by assumption. reflexivity. }
  assert (Hm : occurs "-" (String m1 (String m2 "")) = false).
  { cbn [occurs]. rewrite !digit_not_hyphen by assumption. reflexivity. }
  assert (Hdd : occurs "-" (String d1 (String d2 "")) = false).
  { cbn [occurs]. rewrite !digit_not_hyphen by assumption. reflexivity. }
  pose proof (formatDateForAPI_three _ _ _ Hy Hm Hdd) as E1.
  pose proof (formatDateForAPI_three _ _ _ Hdd Hm Hy) as E2.
  cbv beta iota delta [String.append] in E1, E2.
  eexists. split; [exact E1|]. split; [exact E2|].
  unfold is_wire_date. cbn [list_ascii_of_string forallb].
  repeat match goal with H : is_digit _ = true |- _ => rewrite H; clear H end.
  reflexivity.
Qed.

(** X2. A date in the form YYYY-MM-DD is sent in the form DD-MM-YYYY, and
    applying [formatDateForAPI] to the result gives the date back. *)
Theorem formatDateForAPI_iso (d : string) :
  is_iso_date d = true ->
  is_wire_date (formatDateForAPI d) = true
  /\ formatDateForAPI (formatDateForAPI d) = d.
Proof.
  intros H. destruct (iso_date_reversed d H) as (sent & E1 & E2 & Hw).
  rewrite E1. split; [exact Hw|exact E2].
Qed.

Lemma formatDateForAPI_iso_witness :
  is_wire_date (formatDateForAPI "2025-09-27") = true
  /\ formatDateForAPI (formatDateForAPI "2025-09-27") = "2025-09-27".
Proof. apply (formatDateForAPI_iso "2025-09-27"). reflexivity. Defined.

(** X3. An empty date is sent as the empty string; a date without a
    hyphen is sent as "undefined-undefined-" followed by the date, and a
    date of two parts as "undefined-", the second part, a hyphen and the
    first part. *)
Theorem formatDateForAPI_short (a b : string) :
  formatDateForAPI "" = ""
  /\ (a <> "" -> occurs "-" a = false ->
      formatDateForAPI a = "undefined-undefined-" ++ a)
  /\ (occurs "-" a = false -> occurs "-" b = false ->
      formatDateForAPI (a ++ "-" ++ b) = "undefined-" ++ b ++ "-" ++ a).
Proof.
  split; [reflexivity|]. split.
  - intros Hne Ha. rewrite formatDateForAPI_split by (apply truthy_nonempty, Hne).
    rewrite (split_whole _ _ Ha). reflexivity.
  - intros Ha Hb. rewrite formatDateForAPI_split by apply truthy_app.
    change (a ++ "-" ++ b) with (a ++ String "-" b).
    rewrite (split_prefix _ _ _ Ha), (split_whole _ _ Hb). reflexivity.
Qed.

Lemma formatDateForAPI_short_witness :
  formatDateForAPI "20250927" = "undefined-undefined-20250927"
  /\ formatDateForAPI "2025-09" = "undefined-09-2025".
Proof.
  destruct (formatDateForAPI_short "20250927" "") as (_ & H1 & _).
  destruct (formatDateForAPI_short "2025" "09") as (_ & _ & H2).
  split; [apply H1; [discriminate|reflexivity]|apply H2; reflexivity].
Defined.

(** ** Numbers read from strings *)

Lemma below_ten (P : N -> Prop) :
  P 0%N -> P 1%N -> P 2%N -> P 3%N -> P 4%N -> P 5%N -> P 6%N -> P 7%N ->
  P 8%N -> P 9%N -> forall d, (d < 10)%N -> P d.
Proof.
  intros H0 H1 H2 H3 H4 H5 H6 H7 H8 H9 d Hd.
  rewrite <- (N2Nat.id d). assert (Hn : (N.to_nat d < 10)%nat) by lia.
  destruct (N.to_nat d) as [|[|[|[|[|[|[|[|[|[|n]]]]]]]]]]; try assumption. lia.
Qed.

Lemma digit_value_char d :
  (d < 10)%N ->
  Str.digit_value (pretty_N_char d) = Some (Z.of_N d)
  /\ is_digit (pretty_N_char d) = true.
Proof. revert d. apply below_ten; split; reflexivity. Qed.

Lemma digits_step acc c rest d :
  Str.digit_value c = Some d -> d < 10 ->
  Str.digits 10 acc (String c rest) = Str.digits 10 (Some (default 0 acc * 10 + d)) rest.
Proof.
  intros Hc Hd. cbn [Str.digits]. rewrite Hc.
  apply Z.ltb_lt in Hd. rewrite Hd. reflexivity.
Qed.

Lemma digits_pretty_go x :
  (0 < x)%N ->
  forall s acc, default 0 acc = 0 ->
    Str.digits 10 acc (pretty_N_go x s) = Str.digits 10 (Some (Z.of_N x)) s.
Proof.
  induction (N.lt_wf_0 x) as [x _ IH]. intros Hx s acc Hacc.
  rewrite pretty_N_go_step by exact Hx.
  assert (Hmod : (x `mod` 10 < 10)%N) by (apply N.mod_lt; discriminate).
  destruct (digit_value_char _ Hmod) as [Hv _].
  assert (Hdiv : (x `div` 10 = 0 \/ 0 < x `div` 10)%N) by apply N.eq_0_gt_0_cases.
  assert (Ex : Z.of_N x = Z.of_N (x `div` 10) * 10 + Z.of_N (x `mod` 10)).
  { rewrite (N.div_mod x 10) at 1 by discriminate. lia. }
  destruct Hdiv as [H0|Hpos].
  - rewrite H0, pretty_N_go_0.
    rewrite (digits_step _ _ _ _ Hv) by lia.
    rewrite Hacc, Ex, H0. reflexivity.
  - rewrite (IH (x `div` 10)%N) by (first [exact Hpos|exact Hacc|apply N.div_lt; [exact Hx|reflexivity]]).
    rewrite (digits_step _ _ _ _ Hv) by lia.
    rewrite Ex. reflexivity.
Qed.

Lemma pretty_go_starts_with_digit x :
  (0 < x)%N ->
  forall s, exists c rest, pretty_N_go x s = String c rest /\ is_digit c = true.
Proof.
  induction (N.lt_wf_0 x) as [x _ IH]. intros Hx s.
  rewrite pretty_N_go_step by exact Hx.
  assert (Hmod : (x `mod` 10 < 10)%N) by (apply N.mod_lt; discriminate).
  destruct (digit_value_char _ Hmod) as [_ Hd].
  assert (Hdiv : (x `div` 10 = 0 \/ 0 < x `div` 10)%N) by apply N.eq_0_gt_0_cases.
  destruct Hdiv as [H0|Hpos].
  - rewrite H0, pretty_N_go_0. eauto.
  - apply IH; [apply N.div_lt; [exact Hx|reflexivity]|exact Hpos].
Qed.

Lemma parseInt_digit_first c rest :
  is_digit c = true ->
  Str.parseInt (String c rest) 10 =
  match Str.digits 10 None (String c rest) with
  | Some n => Int (1 * n)
  | None => NaN
  end.
Proof.
  intros H. destruct c as [b0 b1 b2 b3 b4 b5 b6 b7].
  destruct b0, b1, b2, b3, b4, b5, b6, b7; cbv in H; try discriminate H; reflexivity.
Qed.

Lemma parseInt_minus_first rest :
  Str.parseInt (String "-" rest) 10 =
  match Str.digits 10 None rest with
  | Some n => Int (-1 * n)
  | None => NaN
  end.
Proof. reflexivity. Qed.

Lemma parseInt_pretty_positive p : Str.parseInt (pretty (Npos p)) 10 = Int (Zpos p).
Proof.
  change (pretty (Npos p)) with (pretty_N_go (Npos p) "").
  destruct (pretty_go_starts_with_digit (Npos p) eq_refl "") as (c & rest & E & Hc).
  pose proof (digits_pretty_go (Npos p) eq_refl "" None eq_refl) as D.
  rewrite E in *. rewrite (parseInt_digit_first _ _ Hc), D. reflexivity.
Qed.

(** X4. When the number input of a row reports the decimal text of an
    integer that a JavaScript number holds exactly (between -2^53 and
    2^53), [handleShiftChange] stores that integer as the price of the
    row and changes nothing else in it; reporting the text of the price
    the row already has leaves the rows as they are. *)
Theorem price_text_roundtrip (s : State) (index : nat) (row : Shift) (z : Z) :
  draft_shifts s !! index = Some row ->
  - 2 ^ 53 < z < 2 ^ 53 ->
  draft_shifts (state_after (handleShiftChange index PriceField (pretty z)) s) !! index
  = Some (mkShift (date row) (start_time row) (end_time row) (type row) (Int z))
  /\ (price row = Int z ->
      draft_shifts (state_after (handleShiftChange index PriceField (pretty z)) s)
      = draft_shifts s).
Proof.
  intros Hrow _.
  assert (P : Str.parseInt (pretty z) 10 = Int z).
  { destruct z as [|p|p].
    - reflexivity.
    - apply parseInt_pretty_positive.
    - change (pretty (Zneg p)) with (String "-" (pretty_N_go (Npos p) "")).
      rewrite parseInt_minus_first.
      rewrite (digits_pretty_go (Npos p) eq_refl "" None eq_refl). reflexivity. }
  unfold draft_shifts in *. simpl. rewrite Hrow.
  unfold set_field. rewrite P. split.
  - apply list_lookup_insert_eq. eapply lookup_lt_Some, Hrow.
  - intros Hp. apply list_insert_id. rewrite Hrow, <- Hp. destruct row; reflexivity.
Qed.

Lemma price_text_roundtrip_witness :
  let s := with_formData
             (FormData.mk "Desk" "Week"
                [mkShift "2025-12-01" "09:00" "17:00" "Consultation" (Int 70);
                 mkShift "2025-12-05" "09:00" "17:00" "Telephone" (Int 50)])
             (initialState "2025-11-30") in
  draft_shifts (state_after (handleShiftChange 1 PriceField "85") s) !! 1%nat
  = Some (mkShift "2025-12-05" "09:00" "17:00" "Telephone" (Int 85))
  /\ draft_shifts (state_after (handleShiftChange 0 PriceField "70") s) = draft_shifts s.
Proof.
  intros s. split.
  - apply (price_text_roundtrip s 1
             (mkShift "2025-12-05" "09:00" "17:00" "Telephone" (Int 50)) 85 eq_refl).
    lia.
  - apply (price_text_roundtrip s 0
             (mkShift "2025-12-01" "09:00" "17:00" "Consultation" (Int 70)) 70 eq_refl);
      [lia|reflexivity].
Defined.

(** ** Times in minutes *)

Lemma clock_minutes_all :
  Forall
    (fun h =>
       Forall
         (fun m => timeInMinutes (clock h m)
                   = Int (60 * Z.of_nat h + Z.of_nat m))
         (seq 0 100))
    (seq 0 100).
Proof. apply (bool_decide_unpack _). vm_compute. exact I. Qed.

(** X5. A time written HH:MM, with any two digits on each side of the
    colon, is read as 60 times the hours plus the minutes. *)
Theorem timeInMinutes_clock (h m : nat) :
  (h < 100)%nat -> (m < 100)%nat ->
  timeInMinutes (clock h m) = Int (60 * Z.of_nat h + Z.of_nat m).
Proof.
  intros Hh Hm. pose proof clock_minutes_all as H.
  rewrite Forall_forall in H. specialize (H h).
  rewrite Forall_forall in H. apply H; apply elem_of_seq; lia.
Qed.

Lemma timeInMinutes_clock_witness :
  clock 7 5 = "07:05" /\ timeInMinutes "07:05" = Int 425.
Proof.
  split; [reflexivity|]. apply (timeInMinutes_clock 7 5); lia.
Defined.

Lemma timeOptions_lookup_minutes i t :
  timeOptions !! i = Some t ->
  (i < 96)%nat /\ timeInMinutes t = Int (15 * Z.of_nat i).
Proof.
  intros H.
  assert (Hi : (i < 96)%nat).
  { apply lookup_lt_Some in H. exact H. }
  split; [exact Hi|].
  pose proof timeOptions_minutes as E.
  apply (f_equal (fun l => l !! i)) in E.
  change (List.map timeInMinutes timeOptions) with (timeInMinutes <$> timeOptions) in E.
  change (List.map (fun k => Int (15 * Z.of_nat k)) (seq 0 96))
    with ((fun k => Int (15 * Z.of_nat k)) <$> seq 0 96) in E.
  rewrite !list_lookup_fmap, H, lookup_seq_lt in E by exact Hi.
  simpl in E. congruence.
Qed.

(** X6. The selects offer 96 times; the one at position [i] is read as
    [15 * i] minutes, so a row whose start and end are picked from them
    has a time error exactly when the end is not picked after the
    start. *)
Theorem timeOptions_order (i j : nat) (row : Shift) :
  timeOptions !! i = Some (start_time row) ->
  timeOptions !! j = Some (end_time row) ->
  length timeOptions = 96%nat
  /\ timeInMinutes (start_time row) = Int (15 * Z.of_nat i)
  /\ timeInMinutes (end_time row) = Int (15 * Z.of_nat j)
  /\ (bad_time row = true <-> (j <= i)%nat).
Proof.
  intros Hi Hj.
  destruct (timeOptions_lookup_minutes _ _ Hi) as [_ Ei].
  destruct (timeOptions_lookup_minutes _ _ Hj) as [_ Ej].
  split; [reflexivity|]. split; [exact Ei|]. split; [exact Ej|].
  unfold bad_time. rewrite Ei, Ej. simpl. rewrite Z.leb_le. lia.
Qed.

Lemma timeOptions_order_witness :
  let row := mkShift "2025-10-01" "09:00" "08:45" "Telephone" (Int 40) in
  timeInMinutes (start_time row) = Int 540
  /\ timeInMinutes (end_time row) = Int 525
  /\ bad_time row = true.
Proof.
  intros row.
  destruct (timeOptions_order 36 35 row eq_refl eq_refl) as (_ & H1 & H2 & H3).
  split; [exact H1|]. split; [exact H2|]. apply H3. lia.
Defined.

(** ** More on the filter and the displayed list *)

Lemma filteredVacancies_as_filter raw min max :
  filteredVacancies raw min max = List.filter (spec_keeps min max) raw.
Proof.
  unfold filteredVacancies, spec_keeps, range_active.
  destruct ((0 <? min) || (max <? 1000)); apply filter_ext_all; intros v;
    unfold has_shifts; destruct (Vacancy.swifts v) as [[|s0 sw]|]; simpl;
    try reflexivity.
  rewrite price_in_range_cmp. f_equal.
  apply existsb_ext_all. intros s. apply price_in_range_cmp.
Qed.

Lemma price_in_range_wider min max min' max' s :
  min' <= min -> max <= max' ->
  price_in_range min max s = true -> price_in_range min' max' s = true.
Proof.
  unfold price_in_range. intros Hmin Hmax. destruct (price s); [|trivial].
  rewrite !andb_true_iff, !Z.leb_le. lia.
Qed.

Lemma spec_keeps_wider min max min' max' v :
  min' <= min -> max <= max' ->
  spec_keeps min max v = true -> spec_keeps min' max' v = true.
Proof.
  intros Hmin Hmax. unfold spec_keeps, range_active.
  rewrite !andb_true_iff. intros [Hs H]. split; [exact Hs|].
  destruct ((0 <? min') || (max' <? 1000)) eqn:A'; [|reflexivity].
  assert (A : (0 <? min) || (max <? 1000) = true).
  { apply orb_true_iff in A'. apply orb_true_iff.
    destruct A' as [A'|A']; apply Z.ltb_lt in A'; [left|right]; apply Z.ltb_lt; lia. }
  rewrite A in H. apply existsb_exists in H. destruct H as (s & Hin & Hp).
  apply existsb_exists. exists s. split; [exact Hin|].
  eapply price_in_range_wider; eassumption.
Qed.

Lemma filter_filter_implied {A} (f g : A -> bool) l :
  (forall x, f x = true -> g x = true) ->
  List.filter f (List.filter g l) = List.filter f l.
Proof.
  intros H. induction l as [|x l IH]; simpl; [reflexivity|].
  destruct (g x) eqn:G; simpl.
  - rewrite IH. reflexivity.
  - destruct (f x) eqn:F; [|exact IH]. rewrite (H x F) in G. discriminate.
Qed.

Lemma filter_sublist_implied {A} (f g : A -> bool) l :
  (forall x, f x = true -> g x = true) ->
  List.filter f l `sublist_of` List.filter g l.
Proof.
  intros H. induction l as [|x l IH]; simpl; [constructor|].
  destruct (f x) eqn:F.
  - rewrite (H x F). constructor. exact IH.
  - destruct (g x); [constructor|]; exact IH.
Qed.

(** X7. Narrowing the range can only remove vacancies: the list for a
    range is a sublist, in the same order, of the list for any range
    that contains it, and filtering that wider list again gives it. *)
Theorem filteredVacancies_narrowing (raw : list Vacancy.t) (min max min' max' : Z) :
  min' <= min -> max <= max' ->
  filteredVacancies raw min max `sublist_of` filteredVacancies raw min' max'
  /\ filteredVacancies (filteredVacancies raw min' max') min max
     = filteredVacancies raw min max.
Proof.
  intros Hmin Hmax. rewrite !filteredVacancies_as_filter.
  split.
  - apply filter_sublist_implied. intros v. apply spec_keeps_wider; assumption.
  - apply filter_filter_implied. intros v. apply spec_keeps_wider; assumption.
Qed.

Lemma filteredVacancies_narrowing_witness :
  let raw := [example_vacancy 1 [50]; example_vacancy 2 [400]; example_vacancy 3 [900]] in
  List.map Vacancy.id (filteredVacancies raw 100 500) = [2]
  /\ filteredVacancies raw 100 500 `sublist_of` filteredVacancies raw 0 999
  /\ filteredVacancies (filteredVacancies raw 0 999) 100 500
     = filteredVacancies raw 100 500.
Proof.
  intros raw. split; [reflexivity|].
  apply (filteredVacancies_narrowing raw 100 500 0 999); lia.
Defined.

(** X8. With a lower bound above the upper bound nothing is displayed,
    whatever the raw list holds. *)
Theorem filteredVacancies_crossed (raw : list Vacancy.t) (min max : Z) :
  max < min -> filteredVacancies raw min max = [].
Proof.
  intros H. rewrite filteredVacancies_as_filter.
  induction raw as [|v raw IH]; [reflexivity|]. simpl. rewrite IH.
  assert (K : spec_keeps min max v = false); [|rewrite K; reflexivity].
  unfold spec_keeps, range_active.
  assert (A : (0 <? min) || (max <? 1000) = true).
  { apply orb_true_iff. destruct (Z.ltb_spec 0 min); [left; reflexivity|].
    right. apply Z.ltb_lt. lia. }
  rewrite A. apply andb_false_iff. right.
  apply not_true_is_false. intros E. apply existsb_exists in E.
  destruct E as (s & _ & Hp). unfold price_in_range in Hp.
  destruct (price s); [|discriminate].
  apply andb_true_iff in Hp. destruct Hp as [H1 H2].
  apply Z.leb_le in H1, H2. lia.
Qed.

Lemma filteredVacancies_crossed_witness :
  filteredVacancies [example_vacancy 1 [50]; example_vacancy 3 [900]] 600 400 = [].
Proof. apply filteredVacancies_crossed. lia. Defined.

(** X9. A fetch replaces the raw list wholesale: the state it leaves
    does not depend on the list or the loading flag it found, and of two
    fetches in a row only the second shows. *)
Theorem fetchVacancies_wholesale (s : State) (first second : NetResult)
    (stale : list Vacancy.t) (loading : bool) :
  state_after (fetchVacancies second) (with_isLoading loading (with_rawVacancies stale s))
  = state_after (fetchVacancies second) s
  /\ state_after (fetchVacancies second) (state_after (fetchVacancies first) s)
     = state_after (fetchVacancies second) s
  /\ rawVacancies (state_after (fetchVacancies second) s) = fetched second
  /\ isLoading (state_after (fetchVacancies second) s) = false.
Proof.
  unfold state_after. rewrite !fetchVacancies_normal. repeat split; reflexivity.
Qed.

(** X10. Only a fetch or the expiry of the timer can change what is
    displayed: moving a slider, opening or closing the drawer and every
    edit of the form leave the displayed list as it is; when the timer
    expires the list becomes the raw list filtered by the sliders'
    bounds. *)
Theorem displayedVacancies_changes (s : State) :
  (forall e, may_refresh e = false ->
     displayedVacancies (step s e) = displayedVacancies s)
  /\ displayedVacancies (step s DebounceExpired)
     = filteredVacancies (rawVacancies s) (minPrice s) (maxPrice s).
Proof.
  split; [|reflexivity].
  intros e He. unfold displayedVacancies, step.
  destruct e; try discriminate He; cbn [handle]; try reflexivity.
  all: unfold state_after.
  all: first
    [ destruct vacancy as [v|];
      [rewrite openDrawer_source_run|rewrite openDrawer_empty_run]; reflexivity
    | destruct (Str.truthy (dateInput s)
                && negb (has_date (dateInput s) (FormData.shifts (formData s)))) eqn:G;
      [rewrite (addShift_add_run s G)|rewrite (addShift_skip_run s G)]; reflexivity ].
Qed.

Lemma displayedVacancies_changes_witness :
  let s := with_rawVacancies
             [example_vacancy 1 [50]; example_vacancy 3 [900]]
             (initialState "2025-10-01") in
  List.map Vacancy.id (displayedVacancies (step s (MaxPriceChanged 100))) = [1; 3]
  /\ List.map Vacancy.id
       (displayedVacancies (step (step s (MaxPriceChanged 100)) DebounceExpired))
     = [1].
Proof.
  intros s. split; [|reflexivity].
  rewrite (proj1 (displayedVacancies_changes s) (MaxPriceChanged 100) eq_refl).
  reflexivity.
Defined.

(** ** The range of the bounds *)

Lemma step_bounds_in_range s e :
  slider_in_range e ->
  bounds_ordered s /\ bounds_in_range s ->
  bounds_in_range (step s e).
Proof.
  unfold bounds_ordered, bounds_in_range, step.
  intros He [[Ho Ha] (H1 & H2 & H3 & H4)].
  destruct e; cbn [handle].
  - destruct (fetchVacancies_frame outcome s) as (_ & _ & -> & -> & -> & ->). lia.
  - simpl in *. lia.
  - simpl in *. lia.
  - simpl. lia.
  - destruct vacancy as [v|]; unfold state_after;
      [rewrite openDrawer_source_run|rewrite openDrawer_empty_run]; simpl; lia.
  - simpl. lia.
  - destruct name; simpl; lia.
  - simpl. lia.
  - unfold state_after.
    destruct (Str.truthy (dateInput s)
              && negb (has_date (dateInput s) (FormData.shifts (formData s)))) eqn:G;
      [rewrite (addShift_add_run s G)|rewrite (addShift_skip_run s G)]; simpl; lia.
  - simpl. lia.
  - simpl. lia.
  - destruct (handleSave_frame saveOutcome refetchOutcome s)
      as (_ & _ & -> & -> & -> & ->). lia.
  - destruct (handleDelete_frame answer deleteOutcome refetchOutcome s)
      as (_ & _ & -> & -> & -> & ->). lia.
Qed.

Lemma run_bounds today events :
  Forall slider_in_range events ->
  bounds_ordered (run events (initialState today))
  /\ bounds_in_range (run events (initialState today)).
Proof.
  induction events as [|e events IH] using rev_ind; intros H.
  - repeat split; simpl; lia.
  - apply Forall_app in H. destruct H as [H He].
    apply Forall_cons in He. destruct He as [He _].
    rewrite run_snoc. split.
    + apply step_bounds_ordered, IH, H.
    + apply step_bounds_in_range; [exact He|apply IH, H].
Qed.

(** X11. As long as the sliders report values of their range, 0 to 1000,
    the four bounds stay within that range along every run from the
    initial state: [0 <= minPrice <= maxPrice <= 1000], and the same for
    the bounds handed to the filter. *)
Theorem bounds_stay_in_range (today : string) (events : list Event) :
  Forall slider_in_range events ->
  0 <= minPrice (run events (initialState today))
       <= maxPrice (run events (initialState today))
  /\ maxPrice (run events (initialState today)) <= 1000
  /\ 0 <= actualMinPrice (run events (initialState today))
          <= actualMaxPrice (run events (initialState today))
  /\ actualMaxPrice (run events (initialState today)) <= 1000.
Proof.
  intros H. destruct (run_bounds today events H) as [[Ho Ha] (H1 & H2 & H3 & H4)].
  lia.
Qed.

Lemma bounds_stay_in_range_witness :
  let s := run [MaxPriceChanged 300; MinPriceChanged 700; DebounceExpired]
               (initialState "2025-10-01") in
  minPrice s = 300 /\ maxPrice s = 300
  /\ 0 <= actualMinPrice s <= actualMaxPrice s /\ actualMaxPrice s <= 1000.
Proof.
  intros s. split; [reflexivity|]. split; [reflexivity|].
  assert (H : Forall slider_in_range
                [MaxPriceChanged 300; MinPriceChanged 700; DebounceExpired]).
  { repeat constructor; simpl; lia. }
  destruct (bounds_stay_in_range "2025-10-01" _ H) as (_ & _ & H3 & H4).
  split; [exact H3|exact H4].
Defined.

(** ** More on the drawer and its rows *)

(** X12. Opening the drawer replaces the draft, the vacancy being
    edited, the validation errors and the open flag, whatever they were:
    the state it gives is the same after another opening, after a close,
    and after any change of these four.  It leaves the date input, the
    raw list, the loading flag and the four bounds as they were, and so
    does closing: the text of the date input survives closing and
    reopening, and a date input emptied by a successful [addShift] is
    still empty when the drawer is opened again.  Closing twice is
    closing once. *)
Theorem openDrawer_last_wins (s : State) (vacancy previous editing : option Vacancy.t)
    (draft : FormData.t) (errors : gmap string ErrorValue) (shown : bool) :
  state_after (openDrawer vacancy) (state_after (openDrawer previous) s)
  = state_after (openDrawer vacancy) s
  /\ state_after (openDrawer vacancy) (state_after closeDrawer s)
     = state_after (openDrawer vacancy) s
  /\ state_after (openDrawer vacancy)
       (with_isDrawerOpen shown
          (with_editingVacancy editing
             (with_validationErrors errors (with_formData draft s))))
     = state_after (openDrawer vacancy) s
  /\ state_after closeDrawer (state_after closeDrawer s) = state_after closeDrawer s
  /\ (dateInput (state_after (openDrawer vacancy) s) = dateInput s
      /\ rawVacancies (state_after (openDrawer vacancy) s) = rawVacancies s
      /\ isLoading (state_after (openDrawer vacancy) s) = isLoading s
      /\ minPrice (state_after (openDrawer vacancy) s) = minPrice s
      /\ maxPrice (state_after (openDrawer vacancy) s) = maxPrice s
      /\ actualMinPrice (state_after (openDrawer vacancy) s) = actualMinPrice s
      /\ actualMaxPrice (state_after (openDrawer vacancy) s) = actualMaxPrice s)
  /\ same_form_and_bounds s (state_after closeDrawer s)
  /\ dateInput (state_after (openDrawer vacancy) (state_after closeDrawer s))
     = dateInput s
  /\ (addShiftDisabled s = false ->
      dateInput (state_after (openDrawer vacancy)
                   (state_after closeDrawer (state_after addShift s))) = "").
Proof.
  unfold state_after. rewrite !closeDrawer_run.
  split; [|split; [|split; [|split; [|split; [|split; [|split]]]]]].
  - destruct vacancy as [v|], previous as [p|];
      rewrite ?openDrawer_source_run, ?openDrawer_empty_run; reflexivity.
  - destruct vacancy as [v|];
      rewrite ?openDrawer_source_run, ?openDrawer_empty_run; reflexivity.
  - destruct vacancy as [v|];
      rewrite ?openDrawer_source_run, ?openDrawer_empty_run; reflexivity.
  - reflexivity.
  - destruct vacancy as [v|];
      rewrite ?openDrawer_source_run, ?openDrawer_empty_run; repeat split; reflexivity.
  - repeat split; reflexivity.
  - destruct vacancy as [v|];
      rewrite ?openDrawer_source_run, ?openDrawer_empty_run; reflexivity.
  - intros H. unfold addShiftDisabled in H.
    assert (G : Str.truthy (dateInput s)
                && negb (has_date (dateInput s) (FormData.shifts (formData s))) = true).
    { destruct (Str.truthy (dateInput s)), (has_date _ _); simpl in *; congruence. }
    rewrite (addShift_add_run s G).
    destruct vacancy as [v|];
      rewrite ?openDrawer_source_run, ?openDrawer_empty_run; reflexivity.
Qed.

Lemma openDrawer_last_wins_witness :
  let s := with_dateInput "2025-12-03"
             (state_after (openDrawer None) (initialState "2025-11-30")) in
  dateInput (state_after (openDrawer None) (state_after closeDrawer s)) = "2025-12-03"
  /\ List.map date (draft_shifts (state_after addShift s)) = ["2025-12-03"]
  /\ dateInput (state_after (openDrawer None)
                  (state_after closeDrawer (state_after addShift s))) = ""
  /\ draft_shifts (state_after (openDrawer None)
                     (state_after closeDrawer (state_after addShift s))) = [].
Proof.
  intros s.
  destruct (openDrawer_last_wins s None None None initialFormData ∅ false)
    as (_ & _ & _ & _ & _ & _ & Hkeep & Hadd).
  split; [exact Hkeep|]. split; [reflexivity|].
  split; [apply Hadd; reflexivity|reflexivity].
Defined.

Lemma sorted_by_date_load l : sorted_by_date l -> sorted_by_date (List.map load_shift l).
Proof. rewrite !sorted_by_date_dates, load_shift_date. trivial. Qed.

(** X13. When the dates of the shifts of the source vacancy are made of
    digits and hyphens and the shifts are already in ascending lexical
    order of their dates, the draft has one row per shift in the same
    order. *)
Theorem openDrawer_keeps_order (s : State) (v : Vacancy.t) (swifts : list Shift) :
  Vacancy.swifts v = Some swifts ->
  plain_dates swifts ->
  sorted_by_date swifts ->
  draft_shifts (state_after (openDrawer (Some v)) s) = List.map load_shift swifts
  /\ length (draft_shifts (state_after (openDrawer (Some v)) s)) = length swifts.
Proof.
  intros Hv Hp Hs. unfold state_after, draft_shifts.
  rewrite openDrawer_source_run, Hv. simpl.
  rewrite sort_by_date_id;
    [|apply plain_dates_load, Hp|apply sorted_by_date_load, Hs].
  split; [reflexivity|apply length_map].
Qed.

Lemma openDrawer_keeps_order_witness :
  let swifts := [mkShift "2025-11-03" "09:00:00" "12:00:00" "Consultation" (Int 60);
                 mkShift "2025-11-03" "13:00:00" "17:00:00" "Telephone" (Int 45);
                 mkShift "2025-11-04" "09:00:00" "12:00:00" "Emergency" (Int 90)] in
  let v := Vacancy.mk 5 (Some "Clinic") (Some "Two days") (Some swifts) in
  List.map type (draft_shifts (state_after (openDrawer (Some v)) (initialState "2025-11-01")))
  = ["Consultation"; "Telephone"; "Emergency"].
Proof.
  intros swifts v.
  assert (Hs : sorted_by_date swifts).
  { apply sorted_by_date_dates. apply (bool_decide_unpack _). vm_compute. exact I. }
  assert (Hp : plain_dates swifts) by (repeat constructor).
  rewrite (proj1 (openDrawer_keeps_order (initialState "2025-11-01") v swifts
                    eq_refl Hp Hs)).
  reflexivity.
Defined.

(** X14. Clicking the add button twice adds at most one row: a successful
    [addShift] empties the date input, so the second one does nothing. *)
Theorem addShift_twice (s : State) :
  state_after addShift (state_after addShift s) = state_after addShift s.
Proof.
  unfold state_after at 2 3.
  destruct (Str.truthy (dateInput s)
            && negb (has_date (dateInput s) (FormData.shifts (formData s)))) eqn:G.
  - rewrite (addShift_add_run s G). cbn [fst snd].
    unfold state_after. rewrite addShift_skip_run; reflexivity.
  - rewrite (addShift_skip_run s G). cbn [fst snd].
    unfold state_after. rewrite (addShift_skip_run s G). reflexivity.
Qed.

Lemma distinct_dates_inj l x y :
  distinct_dates l -> In x l -> In y l -> date x = date y -> x = y.
Proof.
  unfold distinct_dates. induction l as [|z l IH]; simpl; [tauto|].
  intros H Hx Hy E. apply NoDup_cons in H. destruct H as [Hz Hl].
  rewrite list_elem_of_In in Hz.
  destruct Hx as [->|Hx], Hy as [->|Hy]; [reflexivity| | |auto].
  - exfalso. apply Hz. rewrite E. apply List.in_map, Hy.
  - exfalso. apply Hz. rewrite <- E. apply List.in_map, Hx.
Qed.

Lemma filter_all_kept {A} (f : A -> bool) l :
  (forall x, In x l -> f x = true) -> List.filter f l = l.
Proof.
  induction l as [|x l IH]; simpl; intros H; [reflexivity|].
  rewrite (H x (or_introl eq_refl)), IH; [reflexivity|]. intros y Hy. apply H. auto.
Qed.

Lemma filter_other_dates d rows :
  ~ In d (List.map date rows) ->
  List.filter (fun row => negb (String.eqb (date row) d)) rows = rows.
Proof.
  intros H. apply filter_all_kept. intros x Hx.
  apply negb_true_iff, String.eqb_neq. intros E. apply H. rewrite <- E.
  apply List.in_map, Hx.
Qed.

Lemma filter_perm {A} (f : A -> bool) l1 l2 :
  l1 ≡ₚ l2 -> List.filter f l1 ≡ₚ List.filter f l2.
Proof.
  intros P. induction P as [|x l1 l2 P IH|x y l|l1 l2 l3 P1 IH1 P2 IH2]; simpl.
  - reflexivity.
  - destruct (f x); [constructor|]; exact IH.
  - destruct (f x), (f y); try reflexivity. apply Permutation_swap.
  - etransitivity; eassumption.
Qed.

Lemma filter_added_date d rows :
  ~ In d (List.map date rows) ->
  List.filter (fun row => negb (String.eqb (date row) d))
    (rows ++ [initialShiftDetails d])
  = rows.
Proof.
  intros H. rewrite List.filter_app, (filter_other_dates d rows H).
  simpl. rewrite String.eqb_refl. simpl. apply app_nil_r.
Qed.

(** X15. Adding a date and removing it again gives back the rows there
    were, in their order, provided they had distinct dates in ascending
    lexical order, the date was new, and the dates of the rows and of the
    date input are made of digits and hyphens. *)
Theorem addShift_removeShift (s : State) :
  shift_invariant (draft_shifts s) ->
  plain_dates (draft_shifts s) ->
  plain_date (dateInput s) = true ->
  dateInput s <> "" ->
  ~ In (dateInput s) (List.map date (draft_shifts s)) ->
  draft_shifts (state_after (removeShift (dateInput s)) (state_after addShift s))
  = draft_shifts s.
Proof.
  intros [Hd Hs] Hp Hi Hne Hnew.
  assert (G := proj2 (addShift_guard s) (conj Hne Hnew)).
  unfold state_after. rewrite (addShift_add_run s G), removeShift_run.
  unfold draft_shifts in *.
  cbn [fst snd formData with_formData with_dateInput FormData.shifts].
  assert (P : List.filter (fun row => negb (String.eqb (date row) (dateInput s)))
                (sort compare_dates
                   (FormData.shifts (formData s) ++ [initialShiftDetails (dateInput s)]))
              ≡ₚ FormData.shifts (formData s)).
  { rewrite <- (filter_added_date (dateInput s) (FormData.shifts (formData s)) Hnew) at 2.
    apply filter_perm, sort_by_date_perm. }
  apply (StronglySorted_unique_strong date_le);
    [|apply sorted_by_date_filter, sort_by_date_sorted, plain_dates_snoc;
       assumption|exact Hs|exact P].
  intros x1 x2 H1 H2 L1 L2.
  apply (distinct_dates_inj (FormData.shifts (formData s)));
    [exact Hd| |apply list_elem_of_In, H2|].
  - apply list_elem_of_In. rewrite <- P. exact H1.
  - apply (anti_symm String.le); assumption.
Qed.

Lemma addShift_removeShift_witness :
  let v := Vacancy.mk 8 (Some "Desk") (Some "Week")
             (Some [mkShift "2025-12-01" "09:00:00" "17:00:00" "Consultation" (Int 70);
                    mkShift "2025-12-05" "09:00:00" "17:00:00" "Telephone" (Int 50)]) in
  let s := with_dateInput "2025-12-03"
             (state_after (openDrawer (Some v)) (initialState "2025-11-30")) in
  List.map date (draft_shifts (state_after addShift s))
  = ["2025-12-01"; "2025-12-03"; "2025-12-05"]
  /\ draft_shifts (state_after (removeShift "2025-12-03") (state_after addShift s))
     = draft_shifts s.
Proof.
  intros v s. split; [reflexivity|].
  apply (addShift_removeShift s).
  - split.
    + apply (bool_decide_unpack _). vm_compute. exact I.
    + apply sorted_by_date_dates. apply (bool_decide_unpack _). vm_compute. exact I.
  - apply (bool_decide_unpack _). vm_compute. exact I.
  - reflexivity.
  - discriminate.
  - simpl. intros [H|[H|[]]]; discriminate H.
Defined.

Lemma filter_sublist {A} (f : A -> bool) l : List.filter f l `sublist_of` l.
Proof.
  induction l as [|x l IH]; simpl; [constructor|].
  destruct (f x); constructor; exact IH.
Qed.

(** X16. [removeShift] deletes every row of the given date and nothing
    else: no row of that date is left, the rows of other dates all remain
    in their order, and a date that no row has leaves the rows as they
    are. *)
Theorem removeShift_spec (s : State) (d : string) :
  ~ In d (List.map date (draft_shifts (state_after (removeShift d) s)))
  /\ draft_shifts (state_after (removeShift d) s) `sublist_of` draft_shifts s
  /\ (forall row, In row (draft_shifts s) -> date row <> d ->
        In row (draft_shifts (state_after (removeShift d) s)))
  /\ (~ In d (List.map date (draft_shifts s)) ->
        draft_shifts (state_after (removeShift d) s) = draft_shifts s).
Proof.
  split; [apply removeShift_removes|].
  unfold state_after, draft_shifts. rewrite removeShift_run. simpl.
  split; [apply filter_sublist|]. split.
  - intros row Hin Hne. apply List.filter_In. split; [exact Hin|].
    apply negb_true_iff, String.eqb_neq, Hne.
  - apply filter_other_dates.
Qed.

Lemma removeShift_spec_witness :
  let s := with_formData
             (FormData.mk "Desk" "Week"
                [mkShift "2025-12-01" "09:00" "17:00" "Consultation" (Int 70);
                 mkShift "2025-12-05" "09:00" "17:00" "Telephone" (Int 50)])
             (initialState "2025-11-30") in
  In (mkShift "2025-12-05" "09:00" "17:00" "Telephone" (Int 50))
     (draft_shifts (state_after (removeShift "2025-12-01") s))
  /\ draft_shifts (state_after (removeShift "2025-12-09") s) = draft_shifts s.
Proof.
  intros s.
  destruct (removeShift_spec s "2025-12-01") as (_ & _ & Hkeep & _).
  destruct (removeShift_spec s "2025-12-09") as (_ & _ & _ & Hsame).
  split.
  - apply Hkeep; [right; left; reflexivity|discriminate].
  - apply Hsame. simpl. intros [H|[H|[]]]; discriminate H.
Defined.

Lemma handleShiftChange_run index name value s :
  handleShiftChange index name value s =
  (Normal tt,
   with_formData
     {| FormData.title := FormData.title (formData s);
        FormData.description := FormData.description (formData s);
        FormData.shifts :=
          match FormData.shifts (formData s) !! index with
          | Some shift => <[index := set_field name value shift]> (FormData.shifts (formData s))
          | None => FormData.shifts (formData s)
          end |}
     s,
   []).
Proof. reflexivity. Qed.

(** X17. Editing a field of the row at a position changes that row only:
    the row keeps its date, the number of rows is the same, and every
    other position holds the row it held. *)
Theorem handleShiftChange_spec (s : State) (index : nat) (name : ShiftField)
    (value : string) (row : Shift) :
  draft_shifts s !! index = Some row ->
  draft_shifts (state_after (handleShiftChange index name value) s) !! index
  = Some (set_field name value row)
  /\ date (set_field name value row) = date row
  /\ length (draft_shifts (state_after (handleShiftChange index name value) s))
     = length (draft_shifts s)
  /\ (forall other, other <> index ->
        draft_shifts (state_after (handleShiftChange index name value) s) !! other
        = draft_shifts s !! other)
  /\ FormData.title (formData (state_after (handleShiftChange index name value) s))
     = FormData.title (formData s)
  /\ FormData.description (formData (state_after (handleShiftChange index name value) s))
     = FormData.description (formData s).
Proof.
  intros H. unfold state_after, draft_shifts in *.
  rewrite handleShiftChange_run. simpl. rewrite H.
  split; [apply list_lookup_insert_eq; eapply lookup_lt_Some, H|].
  split; [apply set_field_date|].
  split; [apply length_insert|].
  split; [|split; reflexivity].
  intros other Hne. apply list_lookup_insert_ne. congruence.
Qed.

Lemma handleShiftChange_spec_witness :
  let s := with_formData
             (FormData.mk "Desk" "Week"
                [mkShift "2025-12-01" "09:00" "17:00" "Consultation" (Int 70);
                 mkShift "2025-12-05" "09:00" "17:00" "Telephone" (Int 50)])
             (initialState "2025-11-30") in
  draft_shifts (state_after (handleShiftChange 1 EndTime "18:30") s) !! 1%nat
  = Some (mkShift "2025-12-05" "09:00" "18:30" "Telephone" (Int 50))
  /\ draft_shifts (state_after (handleShiftChange 1 EndTime "18:30") s) !! 0%nat
     = Some (mkShift "2025-12-01" "09:00" "17:00" "Consultation" (Int 70)).
Proof.
  intros s.
  destruct (handleShiftChange_spec s 1 EndTime "18:30"
              (mkShift "2025-12-05" "09:00" "17:00" "Telephone" (Int 50)) eq_refl)
    as (H1 & _ & _ & H2 & _).
  split; [exact H1|]. rewrite (H2 0%nat) by discriminate. reflexivity.
Defined.

(** X18. Editing the form never touches anything else: typing in the
    title, the description or the date input, adding, editing and
    removing a row leave the raw list, the drawer's flags, the four
    bounds and the validation errors as they are, so that errors shown
    stay until the next validation, opening or closing. *)
Theorem form_edits_frame (s : State) (e : Event) :
  edits_form e = true ->
  same_outside_form s (step s e)
  /\ rowHasError (step s e) = rowHasError s.
Proof.
  intros He.
  assert (F : same_outside_form s (step s e)).
  { unfold same_outside_form, step.
    destruct e; try discriminate He; cbn [handle].
    - destruct name; repeat split; reflexivity.
    - repeat split; reflexivity.
    - unfold state_after.
      destruct (Str.truthy (dateInput s)
                && negb (has_date (dateInput s) (FormData.shifts (formData s)))) eqn:G;
        [rewrite (addShift_add_run s G)|rewrite (addShift_skip_run s G)];
        repeat split; reflexivity.
    - repeat split; reflexivity.
    - repeat split; reflexivity. }
  split; [exact F|].
  destruct F as (_ & _ & _ & _ & _ & _ & _ & _ & F).
  unfold rowHasError. rewrite F. reflexivity.
Qed.

Lemma form_edits_frame_witness :
  let s := state_after validateForm
             (with_formData
                (FormData.mk "Desk" "Week"
                   [mkShift "2025-12-01" "17:00" "09:00" "Consultation" (Int 70);
                    mkShift "2025-12-05" "09:00" "17:00" "Telephone" (Int 50)])
                (initialState "2025-11-30")) in
  rowHasError s 0 = true
  /\ List.map date (draft_shifts (step s (RemoveShiftClicked "2025-12-01")))
     = ["2025-12-05"]
  /\ rowHasError (step s (RemoveShiftClicked "2025-12-01")) 0 = true.
Proof.
  intros s. split; [reflexivity|]. split; [reflexivity|].
  rewrite (proj2 (form_edits_frame s (RemoveShiftClicked "2025-12-01") eq_refl)).
  reflexivity.
Defined.

(** X19. The add button is disabled exactly when [addShift] would do
    nothing: with an empty date input or a date some row already has. *)
Theorem addShiftDisabled_spec (s : State) :
  (addShiftDisabled s = true <-> state_after addShift s = s)
  /\ (addShiftDisabled s = false <->
      length (draft_shifts (state_after addShift s)) = S (length (draft_shifts s))).
Proof.
  assert (E : addShiftDisabled s
              = negb (Str.truthy (dateInput s)
                      && negb (has_date (dateInput s) (FormData.shifts (formData s))))).
  { unfold addShiftDisabled. rewrite negb_andb, negb_involutive. reflexivity. }
  rewrite E. unfold state_after, draft_shifts.
  destruct (Str.truthy (dateInput s)
            && negb (has_date (dateInput s) (FormData.shifts (formData s)))) eqn:G.
  - rewrite (addShift_add_run s G). simpl. rewrite sort_length, length_app. simpl.
    split; split; intros H; try discriminate H; try lia.
    exfalso. apply andb_true_iff in G. destruct G as [G _].
    apply (f_equal dateInput) in H. simpl in H. rewrite <- H in G. discriminate G.
  - rewrite (addShift_skip_run s G). simpl.
    split; split; intros H; try reflexivity; try discriminate H. lia.
Qed.

(** X20. Along every run of the component from its initial state in
    which the drawer is only opened on vacancies whose shifts have
    pairwise distinct dates, the rows of the draft have pairwise distinct
    dates, whatever is typed, added, edited, removed, saved or deleted.
    When moreover the initial date, the values typed in the date input
    and the dates of the shifts of the vacancies opened are made of
    digits and hyphens, the rows are in ascending lexical order of their
    dates, and their dates are made of digits and hyphens. *)
Theorem draft_invariant_along_runs (today : string) (events : list Event) :
  (forall v, In (OpenClicked (Some v)) events ->
             distinct_dates (default [] (Vacancy.swifts v))) ->
  distinct_dates (draft_shifts (run events (initialState today)))
  /\ (plain_date today = true ->
      (forall e, In e events -> plain_event e) ->
      sorted_by_date (draft_shifts (run events (initialState today)))
      /\ plain_dates (draft_shifts (run events (initialState today)))).
Proof.
  intros H. split.
  - apply distinct_dates_run.
    apply List.Forall_forall. intros v Hv. apply H.
    unfold opened in Hv. apply list_elem_of_In, list_elem_of_omap in Hv.
    destruct Hv as (e & He & Ev). apply list_elem_of_In in He.
    destruct e as [| | | |[w|]| | | | | | | |]; try discriminate Ev.
    inversion Ev; subst w. exact He.
  - intros Ht Hp.
    destruct (plain_sorted_run today events Ht) as (Hs & Hrows & _).
    + apply List.Forall_forall, Hp.
    + split; assumption.
Qed.

Lemma draft_invariant_along_runs_witness :
  let v := Vacancy.mk 8 (Some "Desk") (Some "Week")
             (Some [mkShift "2025-12-05" "09:00:00" "17:00:00" "Telephone" (Int 50);
                    mkShift "2025-12-01" "09:00:00" "17:00:00" "Consultation" (Int 70)]) in
  let events := [OpenClicked (Some v); DateInputChanged "2025-12-03"; AddShiftClicked;
                 ShiftChanged 1 PriceField "85"; RemoveShiftClicked "2025-12-05"] in
  List.map date (draft_shifts (run events (initialState "2025-11-30")))
  = ["2025-12-01"; "2025-12-03"]
  /\ distinct_dates (draft_shifts (run events (initialState "2025-11-30")))
  /\ sorted_by_date (draft_shifts (run events (initialState "2025-11-30"))).
Proof.
  intros v events. split; [reflexivity|].
  destruct (draft_invariant_along_runs "2025-11-30" events) as [Hd Hs].
  - intros w [H|[H|[H|[H|[H|[]]]]]]; try discriminate H.
    inversion H; subst w. apply (bool_decide_unpack _). vm_compute. exact I.
  - split; [exact Hd|]. apply Hs; [reflexivity|].
    intros e [<-|[<-|[<-|[<-|[<-|[]]]]]]; simpl; try exact I;
      [repeat constructor|reflexivity].
Defined.

(** ** The contents of the validation errors *)

Lemma time_key_eq (i k : nat) : "time-" ++ pretty i = "time-" ++ pretty k <-> i = k.
Proof.
  split; [|intros ->; reflexivity]. intros H.
  apply (inj (String.app "time-")) in H. apply (inj pretty) in H. exact H.
Qed.

Lemma price_key_eq (i k : nat) : "price-" ++ pretty i = "price-" ++ pretty k <-> i = k.
Proof.
  split; [|intros ->; reflexivity]. intros H.
  apply (inj (String.app "price-")) in H. apply (inj pretty) in H. exact H.
Qed.

Lemma checkShift_lookup_time row k m b (i : nat) :
  (checkShift row k (m, b)).1 !! ("time-" ++ pretty i)
  = if bad_time row && (i =? k)%nat then Some time_message
    else m !! ("time-" ++ pretty i).
Proof.
  unfold checkShift. fold (bad_price row). fold (bad_time row).
  destruct (bad_price row), (bad_time row); cbn [fst andb].
  - destruct (Nat.eqb_spec i k) as [->|Hne].
    + apply lookup_insert_eq.
    + rewrite lookup_insert_ne by (rewrite time_key_eq; congruence).
      apply lookup_insert_ne. discriminate.
  - apply lookup_insert_ne. discriminate.
  - destruct (Nat.eqb_spec i k) as [->|Hne].
    + apply lookup_insert_eq.
    + apply lookup_insert_ne. rewrite time_key_eq. congruence.
  - reflexivity.
Qed.

Lemma checkShift_lookup_price row k m b (i : nat) :
  (checkShift row k (m, b)).1 !! ("price-" ++ pretty i)
  = if bad_price row && (i =? k)%nat then Some price_message
    else m !! ("price-" ++ pretty i).
Proof.
  unfold checkShift. fold (bad_price row). fold (bad_time row).
  destruct (bad_price row), (bad_time row); cbn [fst andb].
  - rewrite lookup_insert_ne by discriminate.
    destruct (Nat.eqb_spec i k) as [->|Hne].
    + apply lookup_insert_eq.
    + apply lookup_insert_ne. rewrite price_key_eq. congruence.
  - destruct (Nat.eqb_spec i k) as [->|Hne].
    + apply lookup_insert_eq.
    + apply lookup_insert_ne. rewrite price_key_eq. congruence.
  - apply lookup_insert_ne. discriminate.
  - reflexivity.
Qed.

(** The row a position [i] refers to when the rows [l] are numbered from
    [k]. *)
Lemma numbered_cons {A} (x : A) l k i :
  (if (k <=? i)%nat then (x :: l) !! (i - k)%nat else None)
  = if (i =? k)%nat then Some x
    else if (S k <=? i)%nat then l !! (i - S k)%nat else None.
Proof.
  destruct (Nat.eqb_spec i k) as [->|Hne].
  - rewrite Nat.leb_refl, Nat.sub_diag. reflexivity.
  - destruct (Nat.leb_spec k i) as [Hle|Hlt].
    + destruct (Nat.leb_spec (S k) i); [|lia].
      replace (i - k)%nat with (S (i - S k)) by lia. reflexivity.
    + destruct (Nat.leb_spec (S k) i); [lia|reflexivity].
Qed.

Lemma forEach_lookup_time l k m b (i : nat) :
  (forEach_from checkShift k l (m, b)).1 !! ("time-" ++ pretty i)
  = match (if (k <=? i)%nat then l !! (i - k)%nat else None) with
    | Some row => if bad_time row then Some time_message
                  else m !! ("time-" ++ pretty i)
    | None => m !! ("time-" ++ pretty i)
    end.
Proof.
  revert k m b. induction l as [|x l IH]; intros k m b.
  - cbn [forEach_from fst]. destruct (k <=? i)%nat; reflexivity.
  - cbn [forEach_from]. rewrite numbered_cons.
    destruct (checkShift x k (m, b)) as [m' b'] eqn:E.
    rewrite IH. pose proof (checkShift_lookup_time x k m b i) as K.
    rewrite E in K. cbn [fst] in K. rewrite K.
    destruct (Nat.eqb_spec i k) as [->|Hne].
    + destruct (Nat.leb_spec (S k) k); [lia|]. rewrite andb_true_r. reflexivity.
    + rewrite andb_false_r. reflexivity.
Qed.

Lemma forEach_lookup_price l k m b (i : nat) :
  (forEach_from checkShift k l (m, b)).1 !! ("price-" ++ pretty i)
  = match (if (k <=? i)%nat then l !! (i - k)%nat else None) with
    | Some row => if bad_price row then Some price_message
                  else m !! ("price-" ++ pretty i)
    | None => m !! ("price-" ++ pretty i)
    end.
Proof.
  revert k m b. induction l as [|x l IH]; intros k m b.
  - cbn [forEach_from fst]. destruct (k <=? i)%nat; reflexivity.
  - cbn [forEach_from]. rewrite numbered_cons.
    destruct (checkShift x k (m, b)) as [m' b'] eqn:E.
    rewrite IH. pose proof (checkShift_lookup_price x k m b i) as K.
    rewrite E in K. cbn [fst] in K. rewrite K.
    destruct (Nat.eqb_spec i k) as [->|Hne].
    + destruct (Nat.leb_spec (S k) k); [lia|]. rewrite andb_true_r. reflexivity.
    + rewrite andb_false_r. reflexivity.
Qed.

Lemma shiftErrors_time rows (i : nat) :
  (forEach checkShift rows (∅, false)).1 !! ("time-" ++ pretty i)
  = match rows !! i with
    | Some row => if bad_time row then Some time_message else None
    | None => None
    end.
Proof.
  unfold forEach. rewrite forEach_lookup_time. cbn [Nat.leb].
  rewrite Nat.sub_0_r, lookup_empty. reflexivity.
Qed.

Lemma shiftErrors_price rows (i : nat) :
  (forEach checkShift rows (∅, false)).1 !! ("price-" ++ pretty i)
  = match rows !! i with
    | Some row => if bad_price row then Some price_message else None
    | None => None
    end.
Proof.
  unfold forEach. rewrite forEach_lookup_price. cbn [Nat.leb].
  rewrite Nat.sub_0_r, lookup_empty. reflexivity.
Qed.

Lemma formErrors_keys fd :
  formErrors fd !! "title"
  = (if Str.truthy (FormData.title fd) then None
     else Some (Message "Title is required."))
  /\ formErrors fd !! "description"
     = (if Str.truthy (FormData.description fd) then None
        else Some (Message "Description is required."))
  /\ formErrors fd !! "shifts"
     = (if (length (FormData.shifts fd) =? 0)%nat
        then Some (Message "At least one date/shift is required.") else None)
  /\ formErrors fd !! "shiftDetails"
     = (if existsb (fun row => bad_price row || bad_time row) (FormData.shifts fd)
        then Some (ShiftErrors (forEach checkShift (FormData.shifts fd) (∅, false)).1)
        else None).
Proof.
  unfold formErrors.
  pose proof (forEach_checkShift_flag (FormData.shifts fd) 0 (∅, false)) as F.
  fold (forEach checkShift (FormData.shifts fd) (∅, false)) in F.
  destruct (forEach checkShift (FormData.shifts fd) (∅, false)) as [m b].
  cbn [fst snd orb] in F. rewrite <- F.
  destruct (Str.truthy (FormData.title fd)), (Str.truthy (FormData.description fd)),
    (length (FormData.shifts fd) =? 0)%nat, b; cbn [negb fst];
    repeat split;
    repeat first [rewrite lookup_insert_eq | rewrite lookup_insert_ne by discriminate];
    try apply lookup_empty; reflexivity.
Qed.

Lemma validateForm_errors s :
  validationErrors (state_after validateForm s) = formErrors (formData s).
Proof. unfold state_after. rewrite validateForm_run. reflexivity. Qed.

(** X21. Every rule is checked on every pass, each under its own key:
    after [validateForm] the errors hold [title] exactly when the title
    is empty, [description] exactly when the description is empty,
    [shifts] exactly when there is no row, and [shiftDetails] exactly
    when some row has a bad price or a bad time. *)
Theorem validateForm_keys (s : State) :
  (validationErrors (state_after validateForm s) !! "title"
   = Some (Message "Title is required.")
   <-> FormData.title (formData s) = "")
  /\ (validationErrors (state_after validateForm s) !! "title" = None
      <-> FormData.title (formData s) <> "")
  /\ (validationErrors (state_after validateForm s) !! "description"
      = Some (Message "Description is required.")
      <-> FormData.description (formData s) = "")
  /\ (validationErrors (state_after validateForm s) !! "description" = None
      <-> FormData.description (formData s) <> "")
  /\ (validationErrors (state_after validateForm s) !! "shifts"
      = Some (Message "At least one date/shift is required.")
      <-> draft_shifts s = [])
  /\ (validationErrors (state_after validateForm s) !! "shifts" = None
      <-> draft_shifts s <> [])
  /\ (is_Some (validationErrors (state_after validateForm s) !! "shiftDetails")
      <-> exists row, In row (draft_shifts s)
                      /\ (bad_price row = true \/ bad_time row = true)).
Proof.
  rewrite validateForm_errors. unfold draft_shifts.
  destruct (formErrors_keys (formData s)) as (-> & -> & -> & ->).
  split; [|split; [|split; [|split; [|split; [|split]]]]].
  - destruct (FormData.title (formData s)); cbn; split; congruence.
  - destruct (FormData.title (formData s)); cbn; split; congruence.
  - destruct (FormData.description (formData s)); cbn; split; congruence.
  - destruct (FormData.description (formData s)); cbn; split; congruence.
  - destruct (FormData.shifts (formData s)); cbn; split; congruence.
  - destruct (FormData.shifts (formData s)); cbn; split; congruence.
  - destruct (existsb _ (FormData.shifts (formData s))) eqn:Eb.
    + split; [intros _|intros _; eexists; reflexivity].
      apply existsb_exists in Eb. destruct Eb as (row & Hin & Hb).
      exists row. split; [exact Hin|apply orb_true_iff, Hb].
    + split; [intros [x Hx]; discriminate Hx|].
      intros (row & Hin & Hb). rewrite (existsb_bad _ _ Hin Hb) in Eb.
      discriminate Eb.
Qed.

Lemma error_at_lookup s (key : nat -> string) (message : string)
    (bad : Shift -> bool) (i : nat) :
  (forall rows : list Shift,
     (forEach checkShift rows (∅, false)).1 !! key i
                = match rows !! i with
                  | Some row => if bad row then Some message else None
                  | None => None
                  end) ->
  (forall row, bad row = true -> bad_price row = true \/ bad_time row = true) ->
  (exists details,
     validationErrors (state_after validateForm s) !! "shiftDetails"
     = Some (ShiftErrors details)
     /\ details !! key i = Some message)
  <-> exists row, draft_shifts s !! i = Some row /\ bad row = true.
Proof.
  intros Hlookup Hbad. rewrite validateForm_errors. unfold draft_shifts.
  destruct (formErrors_keys (formData s)) as (_ & _ & _ & ->).
  split.
  - intros (details & E & Hd).
    destruct (existsb _ _); [|discriminate E]. inversion E; subst details; clear E.
    rewrite Hlookup in Hd.
    destruct (FormData.shifts (formData s) !! i) as [row|]; [|discriminate Hd].
    exists row. split; [reflexivity|]. destruct (bad row); [reflexivity|discriminate Hd].
  - intros (row & Hi & Hb).
    assert (Hin : In row (FormData.shifts (formData s))).
    { apply list_elem_of_In. eapply list_elem_of_lookup_2, Hi. }
    rewrite (existsb_bad _ _ Hin (Hbad row Hb)).
    eexists. split; [reflexivity|]. rewrite Hlookup, Hi, Hb. reflexivity.
Qed.

(** X22. The per-row errors name the rows exactly: after [validateForm]
    there is a time error under [time-<i>] exactly when the draft has a
    row at position [i] whose end, in minutes, is at most its start, and
    a price error under [price-<i>] exactly when it has a row at
    position [i] whose price is not a number or not positive. *)
Theorem validateForm_row_errors (s : State) (i : nat) :
  (time_error_at (state_after validateForm s) i
   <-> exists row, draft_shifts s !! i = Some row /\ bad_time row = true)
  /\ (price_error_at (state_after validateForm s) i
      <-> exists row, draft_shifts s !! i = Some row /\ bad_price row = true).
Proof.
  split.
  - apply (error_at_lookup s (fun i => "time-" ++ pretty i) time_message bad_time).
    + intros rows. apply shiftErrors_time.
    + auto.
  - apply (error_at_lookup s (fun i => "price-" ++ pretty i) price_message bad_price).
    + intros rows. apply shiftErrors_price.
    + auto.
Qed.

(** X23. After a validation the error border is drawn around exactly the
    rows at fault: the row at a position is marked when, and only when,
    the draft has a row there with a bad price or a bad time. *)
Theorem rowHasError_after_validation (s : State) (i : nat) :
  rowHasError (state_after validateForm s) i = true
  <-> exists row, draft_shifts s !! i = Some row
                  /\ (bad_price row = true \/ bad_time row = true).
Proof.
  unfold rowHasError, draft_shifts. rewrite validateForm_errors.
  destruct (formErrors_keys (formData s)) as (_ & _ & _ & ->).
  destruct (existsb _ _) eqn:Eb.
  - rewrite shiftErrors_time, shiftErrors_price.
    destruct (FormData.shifts (formData s) !! i) as [row|].
    + destruct (bad_time row) eqn:Et, (bad_price row) eqn:Ep; cbn; split; intros H;
        try reflexivity; try discriminate H;
        try (exists row; split; [reflexivity|auto]).
      destruct H as (r & E & [H|H]); inversion E; subst r; congruence.
    + cbn. split; [discriminate|]. intros (r & E & _). discriminate E.
  - split; [discriminate|]. intros (row & Hi & Hb).
    assert (Hin : In row (FormData.shifts (formData s))).
    { apply list_elem_of_In. eapply list_elem_of_lookup_2, Hi. }
    rewrite (existsb_bad _ _ Hin Hb) in Eb. discriminate Eb.
Qed.

(** X24. [validateForm] answers true exactly for the drafts with a
    title, a description, at least one row and no row with a bad price
    or a bad time; it then leaves no validation error, whatever errors
    were there before, and in every case changes nothing but the
    validation errors. *)
Theorem validateForm_passes (s : State) :
  (result_of validateForm s = Normal true <-> ~ invalid_draft (formData s))
  /\ (result_of validateForm s = Normal true ->
      validationErrors (state_after validateForm s) = ∅)
  /\ state_after validateForm s
     = with_validationErrors (validationErrors (state_after validateForm s)) s
  /\ effects_of validateForm s = [].
Proof.
  unfold result_of, state_after, effects_of. rewrite validateForm_run. cbn [fst snd].
  split; [|split; [|split; reflexivity]].
  - rewrite <- formErrors_empty_iff, <- no_keys_empty.
    split; [intros H; inversion H; reflexivity|intros ->; reflexivity].
  - intros H. apply no_keys_empty. inversion H. reflexivity.
Qed.

Lemma validateForm_passes_witness :
  let s := with_validationErrors {[ "title" := Message "Title is required." ]}
             (with_formData
                (FormData.mk "Desk" "Week"
                   [mkShift "2025-12-01" "09:00" "17:00" "Consultation" (Int 70)])
                (initialState "2025-11-30")) in
  result_of validateForm s = Normal true
  /\ validationErrors (state_after validateForm s) = ∅.
Proof.
  intros s. split; [reflexivity|].
  apply (validateForm_passes s). reflexivity.
Defined.

(** ** Editing a price *)

Lemma parseInt_pretty_above_zero n : 0 < n -> Str.parseInt (pretty n) 10 = Int n.
Proof.
  destruct n as [|p|p]; try lia. intros _. apply parseInt_pretty_positive.
Qed.

(** X25. Once the price of a row has been typed and the form validated,
    the row has a price error exactly when [parseInt] of the text is not
    a number or not positive: an emptied field gives the error, the
    decimal rendering of a positive integer does not. *)
Theorem price_edit_validated (s : State) (index : nat) (row : Shift) :
  draft_shifts s !! index = Some row ->
  (forall value,
     price_error_at
       (state_after validateForm
          (state_after (handleShiftChange index PriceField value) s)) index
     <-> Num.le (Str.parseInt value 10) (Int 0)
         || Num.isNaN (Str.parseInt value 10) = true)
  /\ price_error_at
       (state_after validateForm
          (state_after (handleShiftChange index PriceField "") s)) index
  /\ (forall n, 0 < n ->
        ~ price_error_at
            (state_after validateForm
               (state_after (handleShiftChange index PriceField (pretty n)) s)) index).
Proof.
  intros Hrow.
  assert (K : forall value,
            price_error_at
              (state_after validateForm
                 (state_after (handleShiftChange index PriceField value) s)) index
            <-> Num.le (Str.parseInt value 10) (Int 0)
                || Num.isNaN (Str.parseInt value 10) = true).
  { intros value.
    unfold price_error_at. etransitivity.
    { apply (error_at_lookup _ (fun i => "price-" ++ pretty i) price_message bad_price);
        [intros rows; apply shiftErrors_price|auto]. }
    unfold state_after, draft_shifts. rewrite handleShiftChange_run.
    cbn [fst snd formData with_formData FormData.shifts].
    unfold draft_shifts in Hrow. rewrite Hrow.
    rewrite list_lookup_insert_eq by (eapply lookup_lt_Some, Hrow).
    split.
    - intros (r & E & Hb). inversion E; subst r. exact Hb.
    - intros Hb. eexists. split; [reflexivity|exact Hb]. }
  split; [exact K|]. split.
  - apply K. reflexivity.
  - intros n Hn. rewrite K, (parseInt_pretty_above_zero n Hn). cbn.
    destruct (Z.leb_spec n 0); [lia|discriminate].
Qed.

Lemma price_edit_validated_witness :
  let s := with_formData
             (FormData.mk "Desk" "Week"
                [mkShift "2025-12-01" "09:00" "17:00" "Consultation" (Int 70)])
             (initialState "2025-11-30") in
  price_error_at
    (state_after validateForm (state_after (handleShiftChange 0 PriceField "") s)) 0
  /\ ~ price_error_at
         (state_after validateForm
            (state_after (handleShiftChange 0 PriceField "85") s)) 0.
Proof.
  intros s.
  destruct (price_edit_validated s 0
              (mkShift "2025-12-01" "09:00" "17:00" "Consultation" (Int 70)) eq_refl)
    as (_ & Hempty & Hpos).
  split; [exact Hempty|]. apply (Hpos 85). lia.
Defined.

(** ** More on saving and deleting *)

Lemma handleSave_valid_effects s o1 o2 :
  formErrors (formData s) = ∅ ->
  exists rest, effects_of (handleSave o1 o2) s = save_request s :: rest.
Proof.
  intros Hvalid. unfold effects_of. destruct (failed o1) eqn:Hfail.
  - rewrite (handleSave_failed_run s o1 o2 Hvalid Hfail). eexists. reflexivity.
  - rewrite (handleSave_succeeded_run s o1 o2 Hvalid Hfail). eexists. reflexivity.
Qed.




Lemma vacancy_url_inj v w : vacancy_url v = vacancy_url w -> Vacancy.id v = Vacancy.id w.
Proof.
  unfold vacancy_url. intros H.
  apply (inj (String.app API_BASE_URL)) in H.
  apply (inj (String.app "/")) in H. apply (inj pretty) in H. exact H.
Qed.

Lemma app_not_self (a b : string) : b <> "" -> a ++ b <> a.
Proof.
  intros Hb E. apply Hb. clear Hb.
  induction a as [|c a IH]; [exact E|].
  apply IH. injection E. trivial.
Qed.

(** X27. A save of a valid draft is addressed by what is being edited:
    a POST to the base URL when no vacancy is, a PUT to the URL of the
    vacancy when one is; the URLs of vacancies with different ids differ
    from one another and from the base URL. *)
Theorem handleSave_target (s : State) (saveOutcome refetchOutcome : NetResult) :
  formErrors (formData s) = ∅ ->
  (editingVacancy s = None ->
     head (requests (effects_of (handleSave saveOutcome refetchOutcome) s))
     = Some ("POST", API_BASE_URL))
  /\ (forall v, editingVacancy s = Some v ->
        head (requests (effects_of (handleSave saveOutcome refetchOutcome) s))
        = Some ("PUT", vacancy_url v))
  /\ (forall v w, vacancy_url v = vacancy_url w -> Vacancy.id v = Vacancy.id w)
  /\ (forall v, vacancy_url v <> API_BASE_URL).
Proof.
  intros Hvalid.
  destruct (handleSave_valid_effects s saveOutcome refetchOutcome Hvalid) as [rest E].
  rewrite E. unfold save_request, save_method, save_url.
  split; [intros ->; reflexivity|]. split; [intros v ->; reflexivity|].
  split; [apply vacancy_url_inj|].
  intros v. unfold vacancy_url. apply app_not_self. discriminate.
Qed.

Lemma handleSave_target_witness :
  let v := Vacancy.mk 12 (Some "Triage") (Some "Weekend triage")
             (Some [mkShift "2025-09-06" "08:00:00" "16:00:00" "Emergency" (Int 140)]) in
  let s := state_after (openDrawer (Some v)) (initialState "2025-09-01") in
  head (requests (effects_of (handleSave (Rejected "offline") (Rejected "offline")) s))
  = Some ("PUT", "http://127.0.0.1:8000/api/vacancy/12").
Proof.
  intros v s.
  destruct (handleSave_target s (Rejected "offline") (Rejected "offline") eq_refl)
    as (_ & H & _).
  apply (H v). reflexivity.
Defined.

Lemma handleSave_result o1 o2 s : result_of (handleSave o1 o2) s = Normal tt.
Proof.
  unfold result_of.
  destruct (decide (formErrors (formData s) = ∅)) as [Hvalid|Hinvalid].
  - destruct (failed o1) eqn:Hfail.
    + rewrite (handleSave_failed_run s o1 o2 Hvalid Hfail). reflexivity.
    + rewrite (handleSave_succeeded_run s o1 o2 Hvalid Hfail). reflexivity.
  - rewrite (handleSave_invalid_run s o1 o2 Hinvalid). reflexivity.
Qed.

Lemma handleDelete_result answer o1 o2 s :
  result_of (handleDelete answer o1 o2) s = Normal tt.
Proof.
  unfold result_of. destruct (editingVacancy s) as [v|] eqn:Hedit.
  - destruct answer.
    + destruct (failed o1) eqn:Hfail.
      * rewrite (handleDelete_failed_run s v o1 o2 Hedit Hfail). reflexivity.
      * rewrite (handleDelete_succeeded_run s v o1 o2 Hedit Hfail). reflexivity.
    + rewrite (handleDelete_declined_run s v o1 o2 Hedit). reflexivity.
  - rewrite (handleDelete_idle_run s answer o1 o2 Hedit). reflexivity.
Qed.

(** X28. No handler lets an error escape: whatever the state, the
    answers of the network and of the user, every event of the component
    is handled to its normal end; the errors thrown inside the fetch, the
    save and the delete are all caught there. *)
Theorem handlers_never_throw (s : State) (e : Event) :
  result_of (handle e) s = Normal tt.
Proof.
  destruct e; cbn [handle].
  - unfold result_of. rewrite fetchVacancies_normal. reflexivity.
  - reflexivity.
  - reflexivity.
  - reflexivity.
  - unfold result_of. destruct vacancy as [v|];
      [rewrite openDrawer_source_run|rewrite openDrawer_empty_run]; reflexivity.
  - reflexivity.
  - reflexivity.
  - reflexivity.
  - unfold result_of.
    destruct (Str.truthy (dateInput s)
              && negb (has_date (dateInput s) (FormData.shifts (formData s)))) eqn:G;
      [rewrite (addShift_add_run s G)|rewrite (addShift_skip_run s G)]; reflexivity.
  - reflexivity.
  - reflexivity.
  - apply handleSave_result.
  - apply handleDelete_result.
Qed.

(** X29. [handleDelete] does nothing at all while no vacancy is being
    edited, in particular after the drawer has been closed, and nothing
    but asking when the user declines: no request is sent and the state
    is as before. *)
Theorem handleDelete_guards (s : State) (answer : bool)
    (deleteOutcome refetchOutcome : NetResult) :
  (editingVacancy s = None ->
     state_after (handleDelete answer deleteOutcome refetchOutcome) s = s
     /\ effects_of (handleDelete answer deleteOutcome refetchOutcome) s = [])
  /\ effects_of (handleDelete answer deleteOutcome refetchOutcome)
       (state_after closeDrawer s) = []
  /\ state_after (handleDelete false deleteOutcome refetchOutcome) s = s
  /\ requests (effects_of (handleDelete false deleteOutcome refetchOutcome) s) = []
  /\ alerts (effects_of (handleDelete false deleteOutcome refetchOutcome) s) = [].
Proof.
  unfold state_after, effects_of. split; [|split].
  - intros H. rewrite (handleDelete_idle_run s answer _ _ H). split; reflexivity.
  - rewrite closeDrawer_run. cbn [fst snd].
    rewrite handleDelete_idle_run; reflexivity.
  - destruct (editingVacancy s) as [v|] eqn:Hedit.
    + rewrite (handleDelete_declined_run s v _ _ Hedit). repeat split; reflexivity.
    + rewrite (handleDelete_idle_run s false _ _ Hedit). repeat split; reflexivity.
Qed.

Lemma handleDelete_guards_witness :
  let s := initialState "2025-09-01" in
  state_after (handleDelete true (Rejected "offline") (Rejected "offline")) s = s
  /\ effects_of (handleDelete true (Rejected "offline") (Rejected "offline")) s = [].
Proof.
  intros s.
  apply (handleDelete_guards s true (Rejected "offline") (Rejected "offline")).
  reflexivity.
Defined.
